(** * Order fulfilment workflow of the inventory micro-services

    A shallow embedding of the order service's two writing handlers
    ([createOrder], [createBulkOrder]), of the helpers they call
    ([getProductInfo], [updateProductStock], [publishEvent]) and of the
    inventory service's [updateProduct] handler, followed by the properties
    of the workflow; then the code around them (the order service's read
    handlers, the other handlers of the inventory service, the gateway's
    proxy, the consumers of the events) and its properties.

    Modelling conventions.
    - Go [int] is a 64-bit two's complement integer: values are [Z], and the
      one arithmetic operation the handlers perform on them (the subtraction
      that computes the new stock) wraps around ([Go.sub]).
    - Go [float64] is Rocq's primitive binary64 [float]; [float64(n)] is
      [Go.float64].
    - JSON bodies are modelled after decoding / before encoding, as typed
      records; the ways [encoding/json] can fail on the values the code
      builds are kept: a NaN or infinite number ([Go.json_number_ok]) and a
      [time.Time] whose year has more than four digits ([Go.json_time_ok]).
    - Everything outside the process (the HTTP transport, the SQL store's
      accept/reject decision and the values it assigns, the Kafka broker,
      the clock) is an oracle of the record [Env]; the theorems quantify
      over every such environment.  The orders table itself is explicit: a
      list of rows, with the rows of an open transaction kept apart until
      commit.  A stored row holds the values bound to the INSERT statement's
      parameters, as the columns keep them: a [DECIMAL(10, 2)] column keeps
      its number at two decimal places ([decimal_10_2]).
    - Prometheus counters and timers are left out. *)

From Stdlib Require Import ZArith Lia.
From Stdlib Require Import PrimFloat Uint63 FloatOps SpecFloat.
From stdpp Require Import gmap strings list pretty sorting.

Open Scope Z_scope.

(** ** Go values *)

Module Go.

Definition int_min : Z := - 2 ^ 63.
Definition int_max : Z := 2 ^ 63 - 1.

(** Two's complement wrap-around of a 64-bit result. *)
Definition wrap (z : Z) : Z := (z + 2 ^ 63) mod 2 ^ 64 - 2 ^ 63.

(** [a - b] on [int]. *)
Definition sub (a b : Z) : Z := wrap (a - b).

(** [float64(z)] for an [int] [z]: conversion with rounding to nearest. *)
Definition float64 (z : Z) : float :=
  if z =? int_min then (-9223372036854775808)%float
  else if z <? 0 then PrimFloat.opp (PrimFloat.of_uint63 (Uint63.of_Z (- z)))
  else PrimFloat.of_uint63 (Uint63.of_Z z).

(** [encoding/json] refuses NaN and the infinities. *)
Definition json_number_ok (f : float) : bool := PrimFloat.is_finite f.

(** The text of the [*json.UnsupportedValueError] it returns for one: the
    number is printed by [strconv.FormatFloat(f, 'g', -1, 64)]. *)
Definition unsupported_value (f : float) : string :=
  "json: unsupported value: "
  +:+ (if PrimFloat.is_nan f then "NaN"
       else if (f <? 0)%float then "-Inf" else "+Inf").

(** A [time.Time], in seconds since the Unix epoch (UTC).  Its [MarshalJSON]
    refuses a year outside 0..9999. *)
Definition json_time_ok (t : Z) : bool :=
  (-62167219200 <=? t) && (t <=? 253402300799).

(** The line feed that [http.Error] and [Encoder.Encode] write after their
    text, and the double quote of JSON. *)
Definition newline : string := String (Ascii.ascii_of_nat 10) "".
Definition quote : string := String (Ascii.ascii_of_nat 34) "".

(** A call that returns [(T, error)]. *)
Inductive result (A : Type) : Type :=
| Ok (a : A)
| Err (msg : string).
Arguments Ok {A} a.
Arguments Err {A} msg.

Definition StatusOK : Z := 200.
Definition StatusCreated : Z := 201.
Definition StatusBadRequest : Z := 400.
Definition StatusNotFound : Z := 404.
Definition StatusInternalServerError : Z := 500.

End Go.

Import Go.

(** Timestamps are opaque to the handlers; they are carried as the seconds
    since the Unix epoch. *)
Definition Time : Type := Z.

(** ** The store's [DECIMAL(10, 2)] columns *)

(** [floor (m * 2^e * 1000)]: the thousandths below a positive [float64]. *)
Definition thousandths_below (m : positive) (e : Z) : Z :=
  if 0 <=? e then Z.pos m * 2 ^ e * 1000 else (Z.pos m * 1000) / 2 ^ (- e).

(** What a [DECIMAL(10, 2)] column keeps of a [float64] parameter, as a
    later [Scan] reads it back into a [float64] ([orders.total_price],
    [products.price] and [payments.amount] are such columns).

    The driver sends the parameter as the shortest decimal text that reads
    back as the same [float64] ([strconv.FormatFloat(v, 'f', -1, 64)]); the
    store rounds that decimal to two places, halves away from zero; reading
    back gives the [float64] nearest to the result.  The shortest decimal
    has at most three places exactly when a multiple of 0.001 beside the
    value ([t] or [t + 1] thousandths) reads back as the value, and the
    rounding then starts from that multiple; otherwise more places follow
    and no tie can occur.  Zero is kept without its sign.

    The ten digits of precision bound what the store accepts: a PostgreSQL
    store refuses an infinity and a number that rounds to 10^8 or more.
    Accepting is the part of the oracle [db_insert]; for a value that cannot
    fit, the function says what a store without that bound keeps: the value
    as it is.  NaN is a value of the column and is kept. *)
Definition decimal_10_2 (f : float) : float :=
  match Prim2SF f with
  | S754_zero _ => 0%float
  | S754_infinity _ | S754_nan => f
  | S754_finite negative m e =>
      let a := PrimFloat.abs f in
      if (134217728 <=? a)%float then f
      else
        let t := thousandths_below m e in
        let reads_back k := (PrimFloat.div (Go.float64 k) 1000 =? a)%float in
        let hundredths :=
          if negb (reads_back t) && reads_back (t + 1) then (t + 6) / 10
          else (t + 5) / 10 in
        if 10 ^ 10 <=? hundredths then f
        else if hundredths =? 0 then 0%float
        else
          let r := PrimFloat.div (Go.float64 hundredths) 100 in
          if negative then PrimFloat.opp r else r
  end.

(** ** Order service: data *)

(** [Product]: product info as the order service decodes it. *)
Module Product.
Record t : Type := mk {
  ID : Z;
  Name : string;
  Price : float;
  Stock : Z
}.
End Product.

(** [Order]: a customer order, also the shape of a row of table [orders]. *)
Module Order.
Record t : Type := mk {
  ID : Z;
  UserID : Z;
  ProductID : Z;
  Quantity : Z;
  TotalPrice : float;
  Status : string;
  CreatedAt : Time
}.
End Order.

(** The anonymous request struct of [createOrder]. *)
Module OrderReq.
Record t : Type := mk {
  ProductID : Z;
  Quantity : Z;
  UserID : Z
}.
End OrderReq.

(** An element of [BulkOrderRequest.Items]. *)
Module Item.
Record t : Type := mk {
  ProductID : Z;
  Quantity : Z
}.
End Item.

(** [ValidatedItem], local to [createBulkOrder]. *)
Module ValidatedItem.
Record t : Type := mk {
  ProductID : Z;
  Quantity : Z;
  Product : Product.t
}.
End ValidatedItem.

(** The map [updateProductStock] marshals into the PUT body. *)
Module UpdateData.
Record t : Type := mk {
  name : string;
  description : string;
  price : float;
  stock : Z
}.
End UpdateData.

(** The map handed to [publishEvent] by the order handlers. *)
Module Event.
Record t : Type := mk {
  event_type : string;
  order_id : Z;
  product_id : Z;
  quantity : Z;
  total_price : float;
  timestamp : Z
}.
End Event.

(** The parameters of an [INSERT INTO orders (...) VALUES (...)]: the bulk
    statement has no [user_id] column. *)
Module Insert.
Record t : Type := mk {
  product_id : Z;
  quantity : Z;
  total_price : float;
  status : string;
  user_id : option Z
}.
End Insert.

(** What a handler writes to its [http.ResponseWriter]. *)
Inductive Body : Type :=
| Text (msg : string)                (* http.Error *)
| JsonOrder (o : Order.t)            (* Encode(order) *)
| JsonOrders (l : list Order.t)      (* Encode(createdOrders) *)
| NoBody.                            (* Encode failed: nothing is written *)

Record Response : Type := mkResponse {
  status : Z;
  body : Body
}.

Definition http_Error (msg : string) (code : Z) : Response :=
  mkResponse code (Text msg).

(** [json.Marshal] succeeds on an [Order]. *)
Definition order_marshals (o : Order.t) : bool :=
  json_number_ok (Order.TotalPrice o) && json_time_ok (Order.CreatedAt o).

(** [json.NewEncoder(w).Encode(order)]: the encoder marshals the whole value
    before it writes; when that fails the error is dropped by the handlers
    and nothing has been written. *)
Definition Encode_order (order : Order.t) : Body :=
  if order_marshals order then JsonOrder order else NoBody.

(** [json.NewEncoder(w).Encode(orders)] for a slice of orders. *)
Definition Encode_orders (orders : list Order.t) : Body :=
  if forallb order_marshals orders then JsonOrders orders else NoBody.

(** ** Order service: environment and observable effects *)

(** The outside world during one handler invocation.  The [nat] argument of
    an oracle is the position of the line item the call is made for (0 for
    the single-item handler). *)
Record Env : Type := mkEnv {
  (* GET /products/{id}: transport error, or status code and decoded body *)
  http_get : nat -> Z -> result (Z * result Product.t);
  (* PUT /products/{id}: transport error, or status code and body text *)
  http_put : nat -> Z -> UpdateData.t -> result (Z * string);
  (* INSERT ... RETURNING id, created_at *)
  db_insert : nat -> Insert.t -> result (Z * Time);
  db_begin : result unit;
  db_commit : result unit;
  kafka_write : nat -> Event.t -> result unit;
  (* time.Now().Unix() *)
  now_unix : nat -> Z
}.

(** What a handler does, in order.  [UpdateProductStock] and [PublishEvent]
    mark the calls of those two functions; [HttpPut] and [KafkaWrite] are the
    network operations they perform.  A [Log] line carries the fixed text of
    its format and the error it reports. *)
Inductive Effect : Type :=
| HttpGet (productID : Z)
| DbInsert (p : Insert.t)
| TxBegin
| TxInsert (p : Insert.t)
| TxCommit
| TxRollback
| UpdateProductStock (productID : Z) (product : Product.t) (newStock : Z)
| HttpPut (productID : Z) (payload : UpdateData.t)
| PublishEvent (event : Event.t)
| KafkaWrite (event : Event.t)
| Log (msg : string).

(** The row the store creates for an accepted INSERT: the statement's
    columns take its parameters, [total_price] at the scale of its column,
    [user_id] defaults to 0, and [id] and [created_at] are the store's. *)
Definition stored_row (p : Insert.t) (id : Z) (created_at : Time) : Order.t :=
  Order.mk id (default 0 (Insert.user_id p)) (Insert.product_id p)
           (Insert.quantity p) (decimal_10_2 (Insert.total_price p))
           (Insert.status p) created_at.

(** [db.QueryRow(INSERT ...).Scan(&id, &created_at)] in auto-commit mode. *)
Definition db_QueryRow (env : Env) (n : nat) (p : Insert.t) (rows : list Order.t)
  : result (Z * Time) * list Order.t :=
  match db_insert env n p with
  | Err e => (Err e, rows)
  | Ok (id, ts) => (Ok (id, ts), rows ++ [stored_row p id ts])
  end.

(** A [*sql.Tx]: the rows written so far, invisible until commit. *)
Record Tx : Type := mkTx {
  pending : list Order.t;
  finished : bool
}.

Definition tx_QueryRow (env : Env) (n : nat) (p : Insert.t) (tx : Tx)
  : result (Z * Time) * Tx :=
  match db_insert env n p with
  | Err e => (Err e, tx)
  | Ok (id, ts) => (Ok (id, ts), mkTx (pending tx ++ [stored_row p id ts]) (finished tx))
  end.

(** [tx.Commit()]: on success the pending rows join the table; either way
    the transaction is over. *)
Definition tx_Commit (env : Env) (tx : Tx) (rows : list Order.t)
  : result unit * Tx * list Order.t :=
  match db_commit env with
  | Err e => (Err e, mkTx [] true, rows)
  | Ok u => (Ok u, mkTx [] true, rows ++ pending tx)
  end.

(** [tx.Rollback()]: drops the pending rows; a no-op on a finished
    transaction.  The table is untouched in both cases. *)
Definition tx_Rollback (tx : Tx) (rows : list Order.t) : Tx * list Order.t :=
  (mkTx [] true, rows).

(** ** Order service: helpers *)

Definition getProductInfo (env : Env) (n : nat) (productID : Z)
  : result Product.t :=
  match http_get env n productID with
  | Err e => Err e
  | Ok (code, decoded) =>
      if negb (code =? StatusOK) then Err "product not found"
      else match decoded with
           | Err e => Err e
           | Ok product => Ok product
           end
  end.

Definition updateData (product : Product.t) (newStock : Z) : UpdateData.t :=
  UpdateData.mk (Product.Name product) "" (Product.Price product) newStock.

(** Returns the Go [error] ([None] is [nil]) and the network operation made.
    Building the request can only fail on a malformed base URL, which the
    fetch made before would have met too; that failure is part of the
    transport error of [http_put]. *)
Definition updateProductStock (env : Env) (n : nat) (productID : Z)
    (product : Product.t) (newStock : Z) : option string * list Effect :=
  let data := updateData product newStock in
  if negb (json_number_ok (UpdateData.price data))
  then (Some (unsupported_value (UpdateData.price data)), [])   (* json.Marshal fails *)
  else match http_put env n productID data with
       | Err e => (Some e, [HttpPut productID data])
       | Ok (code, text) =>
           if negb (code =? StatusOK)
           then (Some ("failed to update stock: " +:+ text), [HttpPut productID data])
           else (None, [HttpPut productID data])
       end.

Definition publishEvent (env : Env) (n : nat) (event : Event.t) : list Effect :=
  if negb (json_number_ok (Event.total_price event))
  then [Log ("Failed to marshal event: " +:+ unsupported_value (Event.total_price event))]
  else match kafka_write env n event with
       | Err e => [KafkaWrite event; Log ("Failed to publish event to Kafka: " +:+ e)]
       | Ok _ => [KafkaWrite event; Log "Published event"]
       end.

Definition order_created (env : Env) (n : nat) (order : Order.t) : Event.t :=
  Event.mk "order_created" (Order.ID order) (Order.ProductID order)
           (Order.Quantity order) (Order.TotalPrice order) (now_unix env n).

(** The stock update and event publication that follow a persisted order:
    the tail shared by [createOrder] and the body of the external-phase loop
    of [createBulkOrder]. *)
Definition sideEffects (env : Env) (n : nat) (productID quantity : Z)
    (product : Product.t) (order : Order.t) (failure_prefix : string)
  : list Effect :=
  let newStock := Go.sub (Product.Stock product) quantity in
  let '(err, io) := updateProductStock env n productID product newStock in
  let logged := match err with
                | Some e => [Log (failure_prefix +:+ e)]
                | None => []
                end in
  [UpdateProductStock productID product newStock] ++ io ++ logged
  ++ [PublishEvent (order_created env n order)]
  ++ publishEvent env n (order_created env n order).

(** The result of running a handler: the response (or [None] when the
    handler panicked), the orders table afterwards, and what it did. *)
Record Outcome : Type := mkOutcome {
  response : option Response;
  table : list Order.t;
  trace : list Effect
}.

(** ** Order service: [createOrder] *)

Definition createOrder (env : Env) (decoded : result OrderReq.t)
    (rows : list Order.t) : Outcome :=
  match decoded with
  | Err e => mkOutcome (Some (http_Error e StatusBadRequest)) rows []
  | Ok orderReq =>
    let pid := OrderReq.ProductID orderReq in
    let qty := OrderReq.Quantity orderReq in
    match getProductInfo env 0 pid with
    | Err e =>
        mkOutcome
          (Some (http_Error ("Failed to fetch product info: " +:+ e)
                            StatusInternalServerError))
          rows [HttpGet pid]
    | Ok product =>
      if Product.Stock product <? qty
      then mkOutcome (Some (http_Error "Insufficient stock" StatusBadRequest))
                     rows [HttpGet pid]
      else
        let totalPrice := PrimFloat.mul (Product.Price product) (Go.float64 qty) in
        let p := Insert.mk pid qty totalPrice "confirmed"
                           (Some (OrderReq.UserID orderReq)) in
        match db_QueryRow env 0 p rows with
        | (Err e, rows') =>
            mkOutcome (Some (http_Error e StatusInternalServerError))
                      rows' [HttpGet pid; DbInsert p]
        | (Ok (id, created_at), rows') =>
            let order := Order.mk id (OrderReq.UserID orderReq) pid qty
                                  totalPrice "confirmed" created_at in
            mkOutcome (Some (mkResponse StatusCreated (Encode_order order)))
                      rows'
                      ([HttpGet pid; DbInsert p]
                       ++ sideEffects env 0 pid qty product order
                            "Failed to update inventory: ")
        end
    end
  end.

(** ** Order service: [createBulkOrder] *)

(** The outcome of the validation loop: the error response of the first
    item that fails, or the validated items. *)
Inductive Validation : Type :=
| Rejected (r : Response)
| Validated (validatedItems : list ValidatedItem.t).

(** The validation loop, from line item number [n] on. *)
Fixpoint validationPhase (env : Env) (n : nat) (items : list Item.t)
  : Validation * list Effect :=
  match items with
  | [] => (Validated [], [])
  | item :: rest =>
    let pid := Item.ProductID item in
    match getProductInfo env n pid with
    | Err e =>
        (Rejected (http_Error ("Failed to fetch product " +:+ pretty pid +:+ ": " +:+ e)
                              StatusBadRequest),
         [HttpGet pid])
    | Ok product =>
      if Product.Stock product <? Item.Quantity item
      then (Rejected (http_Error ("Insufficient stock for product " +:+ pretty pid)
                                 StatusBadRequest),
            [HttpGet pid])
      else
        match validationPhase env (S n) rest with
        | (Rejected r, eff) => (Rejected r, HttpGet pid :: eff)
        | (Validated vs, eff) =>
            (Validated (ValidatedItem.mk pid (Item.Quantity item) product :: vs),
             HttpGet pid :: eff)
        end
    end
  end.

(** The insert loop inside the transaction, from validated item number [n]
    on: the orders created, or the error of the first insert that fails. *)
Fixpoint transactionPhase (env : Env) (n : nat)
    (validatedItems : list ValidatedItem.t) (tx : Tx)
  : result (list Order.t) * Tx * list Effect :=
  match validatedItems with
  | [] => (Ok [], tx, [])
  | item :: rest =>
    let pid := ValidatedItem.ProductID item in
    let qty := ValidatedItem.Quantity item in
    let totalPrice :=
      PrimFloat.mul (Product.Price (ValidatedItem.Product item)) (Go.float64 qty) in
    let p := Insert.mk pid qty totalPrice "confirmed" None in
    match tx_QueryRow env n p tx with
    | (Err e, tx') =>
        (Err e, tx',
         [TxInsert p;
          Log ("Failed to create order for product " +:+ pretty pid +:+ ": " +:+ e)])
    | (Ok (id, created_at), tx') =>
        let order := Order.mk id 0 pid qty totalPrice "confirmed" created_at in
        match transactionPhase env (S n) rest tx' with
        | (Err e, tx'', eff) => (Err e, tx'', TxInsert p :: eff)
        | (Ok orders, tx'', eff) => (Ok (order :: orders), tx'', TxInsert p :: eff)
        end
    end
  end.

(** The external-phase loop, from created order number [i] on.  The item of
    an order is [validatedItems[i]]; an index out of range panics, which the
    boolean reports ([false]), after the effects made so far. *)
Fixpoint externalPhase (env : Env) (i : nat) (createdOrders : list Order.t)
    (validatedItems : list ValidatedItem.t) : list Effect * bool :=
  match createdOrders with
  | [] => ([], true)
  | order :: rest =>
    match validatedItems !! i with
    | None => ([], false)
    | Some item =>
      let pid := ValidatedItem.ProductID item in
      let eff := sideEffects env i pid (ValidatedItem.Quantity item)
                   (ValidatedItem.Product item) order
                   ("Failed to update inventory for product " +:+ pretty pid +:+ ": ") in
      let '(eff', completed) := externalPhase env (S i) rest validatedItems in
      (eff ++ eff', completed)
    end
  end.

Definition createBulkOrder (env : Env) (decoded : result (list Item.t))
    (rows : list Order.t) : Outcome :=
  match decoded with
  | Err e => mkOutcome (Some (http_Error e StatusBadRequest)) rows []
  | Ok items =>
    (* Validation Phase *)
    match validationPhase env 0 items with
    | (Rejected r, eff_v) => mkOutcome (Some r) rows eff_v
    | (Validated validatedItems, eff_v) =>
      (* Transaction Phase *)
      match db_begin env with
      | Err _ =>
          mkOutcome (Some (http_Error "Failed to start transaction"
                                      StatusInternalServerError))
                    rows (eff_v ++ [TxBegin])
      | Ok _ =>
        let tx := mkTx [] false in
        match transactionPhase env 0 validatedItems tx with
        | (Err _, tx1, eff_t) =>
            let '(_, rows1) := tx_Rollback tx1 rows in
            mkOutcome (Some (http_Error "Internal Server Error"
                                        StatusInternalServerError))
                      rows1 (eff_v ++ [TxBegin] ++ eff_t ++ [TxRollback])
        | (Ok createdOrders, tx1, eff_t) =>
          match tx_Commit env tx1 rows with
          | (Err e, tx2, rows2) =>
              let '(_, rows3) := tx_Rollback tx2 rows2 in
              mkOutcome (Some (http_Error "Internal Server Error"
                                          StatusInternalServerError))
                        rows3
                        (eff_v ++ [TxBegin] ++ eff_t
                         ++ [TxCommit; Log ("Failed to commit transaction: " +:+ e);
                             TxRollback])
          | (Ok _, tx2, rows2) =>
              (* External Phase (Inventory & Kafka) *)
              let '(eff_x, completed) :=
                externalPhase env 0 createdOrders validatedItems in
              let '(_, rows3) := tx_Rollback tx2 rows2 in
              mkOutcome
                (if completed
                 then Some (mkResponse StatusCreated (Encode_orders createdOrders))
                 else None)
                rows3
                (eff_v ++ [TxBegin] ++ eff_t ++ [TxCommit] ++ eff_x ++ [TxRollback])
          end
        end
      end
    end
  end.

(** ** Inventory service: [updateProduct] *)

Module Inventory.

(** [Product]: an inventory item, also the shape of a row of [products]. *)
Module Product.
Record t : Type := mk {
  ID : Z;
  Name : string;
  Description : string;
  Price : float;
  Stock : Z;
  CreatedAt : Time
}.
End Product.

(** The maps handed to [publishEvent] by [updateProduct]. *)
Module Event.
Record t : Type := mk {
  event_type : string;
  product_id : Z;
  name : string;
  stock : Z;
  timestamp : Z
}.
End Event.

Inductive Body : Type :=
| Text (msg : string)         (* http.Error *)
| Message (msg : string).     (* Encode(map[string]string{"message": msg}) *)

Record Response : Type := mkResponse {
  status : Z;
  body : Body
}.

(** The bytes of a body: [http.Error] writes its text and a line feed,
    [Encode] the JSON object and a line feed (the messages the handlers
    send hold no character that JSON escapes). *)
Definition body_text (b : Body) : string :=
  match b with
  | Text msg => msg +:+ newline
  | Message msg =>
      "{" +:+ quote +:+ "message" +:+ quote +:+ ":" +:+ quote +:+ msg +:+ quote
      +:+ "}" +:+ newline
  end.

(** The environment of one [updateProduct] invocation: whether the store
    executes the UPDATE, and the clock.  The path variable [id] is modelled
    by the integer it spells (the order service prints it with [%d]). *)
Record Env : Type := mkEnv {
  db_exec : result unit;
  now_unix : Z
}.

(** [UPDATE products SET name = $1, description = $2, price = $3, stock = $4
    WHERE id = $5]: the four columns of the matching row take the
    parameters, [price] at the scale of its column; the result is the
    number of rows affected. *)
Definition db_update (name description : string) (price : float) (stock : Z)
    (id : Z) (products : gmap Z Product.t) : gmap Z Product.t * Z :=
  match products !! id with
  | None => (products, 0)
  | Some row =>
      (<[id := Product.mk (Product.ID row) name description (decimal_10_2 price)
                          stock (Product.CreatedAt row)]> products, 1)
  end.

(** The handler: the response, the table afterwards, the events published. *)
Definition updateProduct (env : Env) (id : Z) (decoded : result Product.t)
    (products : gmap Z Product.t)
  : Response * gmap Z Product.t * list Event.t :=
  match decoded with
  | Err e => (mkResponse StatusBadRequest (Text e), products, [])
  | Ok p =>
    match db_exec env with
    | Err e => (mkResponse StatusInternalServerError (Text e), products, [])
    | Ok _ =>
      let '(products', rowsAffected) :=
        db_update (Product.Name p) (Product.Description p) (Product.Price p)
                  (Product.Stock p) id products in
      if rowsAffected =? 0
      then (mkResponse StatusNotFound (Text "Product not found"), products', [])
      else
        let event := Event.mk "product_updated" id (Product.Name p)
                              (Product.Stock p) (now_unix env) in
        let lowStock :=
          if Product.Stock p <? 10
          then [Event.mk "low_stock_alert" id (Product.Name p)
                         (Product.Stock p) (now_unix env)]
          else [] in
        (mkResponse StatusOK (Message "Product updated successfully"),
         products', event :: lowStock)
    end
  end.

(** Decoding the body sent by the order service into a [Product]: the four
    keys fill their fields, the fields without a key keep their zero value. *)
Definition decode_update (data : UpdateData.t) : Product.t :=
  Product.mk 0 (UpdateData.name data) (UpdateData.description data)
             (UpdateData.price data) (UpdateData.stock data) 0.

End Inventory.

(** The order service's PUT transport when the request reaches the inventory
    service's [updateProduct] running on table [products]: status code and
    body text of its response. *)
Definition put_reaches_inventory (ienv : Inventory.Env)
    (products : gmap Z Inventory.Product.t) (id : Z) (data : UpdateData.t)
  : result (Z * string) :=
  let '(resp, _, _) :=
    Inventory.updateProduct ienv id (Ok (Inventory.decode_update data)) products in
  Ok (Inventory.status resp, Inventory.body_text (Inventory.body resp)).

(** ** Vocabulary of the properties *)

(** Two environments that answer alike wherever validation and persistence
    look: product fetches and the store.  They may differ on the stock
    update, the event bus and the clock. *)
Definition same_validation_and_persistence (e1 e2 : Env) : Prop :=
  (forall n pid, http_get e1 n pid = http_get e2 n pid)
  /\ (forall n p, db_insert e1 n p = db_insert e2 n p)
  /\ db_begin e1 = db_begin e2
  /\ db_commit e1 = db_commit e2.

(** The inventory service cannot be reached (or times out), or answers with
    a status other than 200, when line item [n] fetches product [pid]. *)
Definition upstream_unavailable (env : Env) (n : nat) (pid : Z) : Prop :=
  (exists e, http_get env n pid = Err e)
  \/ (exists code decoded, http_get env n pid = Ok (code, decoded) /\ code <> StatusOK).

(** Line item [n], asking [qty] of product [pid], passes validation. *)
Definition passes (env : Env) (n : nat) (pid qty : Z) : bool :=
  match getProductInfo env n pid with
  | Ok product => negb (Product.Stock product <? qty)
  | Err _ => false
  end.

(** The error response the validation loop gives for line item [n] when it
    does not pass. *)
Definition rejection (env : Env) (n : nat) (pid : Z) : Response :=
  match getProductInfo env n pid with
  | Err e =>
      http_Error ("Failed to fetch product " +:+ pretty pid +:+ ": " +:+ e)
                 StatusBadRequest
  | Ok _ =>
      http_Error ("Insufficient stock for product " +:+ pretty pid) StatusBadRequest
  end.

Definition fetch_of (item : Item.t) : Effect := HttpGet (Item.ProductID item).

(** The INSERT parameters of a validated bulk item. *)
Definition insert_of (v : ValidatedItem.t) : Insert.t :=
  Insert.mk (ValidatedItem.ProductID v) (ValidatedItem.Quantity v)
            (PrimFloat.mul (Product.Price (ValidatedItem.Product v))
                           (Go.float64 (ValidatedItem.Quantity v)))
            "confirmed" None.

Definition is_fetch (e : Effect) : bool :=
  match e with HttpGet _ => true | _ => false end.

Definition is_db_effect (e : Effect) : bool :=
  match e with
  | DbInsert _ | TxBegin | TxInsert _ | TxCommit | TxRollback => true
  | _ => false
  end.

Definition is_call (e : Effect) : bool :=
  match e with
  | UpdateProductStock _ _ _ | PublishEvent _ => true
  | _ => false
  end.

(** The calls the external phase owes to the orders created for the
    validated items, from position [i] on: per order, the stock update with
    the snapshot's stock less the quantity, then the event. *)
Fixpoint expected_calls (env : Env) (i : nat) (vs : list ValidatedItem.t)
    (created : list Order.t) : list Effect :=
  match vs, created with
  | v :: vs', o :: created' =>
      UpdateProductStock (ValidatedItem.ProductID v) (ValidatedItem.Product v)
        (Go.sub (Product.Stock (ValidatedItem.Product v)) (ValidatedItem.Quantity v))
      :: PublishEvent (order_created env i o)
      :: expected_calls env (S i) vs' created'
  | _, _ => []
  end.

Definition is_insert (e : Effect) : bool :=
  match e with DbInsert _ | TxInsert _ => true | _ => false end.

(** The two POST routes of the order service, with their decoded bodies. *)
Inductive Request : Type :=
| PostOrders (decoded : result OrderReq.t)
| PostOrdersBulk (decoded : result (list Item.t)).

(** The router: [/orders] goes to [createOrder], [/orders/bulk] to
    [createBulkOrder]. *)
Definition serve (env : Env) (request : Request) (rows : list Order.t) : Outcome :=
  match request with
  | PostOrders decoded => createOrder env decoded rows
  | PostOrdersBulk decoded => createBulkOrder env decoded rows
  end.

(** The line items a request asks for: one for a single order. *)
Definition lines (request : Request) : list Item.t :=
  match request with
  | PostOrders (Ok req) => [Item.mk (OrderReq.ProductID req) (OrderReq.Quantity req)]
  | PostOrdersBulk (Ok items) => items
  | _ => []
  end.

(** The user a request's orders belong to: bulk orders carry none. *)
Definition user_of (request : Request) : Z :=
  match request with
  | PostOrders (Ok req) => OrderReq.UserID req
  | _ => 0
  end.

(** [vs] pairs every line item with the snapshot its validation fetched,
    whose stock covers the quantity asked. *)
Definition snapshots_of (env : Env) (items : list Item.t)
    (vs : list ValidatedItem.t) : Prop :=
  length vs = length items
  /\ forall i item, items !! i = Some item ->
       exists product,
         getProductInfo env i (Item.ProductID item) = Ok product
         /\ Item.Quantity item <= Product.Stock product
         /\ vs !! i = Some (ValidatedItem.mk (Item.ProductID item)
                                             (Item.Quantity item) product).

(** The confirmed order of user [uid] for a validated item, priced from the
    item's snapshot. *)
Definition order_for (uid : Z) (v : ValidatedItem.t) (id : Z) (created_at : Time)
  : Order.t :=
  Order.mk id uid (ValidatedItem.ProductID v) (ValidatedItem.Quantity v)
           (PrimFloat.mul (Product.Price (ValidatedItem.Product v))
                          (Go.float64 (ValidatedItem.Quantity v)))
           "confirmed" created_at.

(** The row of table [orders] behind an order that a handler has built
    from the parameters of its INSERT and the id and time the store
    returned: the same fields, the total at the scale of its column. *)
Definition persisted (order : Order.t) : Order.t :=
  Order.mk (Order.ID order) (Order.UserID order) (Order.ProductID order)
           (Order.Quantity order) (decimal_10_2 (Order.TotalPrice order))
           (Order.Status order) (Order.CreatedAt order).

(** The body of a 201 answer to [request] whose created orders are
    [created]. *)
Definition created_body (request : Request) (created : list Order.t) : option Body :=
  match request with
  | PostOrders _ => Encode_order <$> head created
  | PostOrdersBulk _ => Some (Encode_orders created)
  end.

(** The parameters of the INSERT a request makes for a validated item: the
    single handler gives the user, the bulk handler gives none. *)
Definition insert_params (request : Request) (v : ValidatedItem.t) : Insert.t :=
  match request with
  | PostOrders _ =>
      Insert.mk (ValidatedItem.ProductID v) (ValidatedItem.Quantity v)
                (PrimFloat.mul (Product.Price (ValidatedItem.Product v))
                               (Go.float64 (ValidatedItem.Quantity v)))
                "confirmed" (Some (user_of request))
  | PostOrdersBulk _ => insert_of v
  end.

(** The single handler writes outside a transaction, the bulk handler
    inside its transaction. *)
Definition insert_effect (request : Request) (v : ValidatedItem.t) : Effect :=
  match request with
  | PostOrders _ => DbInsert (insert_params request v)
  | PostOrdersBulk _ => TxInsert (insert_params request v)
  end.

(** The body of the request could be decoded. *)
Definition decodable (request : Request) : Prop :=
  match request with
  | PostOrders (Ok _) | PostOrdersBulk (Ok _) => True
  | _ => False
  end.

(** The store accepts the insert of every validated item. *)
Definition inserts_accepted (env : Env) (request : Request)
    (vs : list ValidatedItem.t) : Prop :=
  forall i v, vs !! i = Some v ->
    exists id created_at, db_insert env i (insert_params request v) = Ok (id, created_at).

(** The store refuses the insert of some validated item. *)
Definition insert_refused (env : Env) (request : Request)
    (vs : list ValidatedItem.t) : Prop :=
  exists k v e, vs !! k = Some v /\ db_insert env k (insert_params request v) = Err e.

(** The store lets the request's transaction begin and commit; the single
    handler opens none. *)
Definition transaction_accepted (env : Env) (request : Request) : Prop :=
  match request with
  | PostOrders _ => True
  | PostOrdersBulk _ =>
      (exists u, db_begin env = Ok u) /\ (exists u, db_commit env = Ok u)
  end.

(** The prefix of the line logged when the stock update of a validated item
    fails. *)
Definition update_failure_prefix (request : Request) (v : ValidatedItem.t) : string :=
  match request with
  | PostOrders _ => "Failed to update inventory: "
  | PostOrdersBulk _ =>
      "Failed to update inventory for product "
      +:+ pretty (ValidatedItem.ProductID v) +:+ ": "
  end.

(** The status of the answer to a request whose product fetch fails. *)
Definition fetch_failure_status (request : Request) : Z :=
  match request with
  | PostOrders _ => StatusInternalServerError
  | PostOrdersBulk _ => StatusBadRequest
  end.

(** The products table after the inventory service has handled a PUT. *)
Definition inventory_after (ienv : Inventory.Env)
    (products : gmap Z Inventory.Product.t) (id : Z) (data : UpdateData.t)
  : gmap Z Inventory.Product.t :=
  (Inventory.updateProduct ienv id (Ok (Inventory.decode_update data)) products).1.2.

(** ** Concrete scenarios *)

(** The [float64] nearest to [n] hundredths: what a decoder reads from a
    decimal with two places. *)
Definition cents (n : Z) : float := PrimFloat.div (Go.float64 n) 100.

Definition laptop : Product.t := Product.mk 1 "Laptop" 100%float 50.
Definition mouse : Product.t := Product.mk 2 "Mouse" 25.5%float 10.
Definition pen : Product.t := Product.mk 4 "Pen" (cents 10) 200.
Definition anvil : Product.t := Product.mk 5 "Anvil" 0x1p+1023%float 10.
Definition bolt : Product.t := Product.mk 6 "Bolt" 0.125%float 1000.

(** Every collaborator answers: products 1, 2, 4, 5 and 6 exist, the store
    accepts every insert and assigns ids 101, 102, ... and the timestamp
    1700000000. *)
Definition env_up : Env :=
  mkEnv (fun _ pid => if pid =? 1 then Ok (200, Ok laptop)
                      else if pid =? 2 then Ok (200, Ok mouse)
                      else if pid =? 4 then Ok (200, Ok pen)
                      else if pid =? 5 then Ok (200, Ok anvil)
                      else if pid =? 6 then Ok (200, Ok bolt)
                      else Ok (404, Err "EOF"))
        (fun _ _ _ => Ok (200, "{}"))
        (fun n _ => Ok (101 + Z.of_nat n, 1700000000))
        (Ok tt) (Ok tt)
        (fun _ _ => Ok tt)
        (fun _ => 1700000001).

(** As [env_up], but the stock update and the event bus fail. *)
Definition env_external_down : Env :=
  mkEnv (http_get env_up)
        (fun _ _ _ => Err "connection refused")
        (db_insert env_up) (db_begin env_up) (db_commit env_up)
        (fun _ _ => Err "broker unavailable")
        (fun _ => 1700000099).

(** Product 3 has 3 items left. *)
Definition env_low_stock : Env :=
  mkEnv (fun _ _ => Ok (200, Ok (Product.mk 3 "Keyboard" 80%float 3)))
        (http_put env_up) (db_insert env_up) (db_begin env_up)
        (db_commit env_up) (kafka_write env_up) (now_unix env_up).

(** The inventory service cannot be reached at all. *)
Definition env_unreachable : Env :=
  mkEnv (fun _ _ => Err "connection refused")
        (http_put env_external_down)
        (db_insert env_up) (db_begin env_up) (db_commit env_up)
        (kafka_write env_up) (now_unix env_up).

(** As [env_up], but the commit fails. *)
Definition env_commit_fails : Env :=
  mkEnv (http_get env_up) (http_put env_up) (db_insert env_up)
        (db_begin env_up) (Err "commit failed")
        (kafka_write env_up) (now_unix env_up).

Definition inventory_table : gmap Z Inventory.Product.t :=
  {[ 1 := Inventory.Product.mk 1 "Laptop" "High-performance laptop" 100%float 50 1690000000 ]}.

Definition inventory_env : Inventory.Env := Inventory.mkEnv (Ok tt) 1700000002.

(** ** Event maps *)

(** A value of an event map ([map[string]interface{}]).  The producers put
    [int]s, [float64]s and strings in it; [json.Unmarshal] fills it with
    [float64]s, strings and the other values of JSON. *)
Inductive Value : Type :=
| VInt (z : Z)
| VFloat (f : float)
| VString (s : string)
| VOther.                 (* nil, a bool, a slice or a map *)

(** ** Inventory service: the other handlers *)

Module InventoryApi.

Inductive Body : Type :=
| Text (msg : string)                                  (* http.Error *)
| Message (msg : string)                               (* {"message": msg} *)
| JsonProduct (p : Inventory.Product.t)                (* Encode(p) *)
| JsonProducts (l : list Inventory.Product.t)          (* Encode(products) *)
| NoBody.                          (* Encode failed: nothing is written *)

Record Response : Type := mkResponse {
  status : Z;
  body : Body
}.

(** [json.Marshal] succeeds on a [Product]. *)
Definition product_marshals (p : Inventory.Product.t) : bool :=
  json_number_ok (Inventory.Product.Price p)
  && json_time_ok (Inventory.Product.CreatedAt p).

(** [json.NewEncoder(w).Encode(p)], whose error the handlers drop. *)
Definition Encode_product (p : Inventory.Product.t) : Body :=
  if product_marshals p then JsonProduct p else NoBody.

Definition Encode_products (l : list Inventory.Product.t) : Body :=
  if forallb product_marshals l then JsonProducts l else NoBody.

(** Rows of [products] by ascending id, as [ORDER BY id] returns them. *)
Definition by_id (a b : Z * Inventory.Product.t) : Prop := a.1 <= b.1.

#[global] Instance by_id_dec : RelDecision by_id.
Proof. intros a b. unfold by_id. apply _. Defined.

Definition ordered_by_id (products : gmap Z Inventory.Product.t)
  : list Inventory.Product.t :=
  (merge_sort by_id (map_to_list products)).*2.

(** The [limit] that [getProducts] gives to the query: 50 unless the
    parameter parses to a positive number, and never more than 100. *)
Definition products_limit (Atoi : string -> result Z) (limitStr : string) : Z :=
  let limit :=
    if String.eqb limitStr "" then 50
    else match Atoi limitStr with
         | Ok l => if 0 <? l then l else 50
         | Err _ => 50
         end in
  if 100 <? limit then 100 else limit.

(** The [offset]: 0 unless the parameter parses to a number that is not
    negative. *)
Definition products_offset (Atoi : string -> result Z) (offsetStr : string) : Z :=
  if String.eqb offsetStr "" then 0
  else match Atoi offsetStr with
       | Ok o => if 0 <=? o then o else 0
       | Err _ => 0
       end.

(** [getProducts]: [Atoi] is [strconv.Atoi].  The rows of the model are
    typed, so scanning one cannot fail. *)
Definition getProducts (Atoi : string -> result Z) (env : Inventory.Env)
    (limitStr offsetStr : string) (products : gmap Z Inventory.Product.t)
  : Response :=
  let limit := products_limit Atoi limitStr in
  let offset := products_offset Atoi offsetStr in
  match Inventory.db_exec env with
  | Err e => mkResponse StatusInternalServerError (Text e)
  | Ok _ =>
      mkResponse StatusOK
        (Encode_products (take (Z.to_nat limit)
                               (drop (Z.to_nat offset) (ordered_by_id products))))
  end.

Definition getProduct (env : Inventory.Env) (id : Z)
    (products : gmap Z Inventory.Product.t) : Response :=
  match Inventory.db_exec env with
  | Err e => mkResponse StatusInternalServerError (Text e)
  | Ok _ =>
      match products !! id with
      | None => mkResponse StatusNotFound (Text "Product not found")
      | Some p => mkResponse StatusOK (Encode_product p)
      end
  end.

(** [createProduct]: [assigned] is the id and the creation time the store
    gives to the new row; [id] is the primary key, so an id that is taken
    makes the INSERT fail.  The row takes the price at the scale of its
    column; the answer carries the product as decoded, with the id and the
    time read back.  The result is the response, the table and the events
    handed to [publishEvent]. *)
Definition createProduct (env : Inventory.Env) (assigned : Z * Time)
    (decoded : result Inventory.Product.t) (products : gmap Z Inventory.Product.t)
  : Response * gmap Z Inventory.Product.t * list (gmap string Value) :=
  match decoded with
  | Err e => (mkResponse StatusBadRequest (Text e), products, [])
  | Ok p =>
    match Inventory.db_exec env with
    | Err e => (mkResponse StatusInternalServerError (Text e), products, [])
    | Ok _ =>
      let '(id, created_at) := assigned in
      match products !! id with
      | Some _ =>
          (mkResponse StatusInternalServerError
                      (Text ("pq: duplicate key value violates unique constraint "
                             +:+ quote +:+ "products_pkey" +:+ quote)),
           products, [])
      | None =>
          let p' := Inventory.Product.mk id (Inventory.Product.Name p)
                      (Inventory.Product.Description p) (Inventory.Product.Price p)
                      (Inventory.Product.Stock p) created_at in
          let row := Inventory.Product.mk id (Inventory.Product.Name p)
                       (Inventory.Product.Description p)
                       (decimal_10_2 (Inventory.Product.Price p))
                       (Inventory.Product.Stock p) created_at in
          let event : gmap string Value :=
            {[ "event_type" := VString "product_created";
               "product_id" := VInt id;
               "name" := VString (Inventory.Product.Name p);
               "stock" := VInt (Inventory.Product.Stock p);
               "timestamp" := VInt (Inventory.now_unix env) ]} in
          (mkResponse StatusCreated (Encode_product p'), <[id := row]> products,
           [event])
      end
    end
  end.

(** [deleteProduct]: the event carries the id as the path spells it. *)
Definition deleteProduct (env : Inventory.Env) (id : Z)
    (products : gmap Z Inventory.Product.t)
  : Response * gmap Z Inventory.Product.t * list (gmap string Value) :=
  match Inventory.db_exec env with
  | Err e => (mkResponse StatusInternalServerError (Text e), products, [])
  | Ok _ =>
      match products !! id with
      | None => (mkResponse StatusNotFound (Text "Product not found"), products, [])
      | Some _ =>
          let event : gmap string Value :=
            {[ "event_type" := VString "product_deleted";
               "product_id" := VString (pretty id);
               "timestamp" := VInt (Inventory.now_unix env) ]} in
          (mkResponse StatusOK (Message "Product deleted successfully"),
           delete id products, [event])
      end
  end.

(** The maps [updateProduct] hands to [publishEvent]: the id is the path
    variable, a string. *)
Definition update_event_map (e : Inventory.Event.t) : gmap string Value :=
  {[ "event_type" := VString (Inventory.Event.event_type e);
     "product_id" := VString (pretty (Inventory.Event.product_id e));
     "name" := VString (Inventory.Event.name e);
     "stock" := VInt (Inventory.Event.stock e);
     "timestamp" := VInt (Inventory.Event.timestamp e) ]}.

End InventoryApi.

(** ** The order service against a live inventory service *)

(** The order service's GET transport when the request reaches the
    inventory service's [getProduct] on table [products]: the body decodes
    into the four fields the order service keeps; an empty body does not
    decode, and the body of an answer other than 200 is not looked at. *)
Definition get_reaches_inventory (ienv : Inventory.Env)
    (products : gmap Z Inventory.Product.t) (id : Z)
  : result (Z * result Product.t) :=
  let resp := InventoryApi.getProduct ienv id products in
  Ok (InventoryApi.status resp,
      match InventoryApi.body resp with
      | InventoryApi.JsonProduct p =>
          Ok (Product.mk (Inventory.Product.ID p) (Inventory.Product.Name p)
                         (Inventory.Product.Price p) (Inventory.Product.Stock p))
      | InventoryApi.NoBody => Err "EOF"
      | _ => Err "invalid character"
      end).

(** An environment whose inventory calls reach the inventory service on
    table [products]; the store, the bus and the clock are those of
    [env].  The answer of a PUT depends on the table only through the
    presence of the row, which no PUT changes, so the table of the first
    call serves for all. *)
Definition live_env (env : Env) (ienv : Inventory.Env)
    (products : gmap Z Inventory.Product.t) : Env :=
  mkEnv (fun _ pid => get_reaches_inventory ienv products pid)
        (fun _ pid data => put_reaches_inventory ienv products pid data)
        (db_insert env) (db_begin env) (db_commit env)
        (kafka_write env) (now_unix env).

(** The products table after the inventory service has handled, in order,
    the PUTs of a trace. *)
Definition apply_puts (ienv : Inventory.Env) (effects : list Effect)
    (products : gmap Z Inventory.Product.t) : gmap Z Inventory.Product.t :=
  foldl (fun tbl e =>
           match e with
           | HttpPut pid data => inventory_after ienv tbl pid data
           | _ => tbl
           end)
        products effects.

(** ** Order service: the read handlers *)

Module OrderQueries.

(** Rows of [orders] by descending id, as [ORDER BY id DESC] returns them. *)
Definition by_id_desc (a b : Order.t) : Prop := Order.ID b <= Order.ID a.

#[global] Instance by_id_desc_dec : RelDecision by_id_desc.
Proof. intros a b. unfold by_id_desc. apply _. Defined.

(** A paging parameter of [getOrders]: the default when the parameter is
    empty, [None] (answered 400) when it does not parse or is negative. *)
Definition parse_bound (Atoi : string -> result Z) (str : string) (default : Z)
  : option Z :=
  if String.eqb str "" then Some default
  else match Atoi str with
       | Ok n => if n <? 0 then None else Some n
       | Err _ => None
       end.

(** [getOrders]: [Atoi] is [strconv.Atoi], [db_query] tells whether the
    store runs the query.  The rows of the model are typed, so scanning one
    cannot fail.  An answer without [WriteHeader] has status 200. *)
Definition getOrders (Atoi : string -> result Z) (db_query : result unit)
    (limitStr offsetStr : string) (rows : list Order.t) : Response :=
  match parse_bound Atoi limitStr 50 with
  | None => http_Error "Invalid limit" StatusBadRequest
  | Some limit =>
    (* Safety cap on limit *)
    let limit := if 1000 <? limit then 1000 else limit in
    match parse_bound Atoi offsetStr 0 with
    | None => http_Error "Invalid offset" StatusBadRequest
    | Some offset =>
      match db_query with
      | Err e => http_Error e StatusInternalServerError
      | Ok _ =>
          mkResponse StatusOK
            (Encode_orders (take (Z.to_nat limit)
                                 (drop (Z.to_nat offset) (merge_sort by_id_desc rows))))
      end
    end
  end.

(** [getOrder]: the path variable is modelled by the integer it spells. *)
Definition getOrder (db_query : result unit) (id : Z) (rows : list Order.t)
  : Response :=
  match db_query with
  | Err e => http_Error e StatusInternalServerError
  | Ok _ =>
      match list_find (fun o => Order.ID o = id) rows with
      | None => http_Error "Order not found" StatusNotFound
      | Some (_, o) => mkResponse StatusOK (Encode_order o)
      end
  end.

Definition getOrdersByUser (db_query : result unit) (userId : Z)
    (rows : list Order.t) : Response :=
  match db_query with
  | Err e => http_Error e StatusInternalServerError
  | Ok _ =>
      mkResponse StatusOK
        (Encode_orders (merge_sort by_id_desc
                          (List.filter (fun o => Order.UserID o =? userId) rows)))
  end.

End OrderQueries.

(** ** API gateway *)

Module Gateway.

Record Request : Type := mkRequest {
  Method : string;
  Path : string;            (* r.URL.Path *)
  RawQuery : string;        (* r.URL.RawQuery *)
  Header : gmap string (list string);
  Body : string
}.

(** The response of a backend. *)
Record Response : Type := mkResponse {
  StatusCode : Z;
  RespHeader : gmap string (list string);
  RespBody : string
}.

(** What [proxyRequest] writes: an [http.Error], or the backend's response
    copied. *)
Inductive Reply : Type :=
| Error (msg : string) (code : Z)
| Forwarded (resp : Response).

Definition StatusServiceUnavailable : Z := 503.

(** [http_NewRequest] gives the error of [http.NewRequest] for a method and
    a URL it refuses; [http_Do] is the backend behind [httpClient.Do]. *)
Record Env : Type := mkEnv {
  http_NewRequest : string -> string -> option string;
  http_Do : string -> string -> gmap string (list string) -> string -> result Response
}.

(** [h.Add(key, value)]: keys as the server delivers them, canonical. *)
Definition Header_Add (key value : string) (h : gmap string (list string))
  : gmap string (list string) :=
  <[key := default [] (h !! key) ++ [value]]> h.

(** The two nested loops that copy every value of every key of [src]. *)
Definition copy_headers (src dst : gmap string (list string))
  : gmap string (list string) :=
  map_fold (fun key values acc => foldl (fun h value => Header_Add key value h) acc values)
           dst src.

(** [s[n:]]; Go panics when [n] exceeds the length, which is [None]. *)
Definition slice_from (n : nat) (s : string) : option string :=
  if (String.length s <? n)%nat then None
  else Some (String.substring n (String.length s - n) s).

(** The result is [None] when the handler panics. *)
Definition proxyRequest (env : Env) (r : Request)
    (targetURL stripPrefix newPrefix : string) : option Reply :=
  (* Build target URL *)
  let path :=
    if String.eqb stripPrefix "" then Some (Path r)
    else (fun rest => newPrefix +:+ rest)
           <$> slice_from (String.length stripPrefix) (Path r) in
  match path with
  | None => None
  | Some path =>
    let targetURL := targetURL +:+ path in
    let targetURL :=
      if String.eqb (RawQuery r) "" then targetURL
      else targetURL +:+ "?" +:+ RawQuery r in
    match http_NewRequest env (Method r) targetURL with
    | Some _ => Some (Error "Failed to create proxy request" StatusInternalServerError)
    | None =>
      match http_Do env (Method r) targetURL (copy_headers (Header r) ∅) (Body r) with
      | Err _ => Some (Error "Service unavailable" StatusServiceUnavailable)
      | Ok resp =>
          Some (Forwarded (mkResponse (StatusCode resp)
                                      (copy_headers (RespHeader resp) ∅)
                                      (RespBody resp)))
      end
    end
  end.

Definition proxyToInventory (env : Env) (inventoryServiceURL : string) (r : Request)
  : option Reply :=
  proxyRequest env r inventoryServiceURL "/api/products" "/products".

Definition proxyToOrders (env : Env) (orderServiceURL : string) (r : Request)
  : option Reply :=
  proxyRequest env r orderServiceURL "/api/orders" "/orders".

End Gateway.

(** ** Event consumers *)

(** An argument of a [log.Printf] call: a value taken from an event map
    ([None] when the key is absent), or a value of the program. *)
Inductive Arg : Type :=
| AValue (x : option Value)
| AInt (z : Z)
| AFloat (f : float)
| AText (s : string)
| AData.                  (* the bytes [json.Marshal] made of the event *)

(** A call of [log.Printf]: the format and its arguments. *)
Record LogLine : Type := Printf {
  format : string;
  args : list Arg
}.

(** An event map after its trip over the bus: [json.Unmarshal] into a
    [map[string]interface{}] gives every number back as a [float64]; the
    strings of the producers are texts decoded from JSON or literals, which
    come back as they were. *)
Definition wire_value (v : Value) : Value :=
  match v with
  | VInt z => VFloat (Go.float64 z)
  | _ => v
  end.

Definition wire (event : gmap string Value) : gmap string Value :=
  wire_value <$> event.

(** The map the order handlers hand to [publishEvent]. *)
Definition order_event_map (e : Event.t) : gmap string Value :=
  {[ "event_type" := VString (Event.event_type e);
     "order_id" := VInt (Event.order_id e);
     "product_id" := VInt (Event.product_id e);
     "quantity" := VInt (Event.quantity e);
     "total_price" := VFloat (Event.total_price e);
     "timestamp" := VInt (Event.timestamp e) ]}.

(** [v, _ := x.(float64)]: the zero value unless [x] is a [float64]. *)
Definition as_float64 (x : option Value) : float :=
  match x with
  | Some (VFloat f) => f
  | _ => 0%float
  end.

(** [int(f)]: truncation toward zero.  When the value does not fit (or is
    not a number) the language leaves the result to the implementation:
    [unfit f]. *)
Definition int_of_float64 (unfit : float -> Z) (f : float) : Z :=
  match Prim2SF f with
  | S754_zero _ => 0
  | S754_finite negative m e =>
      let magnitude := if 0 <=? e then Z.pos m * 2 ^ e else Z.pos m / 2 ^ (- e) in
      let v := if negative then - magnitude else magnitude in
      if (Go.int_min <=? v) && (v <=? Go.int_max) then v else unfit f
  | _ => unfit f
  end.

(** [Payment]: a payment, also the shape of a row of table [payments]. *)
Module Payment.
Record t : Type := mk {
  ID : Z;
  OrderID : Z;
  Amount : float;
  Status : string;
  CreatedAt : Time
}.
End Payment.

(** The map [processPayment] hands to [publishEvent]. *)
Module PaymentEvent.
Record t : Type := mk {
  event_type : string;
  payment_id : Z;
  order_id : Z;
  amount : float;
  status : string;
  timestamp : Z
}.
End PaymentEvent.

Definition payment_event_map (e : PaymentEvent.t) : gmap string Value :=
  {[ "event_type" := VString (PaymentEvent.event_type e);
     "payment_id" := VInt (PaymentEvent.payment_id e);
     "order_id" := VInt (PaymentEvent.order_id e);
     "amount" := VFloat (PaymentEvent.amount e);
     "status" := VString (PaymentEvent.status e);
     "timestamp" := VInt (PaymentEvent.timestamp e) ]}.

Module PaymentService.

Record Env : Type := mkEnv {
  (* INSERT INTO payments ... RETURNING id, created_at *)
  db_insert : Z -> float -> string -> result (Z * Time);
  kafka_write : PaymentEvent.t -> result unit;
  (* time.Now().Unix() *)
  now_unix : Z;
  (* int(f) on this platform for an f that does not fit *)
  int_unfit : float -> Z
}.

(** What handling a message leaves behind: the payments table, the events
    handed to [publishEvent], and the log. *)
Record Outcome : Type := mkOutcome {
  payments : list Payment.t;
  published : list PaymentEvent.t;
  log : list LogLine
}.

(** [publishEvent]: the log lines it writes. *)
Definition publishEvent (env : Env) (event : PaymentEvent.t) : list LogLine :=
  if negb (json_number_ok (PaymentEvent.amount event))
  then [Printf "Failed to marshal event: %v"
               [AText (unsupported_value (PaymentEvent.amount event))]]
  else match kafka_write env event with
       | Err e => [Printf "Failed to publish event to Kafka: %v" [AText e]]
       | Ok _ => [Printf "Published event: %s" [AData]]
       end.

(** The row the store creates for an accepted INSERT: [amount] at the scale
    of its column. *)
Definition stored_payment (paymentID orderID : Z) (amount : float) (status : string)
    (createdAt : Time) : Payment.t :=
  Payment.mk paymentID orderID (decimal_10_2 amount) status createdAt.

Definition processPayment (env : Env) (event : gmap string Value)
    (table : list Payment.t) : Outcome :=
  (* Extract details safely *)
  let orderIDFloat := as_float64 (event !! "order_id") in
  let amount := as_float64 (event !! "total_price") in
  let orderID := int_of_float64 (int_unfit env) orderIDFloat in
  let started :=
    Printf "Processing payment for Order ID: %d, Amount: %.2f"
           [AInt orderID; AFloat amount] in
  let status : string := "completed" in
  match db_insert env orderID amount status with
  | Err e =>
      mkOutcome table [] [started; Printf "Failed to save payment: %v" [AText e]]
  | Ok (paymentID, createdAt) =>
      let paymentEvent :=
        PaymentEvent.mk "payment_processed" paymentID orderID amount status
                        (now_unix env) in
      mkOutcome (table ++ [stored_payment paymentID orderID amount status createdAt])
                [paymentEvent]
                ([started] ++ publishEvent env paymentEvent
                 ++ [Printf "Payment processed successfully. Payment ID: %d"
                            [AInt paymentID]])
  end.

(** The body of the loop of [consumeMessages] for a message that was read:
    [unmarshaled] is the result of [json.Unmarshal]. *)
Definition consumeMessage (env : Env) (unmarshaled : result (gmap string Value))
    (table : list Payment.t) : Outcome :=
  match unmarshaled with
  | Err e => mkOutcome table [] [Printf "Error unmarshaling message: %v" [AText e]]
  | Ok event =>
      match event !! "event_type" with
      | Some (VString eventType) =>
          if String.eqb eventType "order_created"
          then processPayment env event table
          else mkOutcome table [] []
      | _ => mkOutcome table [] []
      end
  end.

End PaymentService.

Module NotificationService.

Definition processNotification (event : gmap string Value) (eventType : string)
  : LogLine :=
  if String.eqb eventType "order_created" then
    Printf "📧 NOTIFICATION: New order created! Order ID: %.0f, Product ID: %.0f, Quantity: %.0f"
           [AValue (event !! "order_id"); AValue (event !! "product_id");
            AValue (event !! "quantity")]
  else if String.eqb eventType "product_created" then
    Printf "📦 NOTIFICATION: New product added! Product ID: %.0f, Name: %s"
           [AValue (event !! "product_id"); AValue (event !! "name")]
  else if String.eqb eventType "product_updated" then
    Printf "🔄 NOTIFICATION: Product updated! Product ID: %s, Name: %s, Stock: %.0f"
           [AValue (event !! "product_id"); AValue (event !! "name");
            AValue (event !! "stock")]
  else if String.eqb eventType "low_stock_alert" then
    Printf "⚠️  ALERT: Low stock warning! Product ID: %s, Name: %s, Remaining stock: %.0f"
           [AValue (event !! "product_id"); AValue (event !! "name");
            AValue (event !! "stock")]
  else if String.eqb eventType "product_deleted" then
    Printf "🗑️  NOTIFICATION: Product deleted! Product ID: %s"
           [AValue (event !! "product_id")]
  else if String.eqb eventType "payment_processed" then
    Printf "💸 NOTIFICATION: Payment processed! Payment ID: %.0f, Order ID: %.0f, Amount: %.2f, Status: %s"
           [AValue (event !! "payment_id"); AValue (event !! "order_id");
            AValue (event !! "amount"); AValue (event !! "status")]
  else
    Printf "📨 NOTIFICATION: Unknown event type: %s" [AText eventType].

(** The body of the loop of [consumeMessages] for a message that was read:
    the log lines, or [None] when the type assertion on [event_type]
    panics. *)
Definition consumeMessage (unmarshaled : result (gmap string Value))
  : option (list LogLine) :=
  match unmarshaled with
  | Err e => Some [Printf "Error unmarshaling message: %v" [AText e]]
  | Ok event =>
      match event !! "event_type" with
      | Some (VString eventType) => Some [processNotification event eventType]
      | _ => None
      end
  end.

End NotificationService.

(** ** Vocabulary and scenarios of the further properties *)

(** The format of the line the notification service logs for an event type
    it does not know. *)
Definition unknown_format : string := "📨 NOTIFICATION: Unknown event type: %s".

(** The notification service, given the event as the bus delivers it, logs
    one line, and not the line of an unknown type. *)
Definition recognised (event : gmap string Value) : Prop :=
  exists line,
    NotificationService.consumeMessage (Ok (wire event)) = Some [line]
    /\ format line <> unknown_format.

(** The event carries no string under [event_type]. *)
Definition untyped (event : gmap string Value) : Prop :=
  forall t, event !! "event_type" <> Some (VString t).

(** A stand-in for [strconv.Atoi] on the strings of the scenarios. *)
Definition atoi_demo (s : string) : result Z :=
  if String.eqb s "20" then Ok 20
  else if String.eqb s "5000" then Ok 5000
  else if String.eqb s "-1" then Ok (-1)
  else Err "strconv.Atoi: invalid syntax".

Definition keyboard_row : Inventory.Product.t :=
  Inventory.Product.mk 2 "Keyboard" "RGB mechanical keyboard" 80%float 12 1690000001.

Definition inventory_two : gmap Z Inventory.Product.t :=
  <[2 := keyboard_row]> inventory_table.

Definition payment_env : PaymentService.Env :=
  PaymentService.mkEnv (fun _ _ _ => Ok (9001, 1700000005)) (fun _ => Ok tt) 1700000006
                       (fun _ => Go.int_min).

Definition gateway_env : Gateway.Env :=
  Gateway.mkEnv (fun _ _ => None)
                (fun _ url _ _ => Ok (Gateway.mkResponse 201 {[ "Content-Type" := ["application/json"] ]} url)).

(** What the order service keeps of a row of [products] it fetched. *)
Definition snapshot_of_row (row : Inventory.Product.t) : Product.t :=
  Product.mk (Inventory.Product.ID row) (Inventory.Product.Name row)
             (Inventory.Product.Price row) (Inventory.Product.Stock row).

(** A row after a stock update of the order service: new stock, empty
    description, the price written back at the scale of its column. *)
Definition restocked (row : Inventory.Product.t) (newStock : Z) : Inventory.Product.t :=
  Inventory.Product.mk (Inventory.Product.ID row) (Inventory.Product.Name row) ""
                       (decimal_10_2 (Inventory.Product.Price row)) newStock
                       (Inventory.Product.CreatedAt row).

(** ** Sanity checks on the scenarios *)

(** Scenario A: product 1 at 100.00 with 50 in stock, 5 asked. *)
Example scenario_A :
  let out := createOrder env_up (Ok (OrderReq.mk 1 5 7)) [] in
  response out
  = Some (mkResponse 201 (JsonOrder (Order.mk 101 7 1 5 500%float "confirmed" 1700000000)))
  /\ table out = [Order.mk 101 7 1 5 500%float "confirmed" 1700000000].
Proof. split; reflexivity. Qed.

(** Scenario B: 3 in stock, 5 asked. *)
Example scenario_B :
  createOrder env_low_stock (Ok (OrderReq.mk 3 5 0)) []
  = mkOutcome (Some (http_Error "Insufficient stock" 400)) [] [HttpGet 3].
Proof. reflexivity. Qed.

(** Scenario C: the second item of a batch asks 100 of a product with 10. *)
Example scenario_C :
  createBulkOrder env_up (Ok [Item.mk 1 2; Item.mk 2 100]) []
  = mkOutcome (Some (http_Error "Insufficient stock for product 2" 400)) []
              [HttpGet 1; HttpGet 2].
Proof. vm_compute. reflexivity. Qed.

(** Scenario D: the external phase fails, the answer is still 201. *)
Example scenario_D :
  let out := createOrder env_external_down (Ok (OrderReq.mk 1 5 7)) [] in
  response out = response (createOrder env_up (Ok (OrderReq.mk 1 5 7)) [])
  /\ table out = [Order.mk 101 7 1 5 500%float "confirmed" 1700000000].
Proof. split; reflexivity. Qed.

Example bulk_two_items :
  let out := createBulkOrder env_up (Ok [Item.mk 1 2; Item.mk 2 4]) [] in
  response out
  = Some (mkResponse 201 (JsonOrders [Order.mk 101 0 1 2 200%float "confirmed" 1700000000;
                                      Order.mk 102 0 2 4 102%float "confirmed" 1700000000]))
  /\ List.filter is_call (trace out)
     = [UpdateProductStock 1 laptop 48;
        PublishEvent (Event.mk "order_created" 101 1 2 200%float 1700000001);
        UpdateProductStock 2 mouse 6;
        PublishEvent (Event.mk "order_created" 102 2 4 102%float 1700000001)].
Proof. split; vm_compute; reflexivity. Qed.

(** The two decimal places of a [DECIMAL(10, 2)] column: 1.005 travels as
    the text 1.005 and is kept as 1.01; halves go away from zero; the
    [float64] product 0.1 * 3 is kept as 0.30; a value that rounds to zero
    is kept as zero, without a sign; a value with two places is kept. *)
Example decimal_10_2_examples :
  decimal_10_2 (PrimFloat.div 1005 1000) = cents 101
  /\ decimal_10_2 0.125 = cents 13
  /\ decimal_10_2 (-0.125) = PrimFloat.opp (cents 13)
  /\ decimal_10_2 (PrimFloat.mul (cents 10) 3) = cents 30
  /\ decimal_10_2 (PrimFloat.div (-4) 1000) = 0%float
  /\ decimal_10_2 (cents 99999) = cents 99999
  /\ decimal_10_2 500 = 500%float.
Proof. split_and!; vm_compute; reflexivity. Qed.

(** The wrap-around of the new stock is only reached outside the range of
    sensible requests. *)
Example sub_wraps : Go.sub 0 Go.int_min = Go.int_min.
Proof. reflexivity. Qed.

(** ** Lemmas on the helpers *)

Lemma sub_exact (a b : Z) :
  Go.int_min <= a - b <= Go.int_max -> Go.sub a b = a - b.
Proof.
  unfold Go.sub, Go.wrap, Go.int_min, Go.int_max. intros H.
  rewrite Z.mod_small; lia.
Qed.

Lemma getProductInfo_unavailable (env : Env) (n : nat) (pid : Z) :
  upstream_unavailable env n pid -> exists e, getProductInfo env n pid = Err e.
Proof.
  unfold getProductInfo.
  intros [[e He] | (code & decoded & He & Hcode)]; rewrite He.
  - by exists e.
  - destruct (Z.eqb_spec code StatusOK) as [-> | _]; [done |].
    by exists "product not found"%string.
Qed.

Lemma getProductInfo_ext (e1 e2 : Env) (n : nat) (pid : Z) :
  (forall n pid, http_get e1 n pid = http_get e2 n pid) ->
  getProductInfo e1 n pid = getProductInfo e2 n pid.
Proof. intros H. unfold getProductInfo. by rewrite H. Qed.

(** Whatever the transport and the broker answer, the tail after a
    persisted order makes exactly the two calls, in this order. *)
Lemma sideEffects_calls (env : Env) (n : nat) (pid qty : Z)
    (product : Product.t) (order : Order.t) (pre : string) :
  List.filter is_call (sideEffects env n pid qty product order pre)
  = [UpdateProductStock pid product (Go.sub (Product.Stock product) qty);
     PublishEvent (order_created env n order)].
Proof.
  unfold sideEffects, updateProductStock, publishEvent.
  destruct (json_number_ok _); simpl;
    [destruct (http_put _ _ _ _) as [[code text] | e]; simpl;
       [destruct (code =? StatusOK); simpl |] |];
    (destruct (json_number_ok _); simpl;
       [destruct (kafka_write _ _ _); simpl |]); reflexivity.
Qed.

(** It never touches the store. *)
Lemma sideEffects_no_db (env : Env) (n : nat) (pid qty : Z)
    (product : Product.t) (order : Order.t) (pre : string) :
  List.filter is_db_effect (sideEffects env n pid qty product order pre) = [].
Proof.
  unfold sideEffects, updateProductStock, publishEvent.
  destruct (json_number_ok _); simpl;
    [destruct (http_put _ _ _ _) as [[code text] | e]; simpl;
       [destruct (code =? StatusOK); simpl |] |];
    (destruct (json_number_ok _); simpl;
       [destruct (kafka_write _ _ _); simpl |]); reflexivity.
Qed.

(** A failed stock update leaves a log line and nothing else. *)
Lemma sideEffects_logs_update_failure (env : Env) (n : nat) (pid qty : Z)
    (product : Product.t) (order : Order.t) (pre e : string) :
  (updateProductStock env n pid product (Go.sub (Product.Stock product) qty)).1 = Some e ->
  Log (pre +:+ e) ∈ sideEffects env n pid qty product order pre.
Proof.
  unfold sideEffects.
  destruct (updateProductStock _ _ _ _ _) as [err io]; simpl. intros ->.
  apply elem_of_cons; right. apply elem_of_app; right.
  apply elem_of_app; left. apply list_elem_of_singleton. reflexivity.
Qed.

(** A failed publication leaves a log line. *)
Lemma sideEffects_logs_publish_failure (env : Env) (n : nat) (pid qty : Z)
    (product : Product.t) (order : Order.t) (pre e : string) :
  json_number_ok (Order.TotalPrice order) = true ->
  kafka_write env n (order_created env n order) = Err e ->
  Log ("Failed to publish event to Kafka: " +:+ e)
    ∈ sideEffects env n pid qty product order pre.
Proof.
  intros Hfin Hk. unfold sideEffects.
  destruct (updateProductStock _ _ _ _ _) as [err io].
  unfold publishEvent. simpl in *. rewrite Hfin, Hk. simpl.
  apply elem_of_cons; right. do 2 (apply elem_of_app; right).
  do 2 (apply elem_of_cons; right). apply elem_of_cons; left. reflexivity.
Qed.

(** ** Lemmas on the three phases of the bulk handler *)

Lemma validationPhase_Validated (env : Env) (items : list Item.t) :
  forall n vs eff,
    validationPhase env n items = (Validated vs, eff) ->
    eff = map fetch_of items
    /\ length vs = length items
    /\ forall i item, items !! i = Some item ->
         exists product,
           getProductInfo env (n + i)%nat (Item.ProductID item) = Ok product
           /\ (Product.Stock product <? Item.Quantity item) = false
           /\ vs !! i = Some (ValidatedItem.mk (Item.ProductID item)
                                               (Item.Quantity item) product).
Proof.
  induction items as [| item rest IH]; intros n vs eff H; simpl in H.
  - inversion H; subst. repeat split; intros i item Hi; discriminate.
  - destruct (getProductInfo env n (Item.ProductID item)) as [product | e] eqn:Hget;
      [| discriminate].
    destruct (Product.Stock product <? Item.Quantity item) eqn:Hstock; [discriminate |].
    destruct (validationPhase env (S n) rest) as [[r | vs'] eff'] eqn:Hrest;
      inversion H; subst.
    destruct (IH _ _ _ Hrest) as (-> & Hlen & Hall).
    repeat split; [simpl; by rewrite Hlen |].
    intros [| i] it Hi; simpl in Hi.
    + inversion Hi; subst. exists product. by rewrite Nat.add_0_r.
    + destruct (Hall i it Hi) as (p & Hp & Hs & Hv).
      exists p. by rewrite Nat.add_succ_r.
Qed.

Lemma validationPhase_Rejected (env : Env) (items : list Item.t) :
  forall n r eff,
    validationPhase env n items = (Rejected r, eff) ->
    exists k item,
      items !! k = Some item
      /\ passes env (n + k)%nat (Item.ProductID item) (Item.Quantity item) = false
      /\ (forall j it, (j < k)%nat -> items !! j = Some it ->
            passes env (n + j)%nat (Item.ProductID it) (Item.Quantity it) = true)
      /\ r = rejection env (n + k)%nat (Item.ProductID item)
      /\ eff = map fetch_of (take (S k) items).
Proof.
  induction items as [| item rest IH]; intros n r eff H; simpl in H; [discriminate |].
  destruct (getProductInfo env n (Item.ProductID item)) as [product | e] eqn:Hget.
  - destruct (Product.Stock product <? Item.Quantity item) eqn:Hstock.
    + inversion H; subst. exists 0%nat, item. rewrite Nat.add_0_r.
      unfold passes, rejection. rewrite Hget, Hstock.
      split_and!; try done. intros j it Hj; lia.
    + destruct (validationPhase env (S n) rest) as [[r' | vs'] eff'] eqn:Hrest;
        inversion H; subst.
      destruct (IH _ _ _ Hrest) as (k & it & Hk & Hfail & Hbefore & -> & ->).
      exists (S k), it. rewrite Nat.add_succ_r. repeat split; try done.
      intros [| j] it' Hj Hit'; simpl in Hit'.
      * inversion Hit'; subst. rewrite Nat.add_0_r. unfold passes.
        by rewrite Hget, Hstock.
      * rewrite Nat.add_succ_r. apply (Hbefore j it'); [lia | done].
  - inversion H; subst. exists 0%nat, item. rewrite Nat.add_0_r.
    unfold passes, rejection. rewrite Hget.
    split_and!; try done. intros j it Hj; lia.
Qed.

(** An item that does not pass makes the loop reject the batch. *)
Lemma validationPhase_fails (env : Env) (items : list Item.t) (n k : nat)
    (item : Item.t) :
  items !! k = Some item ->
  passes env (n + k)%nat (Item.ProductID item) (Item.Quantity item) = false ->
  exists r eff, validationPhase env n items = (Rejected r, eff).
Proof.
  intros Hk Hfail.
  destruct (validationPhase env n items) as [[r | vs] eff] eqn:H; [by eauto |].
  destruct (validationPhase_Validated _ _ _ _ _ H) as (_ & _ & Hall).
  destruct (Hall k item Hk) as (p & Hp & Hs & _).
  unfold passes in Hfail. rewrite Hp, Hs in Hfail. discriminate.
Qed.

(** Items that all pass are all validated. *)
Lemma validationPhase_passes (env : Env) (items : list Item.t) (n : nat) :
  (forall i item, items !! i = Some item ->
     passes env (n + i)%nat (Item.ProductID item) (Item.Quantity item) = true) ->
  exists vs, validationPhase env n items = (Validated vs, map fetch_of items).
Proof.
  intros Hall.
  destruct (validationPhase env n items) as [[r | vs] eff] eqn:H.
  - destruct (validationPhase_Rejected _ _ _ _ _ H) as (k & it & Hk & Hfail & _).
    rewrite (Hall k it Hk) in Hfail. discriminate.
  - destruct (validationPhase_Validated _ _ _ _ _ H) as (-> & _). by exists vs.
Qed.

Lemma validationPhase_ext (e1 e2 : Env) (items : list Item.t) :
  (forall n pid, http_get e1 n pid = http_get e2 n pid) ->
  forall n, validationPhase e1 n items = validationPhase e2 n items.
Proof.
  intros Hget. induction items as [| item rest IH]; intros n; simpl; [done |].
  rewrite (getProductInfo_ext e1 e2 n _ Hget), IH. reflexivity.
Qed.

Lemma transactionPhase_Ok (env : Env) (vs : list ValidatedItem.t) :
  forall n tx orders tx' eff,
    transactionPhase env n vs tx = (Ok orders, tx', eff) ->
    pending tx' = pending tx ++ map persisted orders
    /\ eff = map (fun v => TxInsert (insert_of v)) vs
    /\ length orders = length vs
    /\ forall i v, vs !! i = Some v ->
         exists id created_at,
           db_insert env (n + i)%nat (insert_of v) = Ok (id, created_at)
           /\ orders !! i = Some (order_for 0 v id created_at).
Proof.
  induction vs as [| v rest IH]; intros n tx orders tx' eff H; simpl in H.
  - inversion H; subst. simpl. rewrite app_nil_r. split_and!; try done.
  - unfold tx_QueryRow in H. fold (insert_of v) in H.
    destruct (db_insert env n (insert_of v)) as [[id ts] | e] eqn:Hins;
      [| discriminate].
    destruct (transactionPhase env (S n) rest _) as [[[os | e] tx2] eff2] eqn:Hrest;
      inversion H; subst.
    destruct (IH _ _ _ _ _ Hrest) as (Hpend & -> & Hlen & Hall).
    split_and!.
    + rewrite Hpend. simpl. by rewrite <- app_assoc.
    + done.
    + simpl. by rewrite Hlen.
    + intros [| i] w Hi; simpl in Hi.
      * inversion Hi; subst. exists id, ts. by rewrite Nat.add_0_r.
      * destruct (Hall i w Hi) as (id' & ts' & Hdb & Ho).
        exists id', ts'. by rewrite Nat.add_succ_r.
Qed.

Lemma transactionPhase_Err (env : Env) (vs : list ValidatedItem.t) :
  forall n tx e tx' eff,
    transactionPhase env n vs tx = (Err e, tx', eff) ->
    (exists k v, vs !! k = Some v
                 /\ db_insert env (n + k)%nat (insert_of v) = Err e)
    /\ List.filter is_call eff = [].
Proof.
  induction vs as [| v rest IH]; intros n tx e tx' eff H; simpl in H; [discriminate |].
  unfold tx_QueryRow in H. fold (insert_of v) in H.
  destruct (db_insert env n (insert_of v)) as [[id ts] | e'] eqn:Hins.
  - destruct (transactionPhase env (S n) rest _) as [[[os | e'] tx2] eff2] eqn:Hrest;
      inversion H; subst.
    destruct (IH _ _ _ _ _ Hrest) as ((k & w & Hk & Hdb) & Hcalls).
    split; [| done]. exists (S k), w. by rewrite Nat.add_succ_r.
  - inversion H; subst. split; [| done].
    exists 0%nat, v. by rewrite Nat.add_0_r.
Qed.

(** When every insert is accepted the loop creates all the orders. *)
Lemma transactionPhase_accepts (env : Env) (vs : list ValidatedItem.t) (n : nat)
    (tx : Tx) :
  (forall i v, vs !! i = Some v ->
     exists id created_at, db_insert env (n + i)%nat (insert_of v) = Ok (id, created_at)) ->
  exists orders tx' eff, transactionPhase env n vs tx = (Ok orders, tx', eff).
Proof.
  intros Hall.
  destruct (transactionPhase env n vs tx) as [[[os | e] tx'] eff] eqn:H; [by eauto |].
  destruct (transactionPhase_Err _ _ _ _ _ _ _ H) as ((k & v & Hk & Hdb) & _).
  destruct (Hall k v Hk) as (id & ts & Hok). congruence.
Qed.

Lemma transactionPhase_ext (e1 e2 : Env) (vs : list ValidatedItem.t) :
  (forall n p, db_insert e1 n p = db_insert e2 n p) ->
  forall n tx, transactionPhase e1 n vs tx = transactionPhase e2 n vs tx.
Proof.
  intros Hins. induction vs as [| v rest IH]; intros n tx; simpl; [done |].
  unfold tx_QueryRow. rewrite Hins.
  destruct (db_insert e2 n _) as [[id ts] | e]; [| done]. by rewrite IH.
Qed.

(** With one validated item per created order the external loop never
    indexes out of range, makes the expected calls and leaves the store
    alone. *)
Lemma externalPhase_calls (env : Env) (created : list Order.t)
    (all : list ValidatedItem.t) :
  forall i,
    length (drop i all) = length created ->
    (externalPhase env i created all).2 = true
    /\ List.filter is_call (externalPhase env i created all).1
       = expected_calls env i (drop i all) created
    /\ List.filter is_db_effect (externalPhase env i created all).1 = [].
Proof.
  induction created as [| o rest IH]; intros i Hlen; simpl.
  - split_and!; try done. by destruct (drop i all).
  - destruct (all !! i) as [v |] eqn:Hv.
    + rewrite (drop_S _ _ _ Hv) in Hlen |- *. simpl in Hlen.
      destruct (IH (S i)) as (Hc & Hcalls & Hdb); [lia |].
      destruct (externalPhase env (S i) rest all) as [eff' completed]; simpl in *.
      rewrite !List.filter_app, sideEffects_calls, sideEffects_no_db, Hcalls, Hdb.
      done.
    + apply lookup_ge_None in Hv. rewrite length_drop in Hlen. simpl in Hlen. lia.
Qed.

Lemma sideEffects_no_fetch (env : Env) (n : nat) (pid qty : Z)
    (product : Product.t) (order : Order.t) (pre : string) :
  List.filter is_fetch (sideEffects env n pid qty product order pre) = [].
Proof.
  unfold sideEffects, updateProductStock, publishEvent.
  destruct (json_number_ok _); simpl;
    [destruct (http_put _ _ _ _) as [[code text] | e]; simpl;
       [destruct (code =? StatusOK); simpl |] |];
    (destruct (json_number_ok _); simpl;
       [destruct (kafka_write _ _ _); simpl |]); reflexivity.
Qed.

Lemma externalPhase_no_fetch (env : Env) (created : list Order.t)
    (all : list ValidatedItem.t) :
  forall i, List.filter is_fetch (externalPhase env i created all).1 = [].
Proof.
  induction created as [| o rest IH]; intros i; simpl; [done |].
  destruct (all !! i) as [v |]; [| done]. specialize (IH (S i)).
  destruct (externalPhase env (S i) rest all) as [eff' c]. simpl in *.
  by rewrite List.filter_app, sideEffects_no_fetch, IH.
Qed.

(** The effects of every order that has its validated item are among
    those of the loop. *)
Lemma externalPhase_contains (env : Env) (created : list Order.t)
    (all : list ValidatedItem.t) :
  forall i j v o x,
    all !! (i + j)%nat = Some v -> created !! j = Some o ->
    x ∈ sideEffects env (i + j)%nat (ValidatedItem.ProductID v)
          (ValidatedItem.Quantity v) (ValidatedItem.Product v) o
          ("Failed to update inventory for product "
           +:+ pretty (ValidatedItem.ProductID v) +:+ ": ") ->
    x ∈ (externalPhase env i created all).1.
Proof.
  induction created as [| o' rest IH]; intros i j v o x Hv Ho Hx; [done |].
  simpl. destruct j as [| j]; simpl in Ho.
  - inversion Ho; subst. rewrite Nat.add_0_r in Hv, Hx. rewrite Hv.
    destruct (externalPhase env (S i) rest all) as [eff' c]. simpl.
    apply elem_of_app. by left.
  - assert (Hi : is_Some (all !! i)).
    { apply lookup_lt_is_Some. apply lookup_lt_Some in Hv. lia. }
    destruct Hi as [w Hw]. rewrite Hw.
    rewrite Nat.add_succ_r in Hv, Hx.
    specialize (IH (S i) j v o x Hv Ho Hx).
    destruct (externalPhase env (S i) rest all) as [eff' c]. simpl in *.
    apply elem_of_app. by right.
Qed.

Lemma externalPhase_completed_ext (e1 e2 : Env) (created : list Order.t)
    (all : list ValidatedItem.t) :
  forall i, (externalPhase e1 i created all).2 = (externalPhase e2 i created all).2.
Proof.
  induction created as [| o rest IH]; intros i; simpl; [done |].
  destruct (all !! i); [| done]. specialize (IH (S i)).
  destruct (externalPhase e1 (S i) rest all), (externalPhase e2 (S i) rest all).
  exact IH.
Qed.

(** ** The outcomes of the two handlers *)

(** What the bulk handler does once every item is validated: one of four
    outcomes, decided by the store alone. *)
Lemma createBulkOrder_validated (env : Env) (items : list Item.t)
    (rows : list Order.t) (vs : list ValidatedItem.t) (eff_v : list Effect) :
  validationPhase env 0 items = (Validated vs, eff_v) ->
  let out := createBulkOrder env (Ok items) rows in
  (* the transaction cannot be started *)
  ((exists e, db_begin env = Err e)
   /\ out = mkOutcome (Some (http_Error "Failed to start transaction"
                                        StatusInternalServerError))
                      rows (eff_v ++ [TxBegin]))
  (* an insert is refused *)
  \/ ((exists u, db_begin env = Ok u)
      /\ (exists k v e, vs !! k = Some v /\ db_insert env k (insert_of v) = Err e)
      /\ response out = Some (http_Error "Internal Server Error"
                                         StatusInternalServerError)
      /\ table out = rows
      /\ last (trace out) = Some TxRollback
      /\ List.filter is_call (trace out) = [])
  (* the commit fails *)
  \/ ((exists u, db_begin env = Ok u)
      /\ (exists e, db_commit env = Err e)
      /\ response out = Some (http_Error "Internal Server Error"
                                         StatusInternalServerError)
      /\ table out = rows
      /\ last (trace out) = Some TxRollback
      /\ List.filter is_call (trace out) = [])
  (* everything is committed *)
  \/ ((exists u, db_begin env = Ok u)
      /\ (exists u, db_commit env = Ok u)
      /\ exists created eff_x,
           length created = length vs
           /\ (forall i v, vs !! i = Some v ->
                 exists id created_at,
                   db_insert env i (insert_of v) = Ok (id, created_at)
                   /\ created !! i = Some (order_for 0 v id created_at))
           /\ response out = Some (mkResponse StatusCreated (Encode_orders created))
           /\ table out = rows ++ map persisted created
           /\ trace out = eff_v ++ [TxBegin]
                          ++ map (fun v => TxInsert (insert_of v)) vs
                          ++ [TxCommit] ++ eff_x ++ [TxRollback]
           /\ List.filter is_call eff_x = expected_calls env 0 vs created
           /\ List.filter is_db_effect eff_x = []
           /\ List.filter is_fetch eff_x = []
           /\ (forall i v o x, vs !! i = Some v -> created !! i = Some o ->
                 x ∈ sideEffects env i (ValidatedItem.ProductID v)
                       (ValidatedItem.Quantity v) (ValidatedItem.Product v) o
                       ("Failed to update inventory for product "
                        +:+ pretty (ValidatedItem.ProductID v) +:+ ": ") ->
                 x ∈ eff_x)).
Proof.
  intros Hval. simpl. unfold createBulkOrder. rewrite Hval.
  assert (Hfetch : List.filter is_call eff_v = []).
  { destruct (validationPhase_Validated _ _ _ _ _ Hval) as (-> & _).
    clear. induction items as [| it rest IH]; [done | exact IH]. }
  destruct (db_begin env) as [u | e] eqn:Hbegin; [| left; eauto].
  right.
  destruct (transactionPhase env 0 vs (mkTx [] false))
    as [[[created | e] tx1] eff_t] eqn:Htx.
  - destruct (transactionPhase_Ok _ _ _ _ _ _ _ Htx) as (Hpend & -> & Hlen & Hall).
    simpl in Hpend. unfold tx_Commit.
    destruct (db_commit env) as [u' | e] eqn:Hcommit.
    + right; right. split; [by eauto |]. split; [by eauto |].
      assert (Hdrop : length (drop 0 vs) = length created) by (by rewrite drop_0).
      destruct (externalPhase_calls env created vs 0 Hdrop) as (Hc & Hcalls & Hdb).
      pose proof (externalPhase_no_fetch env created vs 0) as Hnf.
      pose proof (externalPhase_contains env created vs 0) as Hin.
      destruct (externalPhase env 0 created vs) as [eff_x completed].
      simpl in Hc, Hcalls, Hdb, Hnf. subst completed. rewrite drop_0 in Hcalls.
      exists created, eff_x. simpl. rewrite Hpend. split_and!; done.
    + right; left. simpl. split; [by eauto |]. split; [by eauto |].
      split_and!; try done.
      * rewrite last_app, last_cons, last_app. reflexivity.
      * rewrite List.filter_app, Hfetch. simpl. rewrite List.filter_app. simpl.
        rewrite app_nil_r. clear. induction vs as [| v rest IH]; [done | exact IH].
  - left. destruct (transactionPhase_Err _ _ _ _ _ _ _ Htx) as (Hk & Hcalls).
    simpl. split; [by eauto |].
    split; [destruct Hk as (k & v & Hk & Hdb); by exists k, v, e |].
    split_and!; try done.
    + rewrite last_app, last_cons, last_app. reflexivity.
    + rewrite List.filter_app, Hfetch. simpl.
      rewrite List.filter_app, Hcalls. reflexivity.
Qed.

(** A batch with an item that does not pass is answered by the validation
    loop, which only fetches. *)
Lemma createBulkOrder_rejected (env : Env) (items : list Item.t)
    (rows : list Order.t) (r : Response) (eff : list Effect) :
  validationPhase env 0 items = (Rejected r, eff) ->
  createBulkOrder env (Ok items) rows = mkOutcome (Some r) rows eff.
Proof. intros H. unfold createBulkOrder. by rewrite H. Qed.

Lemma createBulkOrder_ext (e1 e2 : Env) (decoded : result (list Item.t))
    (rows : list Order.t) :
  same_validation_and_persistence e1 e2 ->
  response (createBulkOrder e1 decoded rows) = response (createBulkOrder e2 decoded rows)
  /\ table (createBulkOrder e1 decoded rows) = table (createBulkOrder e2 decoded rows).
Proof.
  intros (Hget & Hins & Hbegin & Hcommit).
  unfold createBulkOrder. destruct decoded as [items | e]; [| done].
  rewrite (validationPhase_ext e1 e2 items Hget), Hbegin.
  destruct (validationPhase e2 0 items) as [[r | vs] eff_v]; [done |].
  destruct (db_begin e2); [| done].
  rewrite (transactionPhase_ext e1 e2 vs Hins).
  destruct (transactionPhase e2 0 vs _) as [[[created | e] tx1] eff_t]; [| done].
  unfold tx_Commit. rewrite Hcommit. destruct (db_commit e2); [| done].
  pose proof (externalPhase_completed_ext e1 e2 created vs 0) as Hc.
  destruct (externalPhase e1 0 created vs), (externalPhase e2 0 created vs).
  simpl in *. by subst.
Qed.

Lemma createOrder_ext (e1 e2 : Env) (decoded : result OrderReq.t)
    (rows : list Order.t) :
  same_validation_and_persistence e1 e2 ->
  response (createOrder e1 decoded rows) = response (createOrder e2 decoded rows)
  /\ table (createOrder e1 decoded rows) = table (createOrder e2 decoded rows).
Proof.
  intros (Hget & Hins & _ & _).
  unfold createOrder. destruct decoded as [req | e]; [| done].
  rewrite (getProductInfo_ext e1 e2 0 _ Hget).
  destruct (getProductInfo e2 0 _) as [product | e]; [| done].
  destruct (_ <? _); [done |].
  unfold db_QueryRow. rewrite Hins.
  by destruct (db_insert e2 0 _) as [[id ts] | e].
Qed.

Lemma status_rejection (env : Env) (n : nat) (pid : Z) :
  status (rejection env n pid) = StatusBadRequest.
Proof. unfold rejection. by destruct (getProductInfo env n pid). Qed.

Lemma filter_fetches (P : Effect -> bool) (items : list Item.t) :
  (forall pid, P (HttpGet pid) = false) ->
  List.filter P (map fetch_of items) = [].
Proof.
  intros HP. induction items as [| it rest IH]; [done |].
  simpl. unfold fetch_of at 1. by rewrite HP.
Qed.

Lemma filter_fetches_all (items : list Item.t) :
  List.filter is_fetch (map fetch_of items) = map fetch_of items.
Proof. induction items as [| it rest IH]; [done |]. simpl. by rewrite IH. Qed.

Lemma filter_tx_inserts (vs : list ValidatedItem.t) :
  List.filter is_insert (map (fun v => TxInsert (insert_of v)) vs)
  = map (fun v => TxInsert (insert_of v)) vs.
Proof. induction vs as [| v rest IH]; [done |]. simpl. by rewrite IH. Qed.

Lemma filter_tx_inserts_out (P : Effect -> bool) (vs : list ValidatedItem.t) :
  (forall p, P (TxInsert p) = false) ->
  List.filter P (map (fun v => TxInsert (insert_of v)) vs) = [].
Proof.
  intros HP. induction vs as [| v rest IH]; [done |]. simpl. by rewrite HP.
Qed.

(** An effect list without store effects has no insert and no fetch left
    to hide among the calls. *)
Lemma no_db_no_insert (eff : list Effect) :
  List.filter is_db_effect eff = [] -> List.filter is_insert eff = [].
Proof.
  induction eff as [| e rest IH]; [done |]. simpl.
  destruct e; simpl; try discriminate; auto.
Qed.

(** Closes a goal whose hypothesis equates two different status codes. *)
Ltac status_clash :=
  match goal with
  | H : status _ = StatusCreated |- _ =>
      first [ rewrite status_rejection in H | idtac ];
      vm_compute in H; discriminate H
  end.

(** What a 201 answer of either handler means: every line item was
    validated against a snapshot, one order per item was added to the table
    and nothing else, and the trace splits into a part that fetches and
    inserts and a part that makes the calls of the external phase. *)
Lemma serve_created (env : Env) (request : Request) (rows : list Order.t)
    (resp : Response) :
  response (serve env request rows) = Some resp ->
  status resp = StatusCreated ->
  exists vs created pre post,
    snapshots_of env (lines request) vs
    /\ length created = length vs
    /\ (forall i v, vs !! i = Some v ->
          exists id created_at,
            created !! i = Some (order_for (user_of request) v id created_at))
    /\ table (serve env request rows) = rows ++ map persisted created
    /\ created_body request created = Some (body resp)
    /\ trace (serve env request rows) = pre ++ post
    /\ List.filter is_fetch (trace (serve env request rows))
       = map fetch_of (lines request)
    /\ List.filter is_insert pre = map (insert_effect request) vs
    /\ List.filter is_call pre = []
    /\ List.filter is_insert post = []
    /\ List.filter is_call post = expected_calls env 0 vs created
    /\ (forall i v o x, vs !! i = Some v -> created !! i = Some o ->
          x ∈ sideEffects env i (ValidatedItem.ProductID v)
                (ValidatedItem.Quantity v) (ValidatedItem.Product v) o
                (update_failure_prefix request v) ->
          x ∈ post).
Proof.
  intros Hresp Hst. destruct request as [decoded | decoded]; cbn [serve] in *.
  - (* createOrder *)
    unfold createOrder in *. destruct decoded as [req | e]; simpl in *;
      [| inversion Hresp; subst; status_clash].
    destruct (getProductInfo env 0 (OrderReq.ProductID req)) as [product | e] eqn:Hget;
      simpl in *; [| inversion Hresp; subst; status_clash].
    destruct (Product.Stock product <? OrderReq.Quantity req) eqn:Hstock;
      simpl in *; [inversion Hresp; subst; status_clash |].
    unfold db_QueryRow in *.
    destruct (db_insert env 0 _) as [[id ts] | e] eqn:Hins; simpl in *;
      [| inversion Hresp; subst; status_clash].
    inversion Hresp; subst; clear Hresp. simpl.
    exists [ValidatedItem.mk (OrderReq.ProductID req) (OrderReq.Quantity req) product],
           [Order.mk id (OrderReq.UserID req) (OrderReq.ProductID req)
                     (OrderReq.Quantity req)
                     (PrimFloat.mul (Product.Price product)
                                    (Go.float64 (OrderReq.Quantity req)))
                     "confirmed" ts],
           [HttpGet (OrderReq.ProductID req);
            DbInsert (Insert.mk (OrderReq.ProductID req) (OrderReq.Quantity req)
                        (PrimFloat.mul (Product.Price product)
                                       (Go.float64 (OrderReq.Quantity req)))
                        "confirmed" (Some (OrderReq.UserID req)))],
           (sideEffects env 0 (OrderReq.ProductID req) (OrderReq.Quantity req) product
              (Order.mk id (OrderReq.UserID req) (OrderReq.ProductID req)
                        (OrderReq.Quantity req)
                        (PrimFloat.mul (Product.Price product)
                                       (Go.float64 (OrderReq.Quantity req)))
                        "confirmed" ts)
              "Failed to update inventory: ").
    split_and!; try done.
    + split; [done |]. intros [| i] item Hi; simpl in Hi; [| done].
      inversion Hi; subst. simpl. exists product.
      apply Z.ltb_ge in Hstock. done.
    + intros [| i] v Hi; simpl in Hi; [| done].
      inversion Hi; subst. by exists id, ts.
    + by rewrite sideEffects_no_fetch.
    + apply no_db_no_insert, sideEffects_no_db.
    + rewrite sideEffects_calls. reflexivity.
    + intros [| i] v o x Hv Ho Hx; simpl in Hv, Ho; [| done].
      inversion Hv; subst. inversion Ho; subst. exact Hx.
  - (* createBulkOrder *)
    destruct decoded as [items | e];
      [| simpl in *; inversion Hresp; subst; status_clash].
    cbn [lines user_of created_body].
    destruct (validationPhase env 0 items) as [[r | vs] eff_v] eqn:Hval.
    { rewrite (createBulkOrder_rejected _ _ _ _ _ Hval) in Hresp. simpl in Hresp.
      destruct (validationPhase_Rejected _ _ _ _ _ Hval) as (k & it & _ & _ & _ & -> & _).
      inversion Hresp; subst. status_clash. }
    destruct (validationPhase_Validated _ _ _ _ _ Hval) as (-> & Hlenv & Hsnap).
    destruct (createBulkOrder_validated env items rows vs _ Hval)
      as [(_ & Hout) | [(_ & _ & Hr & _) | [(_ & _ & Hr & _) | (_ & _ & Hd)]]].
    { rewrite Hout in Hresp. inversion Hresp; subst. status_clash. }
    { rewrite Hr in Hresp. inversion Hresp; subst. status_clash. }
    { rewrite Hr in Hresp. inversion Hresp; subst. status_clash. }
    destruct Hd
      as (created & eff_x & Hlen & Hall & Hr & Htab & Htr & Hcalls & Hdb & Hnf & Hin).
    rewrite Hr in Hresp. inversion Hresp; subst; clear Hresp.
    exists vs, created,
      (map fetch_of items ++ [TxBegin]
       ++ map (fun v => TxInsert (insert_of v)) vs ++ [TxCommit]),
      (eff_x ++ [TxRollback]).
    split_and!; try done.
    + split; [done |]. intros i item Hi.
      destruct (Hsnap i item Hi) as (product & Hp & Hs & Hv). exists product.
      apply Z.ltb_ge in Hs. done.
    + intros i v Hi. destruct (Hall i v Hi) as (id & ts & _ & Ho). by exists id, ts.
    + rewrite Htr. by rewrite <- !app_assoc.
    + rewrite Htr. rewrite !List.filter_app, filter_fetches_all. simpl.
      rewrite (filter_tx_inserts_out is_fetch) by done. simpl.
      rewrite Hnf. by rewrite !app_nil_r.
    + rewrite !List.filter_app, (filter_fetches is_insert) by done. simpl.
      by rewrite filter_tx_inserts, app_nil_r.
    + rewrite !List.filter_app, (filter_fetches is_call) by done. simpl.
      by rewrite (filter_tx_inserts_out is_call).
    + rewrite List.filter_app, (no_db_no_insert _ Hdb). done.
    + rewrite List.filter_app, Hcalls. by rewrite app_nil_r.
    + intros i v o x Hv Ho Hx. apply elem_of_app. left. by apply (Hin i v o).
Qed.

Lemma snapshots_unique (env : Env) (items : list Item.t)
    (vs vs' : list ValidatedItem.t) :
  snapshots_of env items vs -> snapshots_of env items vs' -> vs = vs'.
Proof.
  intros [Hlen Hall] [Hlen' Hall']. apply list_eq. intros i.
  destruct (items !! i) as [item |] eqn:Hi.
  - destruct (Hall i item Hi) as (p & Hp & _ & ->).
    destruct (Hall' i item Hi) as (p' & Hp' & _ & ->). congruence.
  - apply lookup_ge_None in Hi.
    rewrite (proj2 (lookup_ge_None vs i)), (proj2 (lookup_ge_None vs' i)); [done | lia..].
Qed.

Lemma validated_snapshots (env : Env) (items : list Item.t)
    (vs : list ValidatedItem.t) (eff : list Effect) :
  validationPhase env 0 items = (Validated vs, eff) -> snapshots_of env items vs.
Proof.
  intros H. destruct (validationPhase_Validated _ _ _ _ _ H) as (_ & Hlen & Hall).
  split; [done |]. intros i item Hi.
  destruct (Hall i item Hi) as (p & Hp & Hs & Hv). exists p.
  apply Z.ltb_ge in Hs. done.
Qed.

Lemma snapshots_validated (env : Env) (items : list Item.t)
    (vs : list ValidatedItem.t) :
  snapshots_of env items vs ->
  validationPhase env 0 items = (Validated vs, map fetch_of items).
Proof.
  intros Hsnap.
  destruct (validationPhase_passes env items 0) as [vs' Hval].
  - intros i item Hi. destruct Hsnap as [_ Hall].
    destruct (Hall i item Hi) as (p & Hp & Hs & _).
    unfold passes. simpl. rewrite Hp. apply negb_true_iff, Z.ltb_ge. done.
  - rewrite Hval. do 2 f_equal.
    apply (snapshots_unique env items); [| done].
    by apply (validated_snapshots _ _ _ _ Hval).
Qed.

(** When the request decodes, every line item is validated and the store
    accepts everything, the answer is 201. *)
Lemma serve_accepted (env : Env) (request : Request) (rows : list Order.t)
    (vs : list ValidatedItem.t) :
  decodable request ->
  snapshots_of env (lines request) vs ->
  inserts_accepted env request vs ->
  transaction_accepted env request ->
  exists resp, response (serve env request rows) = Some resp
               /\ status resp = StatusCreated.
Proof.
  intros Hdec Hsnap Hins Htx.
  destruct request as [[req | e] | [items | e]]; simpl in Hdec; try done;
    cbn [serve lines] in *.
  - destruct Hsnap as [_ Hall].
    destruct (Hall 0%nat _ eq_refl) as (product & Hp & Hs & Hv). simpl in *.
    destruct (Hins 0%nat _ Hv) as (id & ts & Hdb). simpl in Hdb.
    unfold createOrder. rewrite Hp.
    rewrite (proj2 (Z.ltb_ge _ _) Hs). unfold db_QueryRow. rewrite Hdb.
    eexists. split; reflexivity.
  - pose proof (snapshots_validated _ _ _ Hsnap) as Hval.
    destruct Htx as [[u Hb] [u' Hc]].
    destruct (createBulkOrder_validated env items rows vs _ Hval)
      as [([e He] & _) | [(_ & (k & v & e & Hk & He) & _)
         | [(_ & [e He] & _) | (_ & _ & created & eff_x & _ & _ & Hr & _)]]].
    + congruence.
    + destruct (Hins k v Hk) as (id & ts & Hok). simpl in Hok. congruence.
    + congruence.
    + eexists. split; [exact Hr | reflexivity].
Qed.

(** ** Properties of the workflow *)

(** C1, as the code has it.  A single-order request answered with 201 has
    decoded, its product was fetched, and exactly one row was inserted: the
    confirmed order of the request's user, product and quantity, priced
    from the fetched product, with the total at the two decimal places of
    its column.  The body of the answer is the order as the handler built
    it, with the total as computed: it is the inserted row whenever the
    column keeps the total as it is, and it is empty when the order cannot
    be marshalled.  The answer and the table are the same under every
    environment that agrees on the fetch and the store, whatever the stock
    update, the event bus and the clock do. *)
Theorem createOrder_created_is_one_confirmed_row (env : Env)
    (decoded : result OrderReq.t) (rows : list Order.t) (resp : Response) :
  response (createOrder env decoded rows) = Some resp ->
  status resp = StatusCreated ->
  exists req product id created_at,
    let total := PrimFloat.mul (Product.Price product)
                               (Go.float64 (OrderReq.Quantity req)) in
    let order := Order.mk id (OrderReq.UserID req) (OrderReq.ProductID req)
                          (OrderReq.Quantity req) total "confirmed" created_at in
    let row := Order.mk id (OrderReq.UserID req) (OrderReq.ProductID req)
                        (OrderReq.Quantity req) (decimal_10_2 total) "confirmed"
                        created_at in
    decoded = Ok req
    /\ getProductInfo env 0 (OrderReq.ProductID req) = Ok product
    /\ table (createOrder env decoded rows) = rows ++ [row]
    /\ List.filter is_db_effect (trace (createOrder env decoded rows))
       = [DbInsert (Insert.mk (OrderReq.ProductID req) (OrderReq.Quantity req)
                              total "confirmed" (Some (OrderReq.UserID req)))]
    /\ body resp = Encode_order order
    /\ (order_marshals order = true -> body resp = JsonOrder order)
    /\ (order_marshals order = false -> body resp = NoBody)
    /\ (decimal_10_2 total = total -> row = order)
    /\ forall env', same_validation_and_persistence env env' ->
         response (createOrder env' decoded rows) = Some resp
         /\ table (createOrder env' decoded rows) = rows ++ [row].
Proof.
  intros Hresp Hst.
  assert (Hext : forall env', same_validation_and_persistence env env' ->
            response (createOrder env' decoded rows) = Some resp
            /\ table (createOrder env' decoded rows)
               = table (createOrder env decoded rows)).
  { intros env' Hsame.
    destruct (createOrder_ext env env' decoded rows Hsame) as [Hr Ht].
    by rewrite <- Hr, <- Ht. }
  unfold createOrder in *. destruct decoded as [req | e]; simpl in *;
    [| inversion Hresp; subst; status_clash].
  destruct (getProductInfo env 0 (OrderReq.ProductID req)) as [product | e] eqn:Hget;
    simpl in *; [| inversion Hresp; subst; status_clash].
  destruct (Product.Stock product <? OrderReq.Quantity req) eqn:Hstock;
    simpl in *; [inversion Hresp; subst; status_clash |].
  unfold db_QueryRow in *.
  destruct (db_insert env 0 _) as [[id ts] | e] eqn:Hins; simpl in *;
    [| inversion Hresp; subst; status_clash].
  inversion Hresp; subst; clear Hresp.
  exists req, product, id, ts. cbn [body table trace]. unfold Encode_order.
  split_and!; try done.
  - cbn [List.filter is_db_effect]. by rewrite sideEffects_no_db.
  - by intros ->.
  - by intros ->.
  - by intros ->.
Qed.

Lemma createOrder_created_is_one_confirmed_row_witness :
  response (createOrder env_up (Ok (OrderReq.mk 1 5 7)) [])
  = Some (mkResponse 201 (JsonOrder (Order.mk 101 7 1 5 500%float "confirmed" 1700000000)))
  /\ exists req product id created_at,
       Ok (OrderReq.mk 1 5 7) = Ok req
       /\ getProductInfo env_up 0 (OrderReq.ProductID req) = Ok product
       /\ table (createOrder env_up (Ok (OrderReq.mk 1 5 7)) [])
          = [] ++ [Order.mk id (OrderReq.UserID req) (OrderReq.ProductID req)
                            (OrderReq.Quantity req)
                            (decimal_10_2
                               (PrimFloat.mul (Product.Price product)
                                              (Go.float64 (OrderReq.Quantity req))))
                            "confirmed" created_at].
Proof.
  split; [reflexivity |].
  destruct (createOrder_created_is_one_confirmed_row env_up (Ok (OrderReq.mk 1 5 7)) []
              (mkResponse 201 (JsonOrder (Order.mk 101 7 1 5 500%float "confirmed"
                                                   1700000000)))
              eq_refl eq_refl)
    as (req & product & id & ts & Hd & Hg & Ht & _).
  exists req, product, id, ts. split_and!; assumption.
Defined.

(** C1 fails where it equates the body with the persisted row.  Three pens
    at 0.10: the body carries the [float64] product 0.30000000000000004,
    the row holds 0.30.  Four anvils at 2^1023, in a store that accepts the
    insert: the total is infinite and the answer 201 has no body. *)
Lemma created_body_is_not_the_persisted_row :
  let out := createOrder env_up (Ok (OrderReq.mk 4 3 7)) [] in
  let hollow := createOrder env_up (Ok (OrderReq.mk 5 4 7)) [] in
  response out
  = Some (mkResponse 201
            (JsonOrder (Order.mk 101 7 4 3 (PrimFloat.mul (cents 10) 3) "confirmed"
                                 1700000000)))
  /\ table out = [Order.mk 101 7 4 3 (cents 30) "confirmed" 1700000000]
  /\ ~ (exists row, table out = [row]
                    /\ response out = Some (mkResponse 201 (JsonOrder row)))
  /\ response hollow = Some (mkResponse 201 NoBody)
  /\ length (table hollow) = 1%nat.
Proof.
  intros out hollow. split_and!; try (vm_compute; reflexivity).
  intros (row & Ht & Hr). vm_compute in Ht, Hr.
  injection Ht as <-.
  apply (f_equal (fun r => match r with
                           | Some (mkResponse _ (JsonOrder o)) =>
                               PrimFloat.eqb (Order.TotalPrice o) (cents 30)
                           | _ => true
                           end)) in Hr.
  vm_compute in Hr. discriminate.
Qed.

(** C6.  A single-order request whose fetched snapshot has less stock than
    the quantity asked is answered 400 "Insufficient stock"; the table is
    unchanged and the handler has done nothing but the fetch. *)
Theorem createOrder_insufficient_stock (env : Env) (req : OrderReq.t)
    (rows : list Order.t) (product : Product.t) :
  getProductInfo env 0 (OrderReq.ProductID req) = Ok product ->
  Product.Stock product < OrderReq.Quantity req ->
  createOrder env (Ok req) rows
  = mkOutcome (Some (http_Error "Insufficient stock" StatusBadRequest)) rows
              [HttpGet (OrderReq.ProductID req)].
Proof.
  intros Hget Hlt. unfold createOrder. rewrite Hget.
  by rewrite (proj2 (Z.ltb_lt _ _) Hlt).
Qed.

Lemma createOrder_insufficient_stock_witness :
  Product.Stock (Product.mk 3 "Keyboard" 80%float 3) < OrderReq.Quantity (OrderReq.mk 3 5 0)
  /\ createOrder env_low_stock (Ok (OrderReq.mk 3 5 0)) []
     = mkOutcome (Some (http_Error "Insufficient stock" StatusBadRequest)) []
                 [HttpGet 3].
Proof.
  split; [simpl; lia |].
  apply (createOrder_insufficient_stock env_low_stock (OrderReq.mk 3 5 0) []
           (Product.mk 3 "Keyboard" 80%float 3)); [reflexivity | simpl; lia].
Defined.

(** C3.  When a line item of a batch does not pass validation (its fetch
    fails or its snapshot has too little stock), the bulk handler answers
    400 from the validation loop, at that item or at an earlier one that
    does not pass: it has only fetched, up to the item it rejects, and the
    table is unchanged, whatever the items before it. *)
Theorem createBulkOrder_rejects_whole_batch (env : Env) (items : list Item.t)
    (rows : list Order.t) (k : nat) (item : Item.t) :
  items !! k = Some item ->
  passes env k (Item.ProductID item) (Item.Quantity item) = false ->
  exists j rejected,
    (j <= k)%nat
    /\ items !! j = Some rejected
    /\ createBulkOrder env (Ok items) rows
       = mkOutcome (Some (rejection env j (Item.ProductID rejected))) rows
                   (map fetch_of (take (S j) items))
    /\ status (rejection env j (Item.ProductID rejected)) = StatusBadRequest
    /\ table (createBulkOrder env (Ok items) rows) = rows
    /\ List.filter is_db_effect (trace (createBulkOrder env (Ok items) rows)) = []
    /\ List.filter is_call (trace (createBulkOrder env (Ok items) rows)) = [].
Proof.
  intros Hk Hfail.
  destruct (validationPhase_fails env items 0 k item Hk Hfail) as (r & eff & Hval).
  destruct (validationPhase_Rejected _ _ _ _ _ Hval)
    as (j & it & Hj & _ & Hbefore & -> & ->).
  exists j, it. rewrite (createBulkOrder_rejected _ _ _ _ _ Hval).
  cbn [table trace Nat.add] in *.
  split_and!; try done.
  - destruct (Nat.le_gt_cases j k) as [Hle | Hgt]; [done |].
    rewrite (Hbefore k item Hgt Hk) in Hfail. discriminate.
  - apply status_rejection.
  - by apply filter_fetches.
  - by apply filter_fetches.
Qed.

Lemma createBulkOrder_rejects_whole_batch_witness :
  passes env_up 1 2 100 = false
  /\ exists j rejected,
       (j <= 1)%nat
       /\ table (createBulkOrder env_up (Ok [Item.mk 1 2; Item.mk 2 100]) []) = []
       /\ response (createBulkOrder env_up (Ok [Item.mk 1 2; Item.mk 2 100]) [])
          = Some (rejection env_up j (Item.ProductID rejected)).
Proof.
  split; [reflexivity |].
  destruct (createBulkOrder_rejects_whole_batch env_up [Item.mk 1 2; Item.mk 2 100] []
              1 (Item.mk 2 100) eq_refl eq_refl)
    as (j & it & Hle & _ & Hout & _ & Htab & _).
  exists j, it. split_and!; [assumption | assumption |].
  rewrite Hout. reflexivity.
Defined.

(** C4.  For a batch whose items are all validated ([vs] holds their
    snapshots): if the transaction cannot begin, an insert is refused or
    the commit fails, the answer is 500, no row is added, no call of the
    external phase is made and a begun transaction ends rolled back; if the
    store accepts everything, the answer is 201 with one order per item, the
    table gains exactly the rows of those orders, and the inserts are the
    only store operations between the begin and the commit of one
    transaction.  Either way the table gains all the orders or none. *)
Theorem createBulkOrder_all_or_nothing (env : Env) (items : list Item.t)
    (rows : list Order.t) (vs : list ValidatedItem.t) :
  snapshots_of env items vs ->
  let request := PostOrdersBulk (Ok items) in
  let out := createBulkOrder env (Ok items) rows in
  ((exists e, db_begin env = Err e) \/ insert_refused env request vs
   \/ (exists e, db_commit env = Err e) ->
     (exists msg, response out = Some (http_Error msg StatusInternalServerError))
     /\ table out = rows
     /\ List.filter is_call (trace out) = []
     /\ ((exists u, db_begin env = Ok u) -> last (trace out) = Some TxRollback))
  /\ (transaction_accepted env request -> inserts_accepted env request vs ->
      exists created,
        length created = length items
        /\ (forall i v, vs !! i = Some v ->
              exists id created_at,
                db_insert env i (insert_of v) = Ok (id, created_at)
                /\ created !! i = Some (order_for 0 v id created_at))
        /\ response out = Some (mkResponse StatusCreated (Encode_orders created))
        /\ table out = rows ++ map persisted created
        /\ List.filter is_db_effect (trace out)
           = [TxBegin] ++ map (fun v => TxInsert (insert_of v)) vs
             ++ [TxCommit; TxRollback])
  /\ (table out = rows
      \/ exists created, length created = length items /\ table out = rows ++ created).
Proof.
  intros Hsnap request out.
  pose proof (snapshots_validated _ _ _ Hsnap) as Hval.
  assert (Hlenv : length vs = length items) by (by destruct Hsnap).
  pose proof (createBulkOrder_validated env items rows vs _ Hval) as Hcases.
  fold out in Hcases. simpl in Hcases.
  split_and!.
  - intros Hfail.
    destruct Hcases
      as [([e He] & Hout) | [([u Hu] & _ & Hr & Ht & Hl & Hc)
         | [([u Hu] & _ & Hr & Ht & Hl & Hc)
         | ([u Hb] & [u' Hc] & created & eff_x & _ & Hall & _)]]].
    + rewrite Hout. simpl. split_and!; try done; [by eauto | |].
      * rewrite List.filter_app, (filter_fetches is_call) by done. done.
      * intros [u Hu]. congruence.
    + split_and!; by eauto.
    + split_and!; by eauto.
    + exfalso. destruct Hfail as [[e He] | [(k & v & e & Hk & He) | [e He]]].
      * congruence.
      * destruct (Hall k v Hk) as (id & ts & Hok & _). simpl in He. congruence.
      * congruence.
  - intros [[u Hb] [u' Hc]] Hins.
    destruct Hcases
      as [([e He] & _) | [(_ & (k & v & e & Hk & He) & _)
         | [(_ & [e He] & _)
         | (_ & _ & created & eff_x & Hlen & Hall & Hr & Ht & Htr & _ & Hdb & _)]]].
    + congruence.
    + destruct (Hins k v Hk) as (id & ts & Hok). simpl in Hok. congruence.
    + congruence.
    + exists created. split_and!; try done; [congruence |].
      rewrite Htr. rewrite List.filter_app, (filter_fetches is_db_effect) by done.
      simpl. rewrite List.filter_app. simpl. rewrite List.filter_app, Hdb. simpl.
      do 2 f_equal.
      clear. induction vs as [| v rest IH]; [done |]. simpl. by rewrite IH.
  - destruct Hcases
      as [(_ & Hout) | [(_ & _ & _ & Ht & _) | [(_ & _ & _ & Ht & _)
         | (_ & _ & created & eff_x & Hlen & _ & _ & Ht & _)]]].
    + left. by rewrite Hout.
    + by left.
    + by left.
    + right. exists (map persisted created).
      split; [rewrite length_map; congruence | done].
Qed.

Lemma createBulkOrder_all_or_nothing_witness :
  snapshots_of env_commit_fails [Item.mk 1 2; Item.mk 2 4]
    [ValidatedItem.mk 1 2 laptop; ValidatedItem.mk 2 4 mouse]
  /\ db_commit env_commit_fails = Err "commit failed"
  /\ response (createBulkOrder env_commit_fails (Ok [Item.mk 1 2; Item.mk 2 4]) [])
     = Some (http_Error "Internal Server Error" StatusInternalServerError)
  /\ table (createBulkOrder env_commit_fails (Ok [Item.mk 1 2; Item.mk 2 4]) []) = [].
Proof.
  assert (Hsnap : snapshots_of env_commit_fails [Item.mk 1 2; Item.mk 2 4]
                    [ValidatedItem.mk 1 2 laptop; ValidatedItem.mk 2 4 mouse]).
  { split; [reflexivity |].
    intros [| [| i]] item Hi; simpl in Hi; inversion Hi; subst.
    - exists laptop. split_and!; [reflexivity | simpl; lia | reflexivity].
    - exists mouse. split_and!; [reflexivity | simpl; lia | reflexivity]. }
  split; [exact Hsnap |]. split; [reflexivity |]. split; [reflexivity |].
  destruct (createBulkOrder_all_or_nothing env_commit_fails
              [Item.mk 1 2; Item.mk 2 4] [] _ Hsnap) as (Hfail & _ & _).
  destruct Hfail as (_ & Ht & _); [| exact Ht].
  right; right. by exists "commit failed"%string.
Defined.

(** C2, as the code has it.  For a request answered with 201 the handler
    creates one order per line item, in order; the order of an item has the
    item's product and quantity, and its total price is the price of the
    snapshot that the item's validation fetched times the quantity
    ([float64] product).  That product is the total in the parameters of
    the item's INSERT and in the answer; the row the table gains for the
    order holds it at the two decimal places of its column.  The handler
    fetches each item's product exactly once, so no other price is ever
    seen. *)
Theorem total_price_is_validation_price_times_quantity (env : Env)
    (request : Request) (rows : list Order.t) (resp : Response) :
  response (serve env request rows) = Some resp ->
  status resp = StatusCreated ->
  exists vs created,
    snapshots_of env (lines request) vs
    /\ table (serve env request rows) = rows ++ map persisted created
    /\ length created = length (lines request)
    /\ (forall i item, lines request !! i = Some item ->
          exists product order,
            getProductInfo env i (Item.ProductID item) = Ok product
            /\ created !! i = Some order
            /\ Order.ProductID order = Item.ProductID item
            /\ Order.Quantity order = Item.Quantity item
            /\ Order.TotalPrice order
               = PrimFloat.mul (Product.Price product)
                               (Go.float64 (Item.Quantity item))
            /\ Order.ProductID (persisted order) = Item.ProductID item
            /\ Order.Quantity (persisted order) = Item.Quantity item
            /\ Order.TotalPrice (persisted order)
               = decimal_10_2 (PrimFloat.mul (Product.Price product)
                                             (Go.float64 (Item.Quantity item))))
    /\ created_body request created = Some (body resp)
    /\ List.filter is_insert (trace (serve env request rows))
       = map (insert_effect request) vs
    /\ (forall v,
          Insert.total_price (insert_params request v)
          = PrimFloat.mul (Product.Price (ValidatedItem.Product v))
                          (Go.float64 (ValidatedItem.Quantity v)))
    /\ List.filter is_fetch (trace (serve env request rows))
       = map fetch_of (lines request).
Proof.
  intros Hresp Hst.
  destruct (serve_created env request rows resp Hresp Hst)
    as (vs & created & pre & post & Hsnaps & Hlen & Hall & Ht & Hbody & Htr & Hf
        & Hins & _ & Hpost & _).
  pose proof Hsnaps as [Hlenv Hsnap].
  exists vs, created. split_and!; [done | done | congruence | | done | | | done].
  - intros i item Hi. destruct (Hsnap i item Hi) as (product & Hp & _ & Hv).
    destruct (Hall i _ Hv) as (id & ts & Ho).
    exists product. eexists. split_and!; [done | exact Ho | reflexivity..].
  - by rewrite Htr, List.filter_app, Hins, Hpost, app_nil_r.
  - intros v. by destruct request.
Qed.

Lemma total_price_is_validation_price_times_quantity_witness :
  response (serve env_up (PostOrdersBulk (Ok [Item.mk 1 2; Item.mk 2 4])) [])
  = Some (mkResponse 201
            (JsonOrders [Order.mk 101 0 1 2 200%float "confirmed" 1700000000;
                         Order.mk 102 0 2 4 102%float "confirmed" 1700000000]))
  /\ exists created,
       table (serve env_up (PostOrdersBulk (Ok [Item.mk 1 2; Item.mk 2 4])) [])
       = [] ++ map persisted created
       /\ length created = 2%nat.
Proof.
  split; [vm_compute; reflexivity |].
  destruct (total_price_is_validation_price_times_quantity env_up
              (PostOrdersBulk (Ok [Item.mk 1 2; Item.mk 2 4])) []
              (mkResponse 201
                 (JsonOrders [Order.mk 101 0 1 2 200%float "confirmed" 1700000000;
                              Order.mk 102 0 2 4 102%float "confirmed" 1700000000])))
    as (vs & created & _ & Ht & Hlen & _); [vm_compute; reflexivity | reflexivity |].
  exists created. split; assumption.
Defined.

(** C2 fails for the persisted total.  One bolt at 0.125 is persisted with a
    total of 0.13; three pens at 0.10, whose [float64] product is
    0.30000000000000004, are persisted with a total of 0.30. *)
Lemma persisted_total_is_rounded :
  let out := createBulkOrder env_up (Ok [Item.mk 6 1; Item.mk 4 3]) [] in
  getProductInfo env_up 0 6 = Ok bolt
  /\ getProductInfo env_up 1 4 = Ok pen
  /\ status <$> response out = Some 201
  /\ table out = [Order.mk 101 0 6 1 (cents 13) "confirmed" 1700000000;
                  Order.mk 102 0 4 3 (cents 30) "confirmed" 1700000000]
  /\ PrimFloat.mul (Product.Price bolt) (Go.float64 1) = 0.125%float
  /\ PrimFloat.eqb (cents 13) (PrimFloat.mul (Product.Price bolt) (Go.float64 1)) = false
  /\ PrimFloat.eqb (cents 30) (PrimFloat.mul (Product.Price pen) (Go.float64 3)) = false
  /\ ~ (forall i row product item,
          table out !! i = Some row ->
          [Item.mk 6 1; Item.mk 4 3] !! i = Some item ->
          getProductInfo env_up i (Item.ProductID item) = Ok product ->
          Order.TotalPrice row
          = PrimFloat.mul (Product.Price product) (Go.float64 (Item.Quantity item))).
Proof.
  intros out. split_and!; try (vm_compute; reflexivity).
  intros Hall.
  specialize (Hall 0%nat (Order.mk 101 0 6 1 (cents 13) "confirmed" 1700000000)
                   bolt (Item.mk 6 1)).
  assert (Htotal : cents 13 = 0.125%float).
  { apply Hall; vm_compute; reflexivity. }
  apply (f_equal (fun total => PrimFloat.eqb total 0.125)) in Htotal.
  vm_compute in Htotal. discriminate.
Qed.

(** C8.  For a request answered with 201 the trace splits in two.  The
    first part holds the inserts, one per validated item, and no call of
    the external phase.  The second part holds no insert, and its calls
    are, for each created order in turn, one [updateProductStock] with the
    item's validation snapshot and the new stock [snapshot.Stock -
    quantity] (the machine subtraction, which is the exact difference for a
    quantity that is not negative), followed by one [publishEvent] of the
    order's [order_created] event. *)
Theorem stock_update_then_event_after_insert (env : Env) (request : Request)
    (rows : list Order.t) (resp : Response) :
  response (serve env request rows) = Some resp ->
  status resp = StatusCreated ->
  exists vs created pre post,
    snapshots_of env (lines request) vs
    /\ length created = length vs
    /\ table (serve env request rows) = rows ++ map persisted created
    /\ trace (serve env request rows) = pre ++ post
    /\ List.filter is_insert pre = map (insert_effect request) vs
    /\ List.filter is_call pre = []
    /\ List.filter is_insert post = []
    /\ List.filter is_call post = expected_calls env 0 vs created
    /\ (forall i v, vs !! i = Some v ->
          0 <= ValidatedItem.Quantity v ->
          Product.Stock (ValidatedItem.Product v) <= Go.int_max ->
          Go.sub (Product.Stock (ValidatedItem.Product v)) (ValidatedItem.Quantity v)
          = Product.Stock (ValidatedItem.Product v) - ValidatedItem.Quantity v).
Proof.
  intros Hresp Hst.
  destruct (serve_created env request rows resp Hresp Hst)
    as (vs & created & pre & post & Hsnap & Hlen & _ & Ht & _ & Htr & _
        & Hins & Hpre & Hpost & Hcalls & _).
  exists vs, created, pre, post. split_and!; try done.
  intros i v Hv Hq Hmax. apply sub_exact.
  destruct Hsnap as [Hlenv Hall].
  assert (Hi : is_Some (lines request !! i)).
  { apply lookup_lt_is_Some. apply lookup_lt_Some in Hv. lia. }
  destruct Hi as [item Hi].
  destruct (Hall i item Hi) as (product & _ & Hle & Hv'). rewrite Hv in Hv'.
  inversion Hv'; subst; simpl in *. unfold Go.int_min, Go.int_max in *. lia.
Qed.

Lemma stock_update_then_event_after_insert_witness :
  response (serve env_up (PostOrders (Ok (OrderReq.mk 1 5 7))) [])
  = Some (mkResponse 201 (JsonOrder (Order.mk 101 7 1 5 500%float "confirmed" 1700000000)))
  /\ List.filter is_call (trace (serve env_up (PostOrders (Ok (OrderReq.mk 1 5 7))) []))
     = [UpdateProductStock 1 laptop 45;
        PublishEvent (Event.mk "order_created" 101 1 5 500%float 1700000001)]
  /\ exists vs created pre post,
       trace (serve env_up (PostOrders (Ok (OrderReq.mk 1 5 7))) []) = pre ++ post
       /\ List.filter is_call pre = []
       /\ List.filter is_call post = expected_calls env_up 0 vs created.
Proof.
  split; [reflexivity |]. split; [reflexivity |].
  destruct (stock_update_then_event_after_insert env_up
              (PostOrders (Ok (OrderReq.mk 1 5 7))) []
              (mkResponse 201 (JsonOrder (Order.mk 101 7 1 5 500%float "confirmed"
                                                   1700000000)))
              eq_refl eq_refl)
    as (vs & created & pre & post & _ & _ & _ & Htr & _ & Hpre & _ & Hcalls & _).
  exists vs, created, pre, post. split_and!; assumption.
Defined.

(** C5.  Two runs of a handler on the same request and table, in
    environments that agree on the fetches and the store and differ in any
    way on the stock update, the event bus and the clock, give the same
    answer and leave the same table.  In a run answered with 201 every
    order created and every row added is [confirmed], whatever the external
    phase met; a failed stock update and a failed publication each leave
    their line in the log. *)
Theorem external_failures_are_only_logged (env env' : Env) (request : Request)
    (rows : list Order.t) :
  same_validation_and_persistence env env' ->
  response (serve env request rows) = response (serve env' request rows)
  /\ table (serve env request rows) = table (serve env' request rows)
  /\ forall resp,
       response (serve env request rows) = Some resp ->
       status resp = StatusCreated ->
       exists vs created,
         snapshots_of env (lines request) vs
         /\ table (serve env request rows) = rows ++ map persisted created
         /\ (forall o, o ∈ created -> Order.Status o = "confirmed"%string)
         /\ (forall row, row ∈ map persisted created ->
               Order.Status row = "confirmed"%string)
         /\ forall i v o, vs !! i = Some v -> created !! i = Some o ->
              (forall e,
                 (updateProductStock env i (ValidatedItem.ProductID v)
                    (ValidatedItem.Product v)
                    (Go.sub (Product.Stock (ValidatedItem.Product v))
                            (ValidatedItem.Quantity v))).1 = Some e ->
                 Log (update_failure_prefix request v +:+ e)
                   ∈ trace (serve env request rows))
              /\ (forall e,
                    json_number_ok (Order.TotalPrice o) = true ->
                    kafka_write env i (order_created env i o) = Err e ->
                    Log ("Failed to publish event to Kafka: " +:+ e)
                      ∈ trace (serve env request rows)).
Proof.
  intros Hsame. split_and!.
  - destruct request; simpl;
      [apply createOrder_ext | apply createBulkOrder_ext]; exact Hsame.
  - destruct request; simpl;
      [apply createOrder_ext | apply createBulkOrder_ext]; exact Hsame.
  - intros resp Hresp Hst.
    destruct (serve_created env request rows resp Hresp Hst)
      as (vs & created & pre & post & Hsnap & Hlen & Hall & Ht & _ & Htr & _
          & _ & _ & _ & _ & Hin).
    assert (Hconfirmed : forall o, o ∈ created -> Order.Status o = "confirmed"%string).
    { intros o Ho. apply list_elem_of_lookup in Ho as [i Hi].
      assert (Hv : is_Some (vs !! i)).
      { apply lookup_lt_is_Some. apply lookup_lt_Some in Hi. lia. }
      destruct Hv as [v Hv]. destruct (Hall i v Hv) as (id & ts & Ho').
      rewrite Hi in Ho'. by inversion Ho'. }
    exists vs, created. split_and!; try done.
    + intros row Hrow. apply list_elem_of_In, List.in_map_iff in Hrow as (o & <- & Ho).
      apply list_elem_of_In in Ho. exact (Hconfirmed o Ho).
    + intros i v o Hv Ho. rewrite Htr. split.
      * intros e He. apply elem_of_app. right. apply (Hin i v o _ Hv Ho).
        by apply sideEffects_logs_update_failure.
      * intros e Hfin Hk. apply elem_of_app. right. apply (Hin i v o _ Hv Ho).
        by apply sideEffects_logs_publish_failure.
Qed.

Lemma external_failures_are_only_logged_witness :
  same_validation_and_persistence env_external_down env_up
  /\ response (serve env_external_down (PostOrders (Ok (OrderReq.mk 1 5 7))) [])
     = Some (mkResponse 201 (JsonOrder (Order.mk 101 7 1 5 500%float "confirmed"
                                                 1700000000)))
  /\ table (serve env_external_down (PostOrders (Ok (OrderReq.mk 1 5 7))) [])
     = table (serve env_up (PostOrders (Ok (OrderReq.mk 1 5 7))) [])
  /\ Log "Failed to update inventory: connection refused"
       ∈ trace (serve env_external_down (PostOrders (Ok (OrderReq.mk 1 5 7))) []).
Proof.
  assert (Hsame : same_validation_and_persistence env_external_down env_up).
  { repeat split. }
  split; [exact Hsame |].
  destruct (external_failures_are_only_logged env_external_down env_up
              (PostOrders (Ok (OrderReq.mk 1 5 7))) [] Hsame) as (Hr & Ht & _).
  split; [rewrite Hr; reflexivity |]. split; [exact Ht |].
  apply list_elem_of_In. simpl. do 4 right. left. reflexivity.
Defined.

(** A stock update among the expected calls is the one of a validated
    item: same product id, the item's snapshot, its stock less the
    quantity. *)
Lemma expected_calls_update (env : Env) (vs : list ValidatedItem.t) :
  forall i created pid product newStock,
    UpdateProductStock pid product newStock ∈ expected_calls env i vs created ->
    exists j v,
      vs !! j = Some v
      /\ pid = ValidatedItem.ProductID v
      /\ product = ValidatedItem.Product v
      /\ newStock = Go.sub (Product.Stock (ValidatedItem.Product v))
                           (ValidatedItem.Quantity v).
Proof.
  induction vs as [| v rest IH]; intros i created pid product newStock Hin;
    simpl in Hin; [by apply elem_of_nil in Hin |].
  destruct created as [| o created']; [by apply elem_of_nil in Hin |].
  apply elem_of_cons in Hin as [Heq | Hin].
  - inversion Heq; subst. by exists 0%nat, v.
  - apply elem_of_cons in Hin as [Heq | Hin]; [discriminate |].
    destruct (IH _ _ _ _ _ Hin) as (j & w & Hj & Hrest).
    by exists (S j), w.
Qed.


(** C7, as the code has it.  When the inventory service cannot be reached,
    times out or answers with an error status for the product of a line
    item, the fetch fails, the request is answered with an error, the table
    is unchanged and the handler has touched neither the store nor the
    external phase.  The status of the answer is 500 for a single order and
    400 for a batch. *)
Theorem fetch_failure_is_an_error_without_rows (env : Env) (request : Request)
    (rows : list Order.t) (k : nat) (item : Item.t) :
  lines request !! k = Some item ->
  upstream_unavailable env k (Item.ProductID item) ->
  exists resp,
    response (serve env request rows) = Some resp
    /\ status resp = fetch_failure_status request
    /\ table (serve env request rows) = rows
    /\ List.filter is_db_effect (trace (serve env request rows)) = []
    /\ List.filter is_call (trace (serve env request rows)) = [].
Proof.
  intros Hk Hdown.
  destruct (getProductInfo_unavailable env k _ Hdown) as [e He].
  destruct request as [[req | e'] | [items | e']]; cbn [serve lines] in *;
    try done.
  - destruct k as [| k]; simpl in Hk; [| done]. inversion Hk; subst. simpl in He.
    unfold createOrder. rewrite He. eexists. split_and!; reflexivity.
  - assert (Hfail : passes env (0 + k) (Item.ProductID item) (Item.Quantity item)
                    = false).
    { unfold passes. simpl. by rewrite He. }
    destruct (validationPhase_fails env items 0 k item Hk Hfail) as (r & eff & Hval).
    destruct (validationPhase_Rejected _ _ _ _ _ Hval)
      as (j & it & _ & _ & _ & -> & ->).
    rewrite (createBulkOrder_rejected _ _ _ _ _ Hval). cbn [response table trace].
    eexists. split_and!; [reflexivity | apply status_rejection | reflexivity | |];
      by apply filter_fetches.
Qed.

Lemma fetch_failure_is_an_error_without_rows_witness :
  upstream_unavailable env_unreachable 0 1
  /\ exists resp,
       response (serve env_unreachable (PostOrders (Ok (OrderReq.mk 1 5 7))) [])
       = Some resp
       /\ status resp = StatusInternalServerError
       /\ table (serve env_unreachable (PostOrders (Ok (OrderReq.mk 1 5 7))) []) = [].
Proof.
  assert (Hdown : upstream_unavailable env_unreachable 0 1).
  { left. by exists "connection refused"%string. }
  split; [exact Hdown |].
  destruct (fetch_failure_is_an_error_without_rows env_unreachable
              (PostOrders (Ok (OrderReq.mk 1 5 7))) [] 0 (Item.mk 1 5) eq_refl Hdown)
    as (resp & Hr & Hs & Ht & _).
  exists resp. split_and!; assumption.
Defined.

(** C7 fails for a batch: with the inventory service unreachable the bulk
    handler answers 400, not a server error. *)
Lemma bulk_fetch_failure_is_answered_400 :
  upstream_unavailable env_unreachable 0 1
  /\ response (createBulkOrder env_unreachable (Ok [Item.mk 1 2]) [])
     = Some (http_Error "Failed to fetch product 1: connection refused" 400)
  /\ ~ (exists resp,
          response (createBulkOrder env_unreachable (Ok [Item.mk 1 2]) []) = Some resp
          /\ 500 <= status resp <= 599).
Proof.
  split; [left; by exists "connection refused"%string |].
  split; [vm_compute; reflexivity |].
  intros (resp & Hr & Hs). vm_compute in Hr. inversion Hr; subst.
  simpl in Hs. lia.
Qed.

(** C9 fails on the code: neither handler checks the sign of a quantity,
    only that the snapshot's stock is not below it.  A single order for -3
    laptops (100.00 each, 50 in stock) is answered 201 and persisted with
    quantity -3 and total -300.00, and the stock update that follows asks
    for a stock of 53; a batch item of quantity 0 is persisted as well. *)
Lemma nonpositive_quantity_is_persisted :
  let out := createOrder env_up (Ok (OrderReq.mk 1 (-3) 7)) [] in
  OrderReq.Quantity (OrderReq.mk 1 (-3) 7) <= 0
  /\ getProductInfo env_up 0 1 = Ok laptop
  /\ response out
     = Some (mkResponse 201
               (JsonOrder (Order.mk 101 7 1 (-3) (-300)%float "confirmed" 1700000000)))
  /\ table out = [Order.mk 101 7 1 (-3) (-300)%float "confirmed" 1700000000]
  /\ List.filter is_call (trace out)
     = [UpdateProductStock 1 laptop 53;
        PublishEvent (Event.mk "order_created" 101 1 (-3) (-300)%float 1700000001)]
  /\ HttpPut 1 (UpdateData.mk "Laptop" "" 100%float 53) ∈ trace out
  /\ Item.Quantity (Item.mk 1 0) <= 0
  /\ table (createBulkOrder env_up (Ok [Item.mk 1 0]) [])
     = [Order.mk 101 0 1 0 0%float "confirmed" 1700000000].
Proof.
  intros out. split_and!; try (vm_compute; first [reflexivity | discriminate]).
  apply list_elem_of_In. vm_compute. do 3 right. left. reflexivity.
Qed.

(** C10.  Every PUT that [updateProductStock] sends carries the name and
    the price of the product it was given, the new stock, and the empty
    string as description.  The inventory service's [updateProduct], when it
    answers 200, has overwritten name, description, price and stock of the
    addressed row with the decoded body (the price at the two decimal places
    of its column) and kept the row's id and creation time.  Hence a stock update that reaches the inventory service and
    succeeds leaves the product with an empty description.  The product a
    handler gives to [updateProductStock] is always the snapshot fetched
    when the line item was validated. *)
Theorem stock_update_erases_description (env : Env) (n : nat) (pid : Z)
    (product : Product.t) (newStock : Z) :
  (forall e, e ∈ (updateProductStock env n pid product newStock).2 ->
     e = HttpPut pid (UpdateData.mk (Product.Name product) ""
                                    (Product.Price product) newStock))
  /\ (forall request rows resp,
        response (serve env request rows) = Some resp ->
        status resp = StatusCreated ->
        UpdateProductStock pid product newStock ∈ trace (serve env request rows) ->
        exists i item,
          lines request !! i = Some item
          /\ pid = Item.ProductID item
          /\ getProductInfo env i (Item.ProductID item) = Ok product)
  /\ (forall ienv id p products resp products' events,
        Inventory.updateProduct ienv id (Ok p) products = (resp, products', events) ->
        Inventory.status resp = StatusOK ->
        exists old,
          products !! id = Some old
          /\ products'
             = <[id := Inventory.Product.mk (Inventory.Product.ID old)
                         (Inventory.Product.Name p) (Inventory.Product.Description p)
                         (decimal_10_2 (Inventory.Product.Price p))
                         (Inventory.Product.Stock p)
                         (Inventory.Product.CreatedAt old)]> products)
  /\ (forall ienv products,
        http_put env n pid (updateData product newStock)
        = put_reaches_inventory ienv products pid (updateData product newStock) ->
        (updateProductStock env n pid product newStock).1 = None ->
        exists old,
          products !! pid = Some old
          /\ inventory_after ienv products pid (updateData product newStock)
             = <[pid := Inventory.Product.mk (Inventory.Product.ID old)
                          (Product.Name product) ""
                          (decimal_10_2 (Product.Price product)) newStock
                          (Inventory.Product.CreatedAt old)]> products).
Proof.
  assert (Happlied : forall ienv id p products resp products' events,
            Inventory.updateProduct ienv id (Ok p) products = (resp, products', events) ->
            Inventory.status resp = StatusOK ->
            exists old,
              products !! id = Some old
              /\ products'
                 = <[id := Inventory.Product.mk (Inventory.Product.ID old)
                             (Inventory.Product.Name p) (Inventory.Product.Description p)
                             (decimal_10_2 (Inventory.Product.Price p))
                             (Inventory.Product.Stock p)
                             (Inventory.Product.CreatedAt old)]> products).
  { intros ienv id p products resp products' events Hup Hst.
    unfold Inventory.updateProduct, Inventory.db_update in Hup.
    destruct (Inventory.db_exec ienv);
      [| inversion Hup; subst; vm_compute in Hst; discriminate].
    destruct (products !! id) as [old |] eqn:Hold; simpl in Hup;
      inversion Hup; subst; [| vm_compute in Hst; discriminate].
    by exists old. }
  split_and!.
  - intros e. unfold updateProductStock.
    destruct (json_number_ok _); simpl; [| by intros ?%elem_of_nil].
    destruct (http_put env n pid _) as [[code text] | err]; simpl;
      [destruct (code =? StatusOK); simpl |];
      by intros ->%list_elem_of_singleton.
  - intros request rows resp Hresp Hst Hin.
    destruct (serve_created env request rows resp Hresp Hst)
      as (vs & created & pre & post & [Hlenv Hsnap] & _ & _ & _ & _ & Htr & _
          & _ & Hpre & _ & Hcalls & _).
    assert (Hcall : UpdateProductStock pid product newStock
                      ∈ expected_calls env 0 vs created).
    { rewrite <- Hcalls, <- (app_nil_l (List.filter is_call post)), <- Hpre,
        <- List.filter_app, <- Htr.
      apply list_elem_of_In, List.filter_In. split; [| reflexivity].
      by apply list_elem_of_In. }
    destruct (expected_calls_update _ _ _ _ _ _ _ Hcall) as (j & v & Hj & -> & -> & _).
    assert (Hi : is_Some (lines request !! j)).
    { apply lookup_lt_is_Some. apply lookup_lt_Some in Hj. lia. }
    destruct Hi as [item Hi].
    destruct (Hsnap j item Hi) as (p & Hp & _ & Hv). rewrite Hj in Hv.
    inversion Hv; subst. simpl. by exists j, item.
  - exact Happlied.
  - intros ienv products Hput Hok.
    unfold updateProductStock in Hok. unfold inventory_after.
    destruct (json_number_ok _); simpl in Hok; [| discriminate].
    rewrite Hput in Hok. unfold put_reaches_inventory in Hok.
    destruct (Inventory.updateProduct ienv pid _ products)
      as [[resp products'] events] eqn:Hup.
    simpl in Hok |- *.
    destruct (Z.eqb_spec (Inventory.status resp) StatusOK) as [Hst | Hst];
      simpl in Hok; [| discriminate].
    destruct (Happlied _ _ _ _ _ _ _ Hup Hst) as (old & Hold & ->).
    by exists old.
Qed.

Lemma stock_update_erases_description_witness :
  (updateProductStock
     (mkEnv (http_get env_up)
            (fun _ id data => put_reaches_inventory inventory_env inventory_table id data)
            (db_insert env_up) (db_begin env_up) (db_commit env_up)
            (kafka_write env_up) (now_unix env_up))
     0 1 laptop 45).1 = None
  /\ inventory_table !! 1
     = Some (Inventory.Product.mk 1 "Laptop" "High-performance laptop" 100%float 50
                                  1690000000)
  /\ inventory_after inventory_env inventory_table 1 (updateData laptop 45) !! 1
     = Some (Inventory.Product.mk 1 "Laptop" "" 100%float 45 1690000000).
Proof.
  split; [reflexivity |]. split; [reflexivity |].
  destruct (stock_update_erases_description
              (mkEnv (http_get env_up)
                     (fun _ id data =>
                        put_reaches_inventory inventory_env inventory_table id data)
                     (db_insert env_up) (db_begin env_up) (db_commit env_up)
                     (kafka_write env_up) (now_unix env_up))
              0 1 laptop 45) as (_ & _ & _ & Hend).
  destruct (Hend inventory_env inventory_table eq_refl eq_refl) as (old & Hold & ->).
  rewrite lookup_insert_eq. vm_compute in Hold. inversion Hold; subst. reflexivity.
Defined.

(** ** Further properties: the inventory service *)

(** X1.  A product created with 201 took an id that was free and can be
    read back: the answer carries the request's name, description, price
    and stock with the id and the time the store assigned; [getProduct] on
    that id returns the same product with the price at the two decimal
    places of its column; every other id answers as before; one event was
    handed to [publishEvent]. *)
Theorem createProduct_then_getProduct (env env' : Inventory.Env) (assigned : Z * Time)
    (p : Inventory.Product.t) (products products' : gmap Z Inventory.Product.t)
    (resp : InventoryApi.Response) (events : list (gmap string Value)) :
  InventoryApi.createProduct env assigned (Ok p) products = (resp, products', events) ->
  InventoryApi.status resp = StatusCreated ->
  Inventory.db_exec env' = Ok tt ->
  let created := Inventory.Product.mk assigned.1 (Inventory.Product.Name p)
                   (Inventory.Product.Description p) (Inventory.Product.Price p)
                   (Inventory.Product.Stock p) assigned.2 in
  let row := Inventory.Product.mk assigned.1 (Inventory.Product.Name p)
               (Inventory.Product.Description p)
               (decimal_10_2 (Inventory.Product.Price p))
               (Inventory.Product.Stock p) assigned.2 in
  InventoryApi.body resp = InventoryApi.Encode_product created
  /\ products !! assigned.1 = None
  /\ InventoryApi.getProduct env' assigned.1 products'
     = InventoryApi.mkResponse StatusOK (InventoryApi.Encode_product row)
  /\ (forall id, id <> assigned.1 ->
        InventoryApi.getProduct env' id products'
        = InventoryApi.getProduct env' id products)
  /\ length events = 1%nat.
Proof.
  intros Hc Hst Hdb. unfold InventoryApi.createProduct in Hc.
  destruct (Inventory.db_exec env);
    [| inversion Hc; subst; vm_compute in Hst; discriminate].
  destruct assigned as [id ts].
  destruct (products !! id) eqn:Hfree;
    inversion Hc; subst; [vm_compute in Hst; discriminate |].
  simpl. split_and!; try done.
  - unfold InventoryApi.getProduct. by rewrite Hdb, lookup_insert_eq.
  - intros id' Hne. unfold InventoryApi.getProduct.
    by rewrite Hdb, lookup_insert_ne.
Qed.

Lemma createProduct_then_getProduct_witness :
  InventoryApi.getProduct inventory_env 7
    (InventoryApi.createProduct inventory_env (7, 1700000003)
       (Ok (Inventory.Product.mk 0 "Bolt" "Hex bolt" 0.125%float 40 0))
       inventory_table).1.2
  = InventoryApi.mkResponse StatusOK
      (InventoryApi.JsonProduct
         (Inventory.Product.mk 7 "Bolt" "Hex bolt" (cents 13) 40 1700000003)).
Proof.
  destruct (createProduct_then_getProduct inventory_env inventory_env (7, 1700000003)
              (Inventory.Product.mk 0 "Bolt" "Hex bolt" 0.125%float 40 0)
              inventory_table
              (InventoryApi.createProduct inventory_env (7, 1700000003)
                 (Ok (Inventory.Product.mk 0 "Bolt" "Hex bolt" 0.125%float 40 0))
                 inventory_table).1.2
              (InventoryApi.createProduct inventory_env (7, 1700000003)
                 (Ok (Inventory.Product.mk 0 "Bolt" "Hex bolt" 0.125%float 40 0))
                 inventory_table).1.1
              (InventoryApi.createProduct inventory_env (7, 1700000003)
                 (Ok (Inventory.Product.mk 0 "Bolt" "Hex bolt" 0.125%float 40 0))
                 inventory_table).2
              eq_refl eq_refl eq_refl)
    as (_ & _ & Hget & _).
  exact Hget.
Defined.

(** X2.  [deleteProduct] changes the table only when it answers 200, and
    publishes only then.  After a 200 the product is gone: [getProduct] on
    its id answers 404, every other id answers as before, and deleting it
    again answers 404 and changes nothing. *)
Theorem deleteProduct_removes_only_that_product (env env' : Inventory.Env) (id : Z)
    (products products' : gmap Z Inventory.Product.t)
    (resp : InventoryApi.Response) (events : list (gmap string Value)) :
  InventoryApi.deleteProduct env id products = (resp, products', events) ->
  (InventoryApi.status resp = StatusOK \/ (products' = products /\ events = []))
  /\ (InventoryApi.status resp = StatusOK ->
      Inventory.db_exec env' = Ok tt ->
      is_Some (products !! id)
      /\ InventoryApi.getProduct env' id products'
         = InventoryApi.mkResponse StatusNotFound (InventoryApi.Text "Product not found")
      /\ (forall id', id' <> id ->
            InventoryApi.getProduct env' id' products'
            = InventoryApi.getProduct env' id' products)
      /\ InventoryApi.deleteProduct env' id products'
         = (InventoryApi.mkResponse StatusNotFound
              (InventoryApi.Text "Product not found"), products', [])).
Proof.
  intros Hd. unfold InventoryApi.deleteProduct in Hd.
  destruct (Inventory.db_exec env).
  - destruct (products !! id) as [row |] eqn:Hrow; inversion Hd; subst; simpl.
    + split; [by left |]. intros _ Hdb.
      split; [by eauto |].
      unfold InventoryApi.getProduct, InventoryApi.deleteProduct.
      rewrite Hdb, lookup_delete_eq. split; [done |]. split; [| done].
      intros id' Hne. by rewrite lookup_delete_ne.
    + split; [by right |]. intros Hst. vm_compute in Hst. discriminate.
  - inversion Hd; subst; simpl. split; [by right |].
    intros Hst. vm_compute in Hst. discriminate.
Qed.

Lemma deleteProduct_removes_only_that_product_witness :
  InventoryApi.getProduct inventory_env 1
    (InventoryApi.deleteProduct inventory_env 1 inventory_two).1.2
  = InventoryApi.mkResponse StatusNotFound (InventoryApi.Text "Product not found")
  /\ InventoryApi.getProduct inventory_env 2
       (InventoryApi.deleteProduct inventory_env 1 inventory_two).1.2
     = InventoryApi.mkResponse StatusOK (InventoryApi.JsonProduct keyboard_row).
Proof.
  destruct (deleteProduct_removes_only_that_product inventory_env inventory_env 1
              inventory_two
              (InventoryApi.deleteProduct inventory_env 1 inventory_two).1.2
              (InventoryApi.deleteProduct inventory_env 1 inventory_two).1.1
              (InventoryApi.deleteProduct inventory_env 1 inventory_two).2
              eq_refl) as [_ Hok].
  destruct (Hok eq_refl eq_refl) as (_ & Hget & Hframe & _).
  split; [exact Hget |]. rewrite (Hframe 2) by lia. reflexivity.
Defined.

(** X3.  [updateProduct] changes the table only when it answers 200, and
    publishes only then: an id without a row is answered 404.  After a 200
    [getProduct] on the id returns the decoded body's name, description,
    price (at the two decimal places of its column) and stock with the
    row's id and creation time, and every other id answers as before. *)
Theorem updateProduct_touches_only_that_product (env env' : Inventory.Env) (id : Z)
    (p : Inventory.Product.t) (products products' : gmap Z Inventory.Product.t)
    (resp : Inventory.Response) (events : list Inventory.Event.t) :
  Inventory.updateProduct env id (Ok p) products = (resp, products', events) ->
  (Inventory.status resp = StatusOK \/ (products' = products /\ events = []))
  /\ (products !! id = None -> Inventory.status resp <> StatusOK)
  /\ (Inventory.status resp = StatusOK ->
      Inventory.db_exec env' = Ok tt ->
      (exists old,
         products !! id = Some old
         /\ InventoryApi.getProduct env' id products'
            = InventoryApi.mkResponse StatusOK
                (InventoryApi.Encode_product
                   (Inventory.Product.mk (Inventory.Product.ID old)
                      (Inventory.Product.Name p) (Inventory.Product.Description p)
                      (decimal_10_2 (Inventory.Product.Price p))
                      (Inventory.Product.Stock p)
                      (Inventory.Product.CreatedAt old))))
      /\ forall id', id' <> id ->
           InventoryApi.getProduct env' id' products'
           = InventoryApi.getProduct env' id' products).
Proof.
  intros Hu. unfold Inventory.updateProduct, Inventory.db_update in Hu.
  destruct (Inventory.db_exec env).
  - destruct (products !! id) as [old |] eqn:Hold; simpl in Hu;
      inversion Hu; subst; simpl.
    + split_and!; [by left | done |]. intros _ Hdb.
      unfold InventoryApi.getProduct. rewrite Hdb, lookup_insert_eq.
      split; [by exists old |]. intros id' Hne. by rewrite lookup_insert_ne.
    + split_and!; [by right | by vm_compute |].
      intros Hst. vm_compute in Hst. discriminate.
  - inversion Hu; subst; simpl. split_and!; [by right | by vm_compute |].
    intros Hst. vm_compute in Hst. discriminate.
Qed.

Lemma updateProduct_touches_only_that_product_witness :
  InventoryApi.getProduct inventory_env 2
    (Inventory.updateProduct inventory_env 1
       (Ok (Inventory.Product.mk 0 "Laptop" "" 100%float 45 0)) inventory_two).1.2
  = InventoryApi.mkResponse StatusOK (InventoryApi.JsonProduct keyboard_row).
Proof.
  destruct (updateProduct_touches_only_that_product inventory_env inventory_env 1
              (Inventory.Product.mk 0 "Laptop" "" 100%float 45 0) inventory_two
              (Inventory.updateProduct inventory_env 1
                 (Ok (Inventory.Product.mk 0 "Laptop" "" 100%float 45 0))
                 inventory_two).1.2
              (Inventory.updateProduct inventory_env 1
                 (Ok (Inventory.Product.mk 0 "Laptop" "" 100%float 45 0))
                 inventory_two).1.1
              (Inventory.updateProduct inventory_env 1
                 (Ok (Inventory.Product.mk 0 "Laptop" "" 100%float 45 0))
                 inventory_two).2
              eq_refl) as (_ & _ & Hok).
  destruct (Hok eq_refl eq_refl) as [_ Hframe].
  rewrite (Hframe 2) by lia. reflexivity.
Defined.



(** ** Further properties: listing and paging *)

Lemma StronglySorted_sublist {A : Type} (R : relation A) (l1 l2 : list A) :
  l1 `sublist_of` l2 -> StronglySorted R l2 -> StronglySorted R l1.
Proof.
  induction 1 as [| x l1 l2 Hsub IH | x l1 l2 Hsub IH]; intros Hs.
  - constructor.
  - apply StronglySorted_inv in Hs as [Hs Hall]. constructor; [by apply IH |].
    apply Forall_forall. intros y Hy.
    rewrite Forall_forall in Hall. apply Hall. by eapply sublist_subseteq.
  - apply StronglySorted_inv in Hs as [Hs _]. by apply IH.
Qed.

#[global] Instance by_id_transitive : Transitive InventoryApi.by_id.
Proof. intros a b c. unfold InventoryApi.by_id. lia. Qed.

#[global] Instance by_id_total : Total InventoryApi.by_id.
Proof. intros a b. unfold InventoryApi.by_id. lia. Qed.

#[global] Instance by_id_desc_transitive : Transitive OrderQueries.by_id_desc.
Proof. intros a b c. unfold OrderQueries.by_id_desc. lia. Qed.

#[global] Instance by_id_desc_total : Total OrderQueries.by_id_desc.
Proof. intros a b. unfold OrderQueries.by_id_desc. lia. Qed.

Lemma products_limit_range (Atoi : string -> result Z) (limitStr : string) :
  1 <= InventoryApi.products_limit Atoi limitStr <= 100.
Proof.
  unfold InventoryApi.products_limit.
  destruct (String.eqb limitStr ""); simpl; [lia |].
  destruct (Atoi limitStr) as [l | e]; simpl; [| lia].
  destruct (Z.ltb_spec 0 l); simpl; [| lia].
  destruct (Z.ltb_spec 100 l); lia.
Qed.

(** X5.  [getProducts] never refuses a paging parameter: a limit that does
    not parse or is not positive, and an offset that does not parse or is
    negative, are answered exactly as if the parameter were absent.  When
    the query always asks for 1 to 100 rows from an offset that is not
    negative, and when the store runs it the answer is 200 and encodes at
    most 100 products (and no more than the limit), all rows of the table,
    in ascending order of their keys. *)
Theorem getProducts_pages_leniently (Atoi : string -> result Z)
    (env : Inventory.Env) (limitStr offsetStr : string)
    (products : gmap Z Inventory.Product.t) :
  ((forall l, Atoi limitStr = Ok l -> l <= 0) ->
     InventoryApi.getProducts Atoi env limitStr offsetStr products
     = InventoryApi.getProducts Atoi env "" offsetStr products)
  /\ ((forall o, Atoi offsetStr = Ok o -> o < 0) ->
        InventoryApi.getProducts Atoi env limitStr offsetStr products
        = InventoryApi.getProducts Atoi env limitStr "" products)
  /\ 1 <= InventoryApi.products_limit Atoi limitStr <= 100
  /\ 0 <= InventoryApi.products_offset Atoi offsetStr
  /\ (Inventory.db_exec env = Ok tt ->
      exists rows,
        InventoryApi.getProducts Atoi env limitStr offsetStr products
        = InventoryApi.mkResponse StatusOK (InventoryApi.Encode_products rows.*2)
        /\ (length rows <= 100)%nat
        /\ (Z.of_nat (length rows) <= InventoryApi.products_limit Atoi limitStr)
        /\ StronglySorted InventoryApi.by_id rows
        /\ forall k p, (k, p) ∈ rows -> products !! k = Some p).
Proof.
  split_and!.
  - intros Hbad. unfold InventoryApi.getProducts, InventoryApi.products_limit.
    destruct (String.eqb limitStr ""); [done |].
    destruct (Atoi limitStr) as [l | e]; [| done].
    destruct (Z.ltb_spec 0 l) as [Hpos | _]; [| done].
    specialize (Hbad l eq_refl). lia.
  - intros Hbad. unfold InventoryApi.getProducts, InventoryApi.products_offset.
    destruct (String.eqb offsetStr ""); [done |].
    destruct (Atoi offsetStr) as [o | e]; [| done].
    destruct (Z.leb_spec 0 o) as [Hpos | _]; [| done].
    specialize (Hbad o eq_refl). lia.
  - apply products_limit_range.
  - apply products_limit_range.
  - unfold InventoryApi.products_offset.
    destruct (String.eqb offsetStr ""); [done |].
    destruct (Atoi offsetStr) as [o | e]; [| done].
    by destruct (Z.leb_spec 0 o).
  - intros Hdb. unfold InventoryApi.getProducts, InventoryApi.ordered_by_id.
    rewrite Hdb.
    pose proof (products_limit_range Atoi limitStr) as Hrange.
    set (limit := InventoryApi.products_limit Atoi limitStr) in *.
    set (offset := InventoryApi.products_offset Atoi offsetStr).
    set (sorted := merge_sort InventoryApi.by_id (map_to_list products)).
    exists (take (Z.to_nat limit) (drop (Z.to_nat offset) sorted)).
    split_and!.
    + by rewrite fmap_take, fmap_drop.
    + rewrite length_take. lia.
    + rewrite length_take. lia.
    + apply (StronglySorted_sublist _ _ sorted).
      * etrans; [apply sublist_take | apply sublist_drop].
      * apply StronglySorted_merge_sort; apply _.
    + intros k p Hin. apply elem_of_map_to_list.
      rewrite <- (merge_sort_Permutation InventoryApi.by_id).
      by apply (subseteq_drop (Z.to_nat offset)), (subseteq_take (Z.to_nat limit)).
Qed.

Lemma getProducts_pages_leniently_witness :
  InventoryApi.getProducts atoi_demo inventory_env "-1" "" inventory_two
  = InventoryApi.getProducts atoi_demo inventory_env "" "" inventory_two
  /\ InventoryApi.getProducts atoi_demo inventory_env "5000" "" inventory_two
     = InventoryApi.mkResponse StatusOK
         (InventoryApi.JsonProducts
            [Inventory.Product.mk 1 "Laptop" "High-performance laptop" 100%float 50
                                  1690000000;
             keyboard_row]).
Proof.
  split; [| vm_compute; reflexivity].
  destruct (getProducts_pages_leniently atoi_demo inventory_env "-1" "" inventory_two)
    as (Hlimit & _).
  apply Hlimit. intros l Hl. vm_compute in Hl. inversion Hl. lia.
Defined.

Lemma parse_bound_range (Atoi : string -> result Z) (str : string) (default n : Z) :
  0 <= default -> OrderQueries.parse_bound Atoi str default = Some n -> 0 <= n.
Proof.
  unfold OrderQueries.parse_bound. intros Hd.
  destruct (String.eqb str ""); [intros [= <-]; lia |].
  destruct (Atoi str) as [m | e]; [| done].
  destruct (Z.ltb_spec m 0); [done |]. intros [= <-]. lia.
Qed.

(** X6.  [getOrders] refuses a limit or an offset that does not parse or is
    negative with 400, whatever the store would do.  Otherwise, when the
    store runs the query, the answer is 200 and encodes at most 1000 orders
    (and no more than the limit asked, 50 when none is), all rows of the
    table, in descending order of id. *)
Theorem getOrders_pages_strictly (Atoi : string -> result Z)
    (db_query : result unit) (limitStr offsetStr : string) (rows : list Order.t) :
  (OrderQueries.parse_bound Atoi limitStr 50 = None ->
     OrderQueries.getOrders Atoi db_query limitStr offsetStr rows
     = http_Error "Invalid limit" StatusBadRequest)
  /\ (forall limit,
        OrderQueries.parse_bound Atoi limitStr 50 = Some limit ->
        (OrderQueries.parse_bound Atoi offsetStr 0 = None ->
           OrderQueries.getOrders Atoi db_query limitStr offsetStr rows
           = http_Error "Invalid offset" StatusBadRequest)
        /\ (forall offset,
              OrderQueries.parse_bound Atoi offsetStr 0 = Some offset ->
              db_query = Ok tt ->
              exists listed,
                OrderQueries.getOrders Atoi db_query limitStr offsetStr rows
                = mkResponse StatusOK (Encode_orders listed)
                /\ (length listed <= 1000)%nat
                /\ Z.of_nat (length listed) <= limit
                /\ (length listed <= length rows - Z.to_nat offset)%nat
                /\ StronglySorted OrderQueries.by_id_desc listed
                /\ forall o, o ∈ listed -> o ∈ rows)).
Proof.
  unfold OrderQueries.getOrders. split.
  - by intros ->.
  - intros limit Hlimit. pose proof (parse_bound_range Atoi limitStr 50 limit ltac:(lia) Hlimit).
    rewrite Hlimit. split; [by intros -> |].
    intros offset -> ->.
    set (capped := if 1000 <? limit then 1000 else limit).
    assert (Hcap : 0 <= capped <= 1000 /\ capped <= limit).
    { unfold capped. destruct (Z.ltb_spec 1000 limit); lia. }
    set (sorted := merge_sort OrderQueries.by_id_desc rows).
    exists (take (Z.to_nat capped) (drop (Z.to_nat offset) sorted)).
    split_and!.
    + done.
    + rewrite length_take. lia.
    + rewrite length_take. lia.
    + rewrite length_take, length_drop.
      unfold sorted. rewrite (merge_sort_Permutation OrderQueries.by_id_desc rows). lia.
    + apply (StronglySorted_sublist _ _ sorted).
      * etrans; [apply sublist_take | apply sublist_drop].
      * apply StronglySorted_merge_sort; apply _.
    + intros o Hin. rewrite <- (merge_sort_Permutation OrderQueries.by_id_desc).
      by apply (subseteq_drop (Z.to_nat offset)), (subseteq_take (Z.to_nat capped)).
Qed.

Lemma getOrders_pages_strictly_witness :
  OrderQueries.parse_bound atoi_demo "-1" 50 = None
  /\ OrderQueries.getOrders atoi_demo (Ok tt) "-1" "" []
     = http_Error "Invalid limit" StatusBadRequest.
Proof.
  split; [reflexivity |].
  destruct (getOrders_pages_strictly atoi_demo (Ok tt) "-1" "" []) as [Hbad _].
  apply Hbad. reflexivity.
Defined.

(** ** Further properties: reading orders back *)

(** Every order a 201 answer creates belongs to the user of the request. *)
Lemma created_orders_of_user (env : Env) (request : Request) (rows : list Order.t)
    (resp : Response) :
  response (serve env request rows) = Some resp ->
  status resp = StatusCreated ->
  exists created,
    table (serve env request rows) = rows ++ map persisted created
    /\ created_body request created = Some (body resp)
    /\ length created = length (lines request)
    /\ forall o, o ∈ created -> Order.UserID o = user_of request.
Proof.
  intros Hresp Hst.
  destruct (serve_created env request rows resp Hresp Hst)
    as (vs & created & pre & post & [Hlenv _] & Hlen & Hall & Ht & Hb & _).
  exists created. split_and!; try done; [congruence |].
  intros o Ho. apply list_elem_of_lookup in Ho as [i Hi].
  assert (Hv : is_Some (vs !! i)).
  { apply lookup_lt_is_Some. apply lookup_lt_Some in Hi. lia. }
  destruct Hv as [v Hv]. destruct (Hall i v Hv) as (id & ts & Ho').
  rewrite Hi in Ho'. by inversion Ho'.
Qed.

(** X7.  [getOrder] answers 404 exactly when no row has the id (and the
    store runs the query); otherwise it answers 200 and encodes a row of
    that id, the first one of the table. *)
Theorem getOrder_finds_the_row (id : Z) (rows : list Order.t) :
  (OrderQueries.getOrder (Ok tt) id rows = http_Error "Order not found" StatusNotFound
   /\ forall o, o ∈ rows -> Order.ID o <> id)
  \/ exists i o,
       rows !! i = Some o
       /\ Order.ID o = id
       /\ (forall j r, rows !! j = Some r -> (j < i)%nat -> Order.ID r <> id)
       /\ OrderQueries.getOrder (Ok tt) id rows = mkResponse StatusOK (Encode_order o).
Proof.
  unfold OrderQueries.getOrder.
  destruct (list_find (fun o => Order.ID o = id) rows) as [[i o] |] eqn:Hfind.
  - right. apply list_find_Some in Hfind as (Hi & Hid & Hfirst).
    exists i, o. split_and!; try done.
  - left. split; [done |]. apply list_find_None in Hfind.
    rewrite Forall_forall in Hfind. exact Hfind.
Qed.

(** X8.  An order created with 201, by either handler, can be read back:
    when its id is the id of no other row of the table, [getOrder] on that
    id answers 200 and encodes the order's row, which is the order of the
    201 answer with the total at the two decimal places of its column. *)
Theorem created_order_can_be_read_back (env : Env) (request : Request)
    (rows : list Order.t) (resp : Response) :
  response (serve env request rows) = Some resp ->
  status resp = StatusCreated ->
  exists created,
    table (serve env request rows) = rows ++ map persisted created
    /\ created_body request created = Some (body resp)
    /\ forall i o,
         created !! i = Some o ->
         (forall j r, (rows ++ map persisted created) !! j = Some r ->
                      Order.ID r = Order.ID o -> j = (length rows + i)%nat) ->
         OrderQueries.getOrder (Ok tt) (Order.ID o) (table (serve env request rows))
         = mkResponse StatusOK (Encode_order (persisted o)).
Proof.
  intros Hresp Hst.
  destruct (created_orders_of_user env request rows resp Hresp Hst)
    as (created & Ht & Hb & _).
  exists created. split_and!; try done.
  intros i o Hi Huniq. rewrite Ht. unfold OrderQueries.getOrder.
  assert (Hat : (rows ++ map persisted created) !! (length rows + i)%nat
                = Some (persisted o)).
  { rewrite lookup_app_r, Nat.add_comm, Nat.add_sub by lia.
    change (map persisted created) with (persisted <$> created).
    by rewrite list_lookup_fmap, Hi. }
  destruct (list_find (fun r => Order.ID r = Order.ID o) (rows ++ map persisted created))
    as [[j r] |] eqn:Hfind.
  - apply list_find_Some in Hfind as (Hj & Hid & _).
    rewrite (Huniq j r Hj Hid) in Hj. congruence.
  - apply list_find_None in Hfind. rewrite Forall_forall in Hfind.
    exfalso. apply (Hfind (persisted o)); [| done].
    apply list_elem_of_lookup. eauto.
Qed.

Lemma created_order_can_be_read_back_witness :
  OrderQueries.getOrder (Ok tt) 102
    (table (serve env_up (PostOrdersBulk (Ok [Item.mk 6 1; Item.mk 4 3])) []))
  = mkResponse StatusOK
      (JsonOrder (Order.mk 102 0 4 3 (cents 30) "confirmed" 1700000000)).
Proof.
  destruct (created_order_can_be_read_back env_up
              (PostOrdersBulk (Ok [Item.mk 6 1; Item.mk 4 3])) []
              (mkResponse 201
                 (JsonOrders [Order.mk 101 0 6 1 0.125%float "confirmed" 1700000000;
                              Order.mk 102 0 4 3 (PrimFloat.mul (cents 10) 3)
                                       "confirmed" 1700000000])))
    as (created & Ht & Hb & Hread); [vm_compute; reflexivity | reflexivity |].
  assert (Hcreated : created
                     = [Order.mk 101 0 6 1 0.125%float "confirmed" 1700000000;
                        Order.mk 102 0 4 3 (PrimFloat.mul (cents 10) 3)
                                 "confirmed" 1700000000]).
  { cbn [created_body] in Hb. unfold Encode_orders in Hb.
    destruct (forallb order_marshals created); [| discriminate].
    by injection Hb as ->. }
  subst created.
  apply (Hread 1%nat (Order.mk 102 0 4 3 (PrimFloat.mul (cents 10) 3)
                               "confirmed" 1700000000) eq_refl).
  intros [| [| j]] r Hj Hid; simpl in Hj; [| reflexivity | done].
  injection Hj as <-. vm_compute in Hid. discriminate.
Defined.

(** The listing of a user is a sorted permutation of the user's rows. *)
Lemma getOrdersByUser_lists (userId : Z) (rows : list Order.t) :
  exists listed,
    OrderQueries.getOrdersByUser (Ok tt) userId rows
    = mkResponse StatusOK (Encode_orders listed)
    /\ (forall o, o ∈ listed <-> o ∈ rows /\ Order.UserID o = userId)
    /\ listed ≡ₚ List.filter (fun o => Order.UserID o =? userId) rows
    /\ StronglySorted OrderQueries.by_id_desc listed.
Proof.
  unfold OrderQueries.getOrdersByUser.
  exists (merge_sort OrderQueries.by_id_desc
            (List.filter (fun o => Order.UserID o =? userId) rows)).
  split_and!.
  - done.
  - intros o. rewrite (merge_sort_Permutation OrderQueries.by_id_desc).
    rewrite !list_elem_of_In, List.filter_In, Z.eqb_eq. done.
  - apply merge_sort_Permutation.
  - apply StronglySorted_merge_sort; apply _.
Qed.

(** X9.  [getOrdersByUser], when the store runs the query, answers 200 and
    encodes exactly the rows of the table that belong to the user, each as
    often as the table holds it, in descending order of id; a user without
    orders gets 200 with an empty list, not 404. *)
Theorem getOrdersByUser_lists_the_users_rows (userId : Z) (rows : list Order.t) :
  exists listed,
    OrderQueries.getOrdersByUser (Ok tt) userId rows
    = mkResponse StatusOK (Encode_orders listed)
    /\ listed ≡ₚ List.filter (fun o => Order.UserID o =? userId) rows
    /\ (forall o, o ∈ listed <-> o ∈ rows /\ Order.UserID o = userId)
    /\ StronglySorted OrderQueries.by_id_desc listed
    /\ ((forall o, o ∈ rows -> Order.UserID o <> userId) ->
        OrderQueries.getOrdersByUser (Ok tt) userId rows
        = mkResponse StatusOK (JsonOrders [])).
Proof.
  destruct (getOrdersByUser_lists userId rows) as (listed & Hl & Hmem & Hperm & Hs).
  exists listed. split_and!; try done.
  intros Hnone. rewrite Hl. destruct listed as [| o rest]; [done |].
  exfalso. destruct (proj1 (Hmem o)) as [Hin Hu]; [by left |].
  by apply (Hnone o).
Qed.

(** X10.  The rows a 201 answer adds are listed under the user of the
    request, which for a batch is user 0 whoever sent it, and the listing
    of every other user is what it was before. *)
Theorem created_orders_are_listed_under_their_user (env : Env) (request : Request)
    (rows : list Order.t) (resp : Response) :
  response (serve env request rows) = Some resp ->
  status resp = StatusCreated ->
  (forall decoded, request = PostOrdersBulk decoded -> user_of request = 0)
  /\ (forall db_query userId,
        userId <> user_of request ->
        OrderQueries.getOrdersByUser db_query userId (table (serve env request rows))
        = OrderQueries.getOrdersByUser db_query userId rows)
  /\ exists created listed,
       table (serve env request rows) = rows ++ map persisted created
       /\ length created = length (lines request)
       /\ OrderQueries.getOrdersByUser (Ok tt) (user_of request)
            (table (serve env request rows))
          = mkResponse StatusOK (Encode_orders listed)
       /\ forall o, o ∈ created -> persisted o ∈ listed.
Proof.
  intros Hresp Hst.
  destruct (created_orders_of_user env request rows resp Hresp Hst)
    as (created & Ht & _ & Hlen & Huser).
  split_and!.
  - by intros decoded ->.
  - intros db_query userId Hne. unfold OrderQueries.getOrdersByUser.
    destruct db_query; [| done]. rewrite Ht, List.filter_app.
    assert (Hnone : List.filter (fun o => Order.UserID o =? userId)
                      (map persisted created) = []).
    { clear -Huser Hne. induction created as [| o rest IH]; [done |]. simpl.
      rewrite (Huser o) by (by left).
      destruct (Z.eqb_spec (user_of request) userId); [congruence |].
      apply IH. intros o' Ho'. apply Huser. by right. }
    by rewrite Hnone, app_nil_r.
  - destruct (getOrdersByUser_lists (user_of request) (rows ++ map persisted created))
      as (listed & Hl & Hmem).
    exists created, listed. rewrite Ht. split_and!; try done.
    intros o Ho. apply Hmem. split; [| exact (Huser o Ho)].
    apply elem_of_app. right. apply list_elem_of_In, List.in_map.
    by apply list_elem_of_In.
Qed.

Lemma created_orders_are_listed_under_their_user_witness :
  OrderQueries.getOrdersByUser (Ok tt) 7
    (table (serve env_up (PostOrdersBulk (Ok [Item.mk 1 2; Item.mk 2 4]))
                  [Order.mk 55 7 1 1 100%float "confirmed" 1600000000]))
  = mkResponse StatusOK (JsonOrders [Order.mk 55 7 1 1 100%float "confirmed" 1600000000]).
Proof.
  destruct (created_orders_are_listed_under_their_user env_up
              (PostOrdersBulk (Ok [Item.mk 1 2; Item.mk 2 4]))
              [Order.mk 55 7 1 1 100%float "confirmed" 1600000000]
              (mkResponse 201
                 (JsonOrders [Order.mk 101 0 1 2 200%float "confirmed" 1700000000;
                              Order.mk 102 0 2 4 102%float "confirmed" 1700000000])))
    as (_ & Hother & _); [vm_compute; reflexivity | reflexivity |].
  rewrite (Hother (Ok tt) 7) by (simpl; lia). reflexivity.
Defined.

(** ** Further properties: the order handlers *)


(** X11.  An empty batch fetches nothing and is answered 201 with no order
    and an unchanged table, but only through the store: the handler
    still begins and commits a transaction, so a store that cannot begin it
    or commit it turns the empty batch into a 500. *)
Theorem empty_batch_still_needs_the_store (env : Env) (rows : list Order.t) :
  let out := createBulkOrder env (Ok []) rows in
  table out = rows
  /\ List.filter is_fetch (trace out) = []
  /\ List.filter is_call (trace out) = []
  /\ ((exists u u', db_begin env = Ok u /\ db_commit env = Ok u') ->
      response out = Some (mkResponse StatusCreated (JsonOrders []))
      /\ trace out = [TxBegin; TxCommit; TxRollback])
  /\ ((exists e, db_begin env = Err e) \/ (exists e, db_commit env = Err e) ->
      exists msg, response out = Some (http_Error msg StatusInternalServerError)).
Proof.
  simpl. unfold createBulkOrder, tx_Commit. simpl.
  destruct (db_begin env) as [u | e] eqn:Hb; simpl.
  - destruct (db_commit env) as [u' | e] eqn:Hc; simpl.
    + split_and!; try done; [by rewrite app_nil_r |].
      intros [[e He] | [e He]]; congruence.
    + split_and!; try done; [| by eauto].
      intros (? & ? & _ & ?). congruence.
  - split_and!; try done; [| by eauto].
    intros (? & ? & ? & _). congruence.
Qed.

Lemma empty_batch_still_needs_the_store_witness :
  response (createBulkOrder env_commit_fails (Ok []) [])
  = Some (http_Error "Internal Server Error" StatusInternalServerError).
Proof.
  destruct (empty_batch_still_needs_the_store env_commit_fails [])
    as (_ & _ & _ & _ & Hfail).
  destruct Hfail as [msg Hm]; [right; by exists "commit failed"%string |].
  reflexivity.
Defined.

(** Closes a goal saying that a list of effects spelled out holds no PUT. *)
Ltac no_put :=
  let p := fresh in let d := fresh in let Hin := fresh in
  intros p d Hin; apply list_elem_of_In in Hin; simpl in Hin;
  repeat (destruct Hin as [Hin | Hin]; [discriminate Hin |]); exact Hin.

Lemma apply_puts_without_put (ienv : Inventory.Env) (effects : list Effect)
    (products : gmap Z Inventory.Product.t) :
  (forall pid data, HttpPut pid data ∉ effects) ->
  apply_puts ienv effects products = products.
Proof.
  revert products. induction effects as [| e rest IH]; intros products Hno; [done |].
  unfold apply_puts in *. simpl.
  destruct e; try (apply IH; intros pid data Hin; apply (Hno pid data); by right).
  exfalso. apply (Hno productID payload). by left.
Qed.

Lemma put_reaches_inventory_answer (ienv : Inventory.Env)
    (products : gmap Z Inventory.Product.t) (id : Z) (data : UpdateData.t) :
  put_reaches_inventory ienv products id data
  = match Inventory.db_exec ienv with
    | Err e => Ok (StatusInternalServerError, e +:+ newline)
    | Ok _ =>
        match products !! id with
        | Some _ =>
            Ok (StatusOK,
                Inventory.body_text (Inventory.Message "Product updated successfully"))
        | None => Ok (StatusNotFound, "Product not found" +:+ newline)
        end
    end.
Proof.
  unfold put_reaches_inventory, Inventory.updateProduct, Inventory.db_update.
  destruct (Inventory.db_exec ienv); [| done].
  by destruct (products !! id).
Qed.

Lemma inventory_after_table (ienv : Inventory.Env)
    (products : gmap Z Inventory.Product.t) (id : Z) (data : UpdateData.t) :
  inventory_after ienv products id data
  = match Inventory.db_exec ienv, products !! id with
    | Ok _, Some old =>
        <[id := Inventory.Product.mk (Inventory.Product.ID old) (UpdateData.name data)
                  (UpdateData.description data) (decimal_10_2 (UpdateData.price data))
                  (UpdateData.stock data) (Inventory.Product.CreatedAt old)]> products
    | _, _ => products
    end.
Proof.
  unfold inventory_after, Inventory.updateProduct, Inventory.db_update.
  destruct (Inventory.db_exec ienv); [| done].
  by destruct (products !! id).
Qed.

(** The answer of the inventory service to a PUT does not depend on what
    earlier PUTs wrote: it only depends on the store and on whether the row
    exists, and a PUT never adds or removes a row. *)
Lemma put_answer_is_stable (ienv : Inventory.Env)
    (products : gmap Z Inventory.Product.t) (pid pid' : Z) (data data' : UpdateData.t) :
  put_reaches_inventory ienv (inventory_after ienv products pid data) pid' data'
  = put_reaches_inventory ienv products pid' data'.
Proof.
  rewrite !put_reaches_inventory_answer, inventory_after_table.
  destruct (Inventory.db_exec ienv); [| done].
  destruct (products !! pid) as [old |] eqn:Hold; [| done].
  destruct (decide (pid = pid')) as [<- | Hne].
  - by rewrite lookup_insert_eq, Hold.
  - by rewrite lookup_insert_ne.
Qed.

Lemma live_getProductInfo (env : Env) (ienv : Inventory.Env)
    (products : gmap Z Inventory.Product.t) (n : nat) (pid : Z)
    (row : Inventory.Product.t) :
  products !! pid = Some row ->
  Inventory.db_exec ienv = Ok tt ->
  InventoryApi.product_marshals row = true ->
  getProductInfo (live_env env ienv products) n pid = Ok (snapshot_of_row row).
Proof.
  intros Hrow Hdb Hm. unfold getProductInfo, live_env. cbn [http_get].
  unfold get_reaches_inventory, InventoryApi.getProduct, InventoryApi.Encode_product.
  by rewrite Hdb, Hrow, Hm.
Qed.

(** A row that can be marshalled has a finite price. *)
Lemma product_marshals_price (row : Inventory.Product.t) :
  InventoryApi.product_marshals row = true ->
  json_number_ok (Inventory.Product.Price row) = true.
Proof. unfold InventoryApi.product_marshals. by intros [? _]%andb_prop. Qed.

Lemma apply_puts_app (ienv : Inventory.Env) (l1 l2 : list Effect)
    (products : gmap Z Inventory.Product.t) :
  apply_puts ienv (l1 ++ l2) products = apply_puts ienv l2 (apply_puts ienv l1 products).
Proof. unfold apply_puts. apply foldl_app. Qed.

(** Whatever the answers, the tail after a persisted order sends its PUT
    when the price can be marshalled, and no other. *)
Lemma apply_puts_sideEffects (env : Env) (ienv : Inventory.Env) (n : nat)
    (pid qty : Z) (product : Product.t) (order : Order.t) (pre : string)
    (products : gmap Z Inventory.Product.t) :
  json_number_ok (Product.Price product) = true ->
  apply_puts ienv (sideEffects env n pid qty product order pre) products
  = inventory_after ienv products pid
      (updateData product (Go.sub (Product.Stock product) qty)).
Proof.
  intros Hfin. unfold sideEffects, updateProductStock, publishEvent.
  cbn [updateData UpdateData.price]. rewrite Hfin. cbn [negb].
  unfold apply_puts.
  destruct (http_put _ _ _ _) as [[code text] | e];
    [destruct (code =? StatusOK) |];
    (destruct (json_number_ok (Event.total_price (order_created env n order)));
       [destruct (kafka_write _ _ _) |]);
    reflexivity.
Qed.

(** The filter that keeps the PUTs of a trace. *)
Lemma puts_of_sideEffects (env : Env) (n : nat) (pid qty : Z)
    (product : Product.t) (order : Order.t) (pre : string) :
  json_number_ok (Product.Price product) = true ->
  List.filter (fun e => match e with HttpPut _ _ => true | _ => false end)
              (sideEffects env n pid qty product order pre)
  = [HttpPut pid (updateData product (Go.sub (Product.Stock product) qty))].
Proof.
  intros Hfin. unfold sideEffects, updateProductStock, publishEvent.
  cbn [updateData UpdateData.price]. rewrite Hfin. cbn [negb].
  destruct (http_put _ _ _ _) as [[code text] | e];
    [destruct (code =? StatusOK) |];
    (destruct (json_number_ok (Event.total_price (order_created env n order)));
       [destruct (kafka_write _ _ _) |]);
    reflexivity.
Qed.

(** X12.  A single order placed against a live inventory service (whose
    store works) for a product whose row can be marshalled and has enough
    stock, and accepted by the order store, is answered 201 and sends one
    PUT, after which the product's row has the stock [Stock - Quantity]
    (the exact difference when the quantity is not negative), an empty
    description, its price at the two decimal places of the column, and its
    id, name and creation time unchanged; every other product is
    untouched. *)
Theorem live_order_writes_back_the_new_stock (env : Env) (ienv : Inventory.Env)
    (products : gmap Z Inventory.Product.t) (req : OrderReq.t) (rows : list Order.t)
    (row : Inventory.Product.t) (id : Z) (created_at : Time) :
  let pid := OrderReq.ProductID req in
  let qty := OrderReq.Quantity req in
  let total := PrimFloat.mul (Inventory.Product.Price row) (Go.float64 qty) in
  products !! pid = Some row ->
  Inventory.db_exec ienv = Ok tt ->
  InventoryApi.product_marshals row = true ->
  qty <= Inventory.Product.Stock row ->
  db_insert env 0 (Insert.mk pid qty total "confirmed" (Some (OrderReq.UserID req)))
  = Ok (id, created_at) ->
  let out := createOrder (live_env env ienv products) (Ok req) rows in
  response out
  = Some (mkResponse StatusCreated
            (Encode_order (Order.mk id (OrderReq.UserID req) pid qty total "confirmed"
                                    created_at)))
  /\ List.filter (fun e => match e with HttpPut _ _ => true | _ => false end) (trace out)
     = [HttpPut pid (UpdateData.mk (Inventory.Product.Name row) ""
                       (Inventory.Product.Price row)
                       (Go.sub (Inventory.Product.Stock row) qty))]
  /\ apply_puts ienv (trace out) products
     = <[pid := restocked row (Go.sub (Inventory.Product.Stock row) qty)]> products
  /\ (forall other, other <> pid ->
        apply_puts ienv (trace out) products !! other = products !! other)
  /\ (0 <= qty -> Inventory.Product.Stock row <= Go.int_max ->
      Go.sub (Inventory.Product.Stock row) qty = Inventory.Product.Stock row - qty).
Proof.
  intros pid qty total Hrow Hdb Hm Hle Hins out.
  pose proof (product_marshals_price row Hm) as Hfin.
  assert (Hexact : 0 <= qty -> Inventory.Product.Stock row <= Go.int_max ->
            Go.sub (Inventory.Product.Stock row) qty = Inventory.Product.Stock row - qty).
  { intros Hq Hmax. apply sub_exact. unfold Go.int_min, Go.int_max in *. lia. }
  assert (Hout : out
                 = mkOutcome
                     (Some (mkResponse StatusCreated
                              (Encode_order (Order.mk id (OrderReq.UserID req) pid qty
                                                      total "confirmed" created_at))))
                     (rows ++ [stored_row (Insert.mk pid qty total "confirmed"
                                             (Some (OrderReq.UserID req))) id created_at])
                     ([HttpGet pid;
                       DbInsert (Insert.mk pid qty total "confirmed"
                                           (Some (OrderReq.UserID req)))]
                      ++ sideEffects (live_env env ienv products) 0 pid qty
                           (snapshot_of_row row)
                           (Order.mk id (OrderReq.UserID req) pid qty total "confirmed"
                                     created_at)
                           "Failed to update inventory: ")).
  { subst out. unfold createOrder. fold pid qty.
    rewrite (live_getProductInfo env ienv products 0 pid row Hrow Hdb Hm).
    cbn [snapshot_of_row Product.Stock Product.Price].
    rewrite (proj2 (Z.ltb_ge _ _) Hle).
    unfold db_QueryRow. cbn [live_env db_insert]. fold total. by rewrite Hins. }
  assert (Hputs : apply_puts ienv (trace out) products
                  = <[pid := restocked row (Go.sub (Inventory.Product.Stock row) qty)]>
                      products).
  { rewrite Hout. cbn [trace]. rewrite apply_puts_app.
    rewrite (apply_puts_without_put ienv [_; _]) by no_put.
    rewrite apply_puts_sideEffects by exact Hfin.
    by rewrite inventory_after_table, Hdb, Hrow. }
  split_and!; [by rewrite Hout | | exact Hputs | | exact Hexact].
  - rewrite Hout. cbn [trace]. rewrite List.filter_app. cbn [List.filter app].
    by rewrite puts_of_sideEffects.
  - intros other Hne. rewrite Hputs. by rewrite lookup_insert_ne.
Qed.

Lemma live_order_writes_back_the_new_stock_witness :
  response (createOrder (live_env env_up inventory_env inventory_table)
                        (Ok (OrderReq.mk 1 5 7)) [])
  = Some (mkResponse StatusCreated
            (JsonOrder (Order.mk 101 7 1 5 500%float "confirmed" 1700000000)))
  /\ apply_puts inventory_env
       (trace (createOrder (live_env env_up inventory_env inventory_table)
                           (Ok (OrderReq.mk 1 5 7)) []))
       inventory_table !! 1
     = Some (Inventory.Product.mk 1 "Laptop" "" 100%float 45 1690000000).
Proof.
  destruct (live_order_writes_back_the_new_stock env_up inventory_env inventory_table
              (OrderReq.mk 1 5 7) []
              (Inventory.Product.mk 1 "Laptop" "High-performance laptop" 100%float 50
                                    1690000000)
              101 1700000000 eq_refl eq_refl eq_refl ltac:(simpl; lia) eq_refl)
    as (Hr & _ & Hput & _).
  split; [exact Hr |]. rewrite Hput. by rewrite lookup_insert_eq.
Defined.

(** The trace of a batch that is committed, with the effects of the
    external phase spelled out. *)
Lemma createBulkOrder_committed (env : Env) (items : list Item.t)
    (rows : list Order.t) (vs : list ValidatedItem.t) (eff_v eff_t : list Effect)
    (created : list Order.t) (tx1 : Tx) :
  validationPhase env 0 items = (Validated vs, eff_v) ->
  (exists u, db_begin env = Ok u) ->
  transactionPhase env 0 vs (mkTx [] false) = (Ok created, tx1, eff_t) ->
  (exists u, db_commit env = Ok u) ->
  trace (createBulkOrder env (Ok items) rows)
  = eff_v ++ [TxBegin] ++ eff_t ++ [TxCommit]
    ++ (externalPhase env 0 created vs).1 ++ [TxRollback].
Proof.
  intros Hval [u Hb] Htx [u' Hc]. unfold createBulkOrder.
  rewrite Hval, Hb, Htx. unfold tx_Commit. rewrite Hc.
  by destruct (externalPhase env 0 created vs).
Qed.

(** X13.  Two items of one batch that ask for the same product are each
    validated against the full stock and each write back that stock less
    their own quantity.  Against a live inventory service the batch is
    answered 201 with both orders, even when the two quantities together
    exceed the stock, and the product is left with the stock less the
    SECOND quantity only: the first item's decrement is lost. *)
Theorem same_product_twice_in_a_batch_loses_an_update (env : Env)
    (ienv : Inventory.Env) (products : gmap Z Inventory.Product.t) (pid q1 q2 : Z)
    (rows : list Order.t) (row : Inventory.Product.t)
    (id1 id2 : Z) (t1 t2 : Time) :
  let v1 := ValidatedItem.mk pid q1 (snapshot_of_row row) in
  let v2 := ValidatedItem.mk pid q2 (snapshot_of_row row) in
  products !! pid = Some row ->
  Inventory.db_exec ienv = Ok tt ->
  InventoryApi.product_marshals row = true ->
  q1 <= Inventory.Product.Stock row ->
  q2 <= Inventory.Product.Stock row ->
  db_begin env = Ok tt ->
  db_commit env = Ok tt ->
  db_insert env 0 (insert_of v1) = Ok (id1, t1) ->
  db_insert env 1 (insert_of v2) = Ok (id2, t2) ->
  let out := createBulkOrder (live_env env ienv products)
               (Ok [Item.mk pid q1; Item.mk pid q2]) rows in
  response out
  = Some (mkResponse StatusCreated
            (Encode_orders [order_for 0 v1 id1 t1; order_for 0 v2 id2 t2]))
  /\ table out
     = rows ++ [persisted (order_for 0 v1 id1 t1); persisted (order_for 0 v2 id2 t2)]
  /\ apply_puts ienv (trace out) products
     = <[pid := restocked row (Go.sub (Inventory.Product.Stock row) q2)]> products.
Proof.
  intros v1 v2 Hrow Hdb Hm Hq1 Hq2 Hbegin Hcommit Hi1 Hi2 out.
  pose proof (product_marshals_price row Hm) as Hfin.
  set (lenv := live_env env ienv products) in *.
  assert (Hsnap : snapshots_of lenv [Item.mk pid q1; Item.mk pid q2] [v1; v2]).
  { split; [done |]. intros [| [| i]] item Hi; simpl in Hi; inversion Hi; subst;
      exists (snapshot_of_row row);
      (split; [by apply live_getProductInfo | by split]). }
  pose proof (snapshots_validated _ _ _ Hsnap) as Hval.
  destruct (transactionPhase lenv 0 [v1; v2] (mkTx [] false))
    as [[[created | e] tx1] eff_t] eqn:Htx.
  2:{ destruct (transactionPhase_Err _ _ _ _ _ _ _ Htx) as ((k & v & Hk & He) & _).
      destruct k as [| [| k]]; simpl in Hk; inversion Hk; subst; simpl in He;
        congruence. }
  destruct (transactionPhase_Ok _ _ _ _ _ _ _ Htx) as (_ & -> & Hlen & Hall).
  assert (Hcreated : created = [order_for 0 v1 id1 t1; order_for 0 v2 id2 t2]).
  { destruct (Hall 0%nat v1 eq_refl) as (i1 & s1 & Hd1 & Ho1).
    destruct (Hall 1%nat v2 eq_refl) as (i2 & s2 & Hd2 & Ho2).
    simpl in Hd1, Hd2. rewrite Hi1 in Hd1. rewrite Hi2 in Hd2.
    inversion Hd1; inversion Hd2; subst.
    destruct created as [| a [| b [| c l]]]; simpl in Hlen; try discriminate.
    simpl in Ho1, Ho2. by inversion Ho1; inversion Ho2. }
  subst created.
  pose proof (createBulkOrder_committed lenv _ rows _ _ _ _ _ Hval
                (ex_intro _ tt Hbegin) Htx (ex_intro _ tt Hcommit)) as Htrace.
  destruct (createBulkOrder_validated lenv _ rows _ _ Hval)
    as [([e He] & _) | [(_ & (k & v & e & Hk & He) & _)
       | [(_ & [e He] & _) | (_ & _ & created & eff_x & Hlen' & Hall' & Hr & Ht & _)]]].
  { simpl in He. congruence. }
  { destruct (Hall k v Hk) as (i & s & Hok & _). simpl in Hok, He. congruence. }
  { simpl in He. congruence. }
  assert (Hcreated : created = [order_for 0 v1 id1 t1; order_for 0 v2 id2 t2]).
  { destruct (Hall' 0%nat v1 eq_refl) as (i1 & s1 & Hd1 & Ho1).
    destruct (Hall' 1%nat v2 eq_refl) as (i2 & s2 & Hd2 & Ho2).
    simpl in Hd1, Hd2. rewrite Hi1 in Hd1. rewrite Hi2 in Hd2.
    inversion Hd1; inversion Hd2; subst.
    destruct created as [| a [| b [| c l]]]; simpl in Hlen'; try discriminate.
    simpl in Ho1, Ho2. by inversion Ho1; inversion Ho2. }
  subst created. subst out. split_and!; [exact Hr | exact Ht |].
  rewrite Htrace. rewrite !apply_puts_app.
  rewrite (apply_puts_without_put ienv (map fetch_of _)) by no_put.
  rewrite (apply_puts_without_put ienv [TxBegin]) by no_put.
  rewrite (apply_puts_without_put ienv (map _ [v1; v2])) by no_put.
  rewrite (apply_puts_without_put ienv [TxCommit]) by no_put.
  rewrite (apply_puts_without_put ienv [TxRollback]) by no_put.
  cbn [externalPhase]. simpl lookup. cbn [fst].
  destruct (externalPhase lenv 2 [] [v1; v2]) as [eff' c] eqn:Hx.
  simpl in Hx. inversion Hx; subst. cbn [fst]. rewrite app_nil_r, apply_puts_app.
  rewrite !apply_puts_sideEffects by exact Hfin.
  unfold v1, v2.
  cbn [ValidatedItem.ProductID ValidatedItem.Quantity ValidatedItem.Product].
  rewrite (inventory_after_table ienv products), Hdb, Hrow.
  rewrite inventory_after_table, Hdb, lookup_insert_eq.
  unfold restocked. simpl. by rewrite insert_insert_eq.
Qed.

Lemma same_product_twice_in_a_batch_loses_an_update_witness :
  30 + 30 > Inventory.Product.Stock
              (Inventory.Product.mk 1 "Laptop" "High-performance laptop" 100%float 50
                                    1690000000)
  /\ apply_puts inventory_env
       (trace (createBulkOrder (live_env env_up inventory_env inventory_table)
                 (Ok [Item.mk 1 30; Item.mk 1 30]) []))
       inventory_table !! 1
     = Some (Inventory.Product.mk 1 "Laptop" "" 100%float 20 1690000000).
Proof.
  split; [simpl; lia |].
  destruct (same_product_twice_in_a_batch_loses_an_update env_up inventory_env
              inventory_table 1 30 30 []
              (Inventory.Product.mk 1 "Laptop" "High-performance laptop" 100%float 50
                                    1690000000)
              101 102 1700000000 1700000000
              eq_refl eq_refl eq_refl ltac:(simpl; lia) ltac:(simpl; lia)
              eq_refl eq_refl eq_refl eq_refl)
    as (_ & _ & Hput).
  rewrite Hput. by rewrite lookup_insert_eq.
Defined.

(** ** Further properties: the gateway *)

Lemma substring_all (s : string) : String.substring 0 (String.length s) s = s.
Proof. induction s as [| c s IH]; [done |]. simpl. by rewrite IH. Qed.

Lemma substring_after (a b : string) :
  String.substring (String.length a) (String.length b) (a +:+ b) = b.
Proof. induction a as [| c a IH]; [apply substring_all | exact IH]. Qed.

Lemma length_append (a b : string) :
  String.length (a +:+ b) = (String.length a + String.length b)%nat.
Proof. induction a as [| c a IH]; [done |]. simpl. by rewrite IH. Qed.

Lemma slice_from_append (a b : string) :
  Gateway.slice_from (String.length a) (a +:+ b) = Some b.
Proof.
  unfold Gateway.slice_from. rewrite length_append.
  destruct (Nat.ltb_spec (String.length a + String.length b) (String.length a));
    [lia |].
  by rewrite Nat.add_comm, Nat.add_sub, substring_after.
Qed.

(** The request a proxy route makes for a path and a backend: the URL the
    backend is asked, and the reply that comes of it. *)
Lemma proxyRequest_on_prefixed_path (env : Gateway.Env) (r : Gateway.Request)
    (targetURL stripPrefix newPrefix rest : string) :
  stripPrefix <> ""%string ->
  Gateway.Path r = stripPrefix +:+ rest ->
  let url := (targetURL +:+ (newPrefix +:+ rest)) in
  let url := if String.eqb (Gateway.RawQuery r) "" then url
             else url +:+ "?" +:+ Gateway.RawQuery r in
  Gateway.proxyRequest env r targetURL stripPrefix newPrefix
  = Some (match Gateway.http_NewRequest env (Gateway.Method r) url with
          | Some _ => Gateway.Error "Failed to create proxy request"
                                    StatusInternalServerError
          | None =>
              match Gateway.http_Do env (Gateway.Method r) url
                      (Gateway.copy_headers (Gateway.Header r) ∅) (Gateway.Body r) with
              | Err _ => Gateway.Error "Service unavailable"
                                       Gateway.StatusServiceUnavailable
              | Ok resp =>
                  Gateway.Forwarded
                    (Gateway.mkResponse (Gateway.StatusCode resp)
                       (Gateway.copy_headers (Gateway.RespHeader resp) ∅)
                       (Gateway.RespBody resp))
              end
          end).
Proof.
  intros Hne Hpath. simpl. unfold Gateway.proxyRequest.
  destruct (String.eqb_spec stripPrefix "") as [-> | _]; [done |].
  rewrite Hpath, slice_from_append. simpl.
  destruct (Gateway.http_NewRequest env _ _); [done |].
  by destruct (Gateway.http_Do env _ _ _ _).
Qed.

(** X14.  The router hands to each proxy handler the requests whose path
    starts with the handler's prefix, and on those the handler never
    indexes the path out of range: it replies.  A path [/api/orders<rest>]
    is asked of the order service as [/orders<rest>] and a path
    [/api/products<rest>] of the inventory service as [/products<rest>],
    for every [rest] (so [/api/ordersX] becomes [/ordersX]), with the query
    string kept after a [?].  A path shorter than the prefix would make the
    handler panic. *)
Theorem gateway_rewrites_the_prefix (env : Gateway.Env)
    (inventoryServiceURL orderServiceURL : string) (r : Gateway.Request) :
  (forall rest,
     Gateway.Path r = "/api/orders" +:+ rest ->
     Gateway.proxyToOrders env orderServiceURL r <> None
     /\ Gateway.proxyToOrders env orderServiceURL r
        = Gateway.proxyRequest env
            (Gateway.mkRequest (Gateway.Method r) ("/orders" +:+ rest)
               (Gateway.RawQuery r) (Gateway.Header r) (Gateway.Body r))
            orderServiceURL "" "")
  /\ (forall rest,
        Gateway.Path r = "/api/products" +:+ rest ->
        Gateway.proxyToInventory env inventoryServiceURL r <> None
        /\ Gateway.proxyToInventory env inventoryServiceURL r
           = Gateway.proxyRequest env
               (Gateway.mkRequest (Gateway.Method r) ("/products" +:+ rest)
                  (Gateway.RawQuery r) (Gateway.Header r) (Gateway.Body r))
               inventoryServiceURL "" "")
  /\ ((String.length (Gateway.Path r) < String.length "/api/orders")%nat ->
      Gateway.proxyToOrders env orderServiceURL r = None).
Proof.
  assert (Hdirect : forall base path,
            Gateway.proxyRequest env
              (Gateway.mkRequest (Gateway.Method r) path (Gateway.RawQuery r)
                 (Gateway.Header r) (Gateway.Body r)) base "" ""
            = Some (match Gateway.http_NewRequest env (Gateway.Method r)
                            (if String.eqb (Gateway.RawQuery r) "" then base +:+ path
                             else (base +:+ path) +:+ "?" +:+ Gateway.RawQuery r) with
                    | Some _ => Gateway.Error "Failed to create proxy request"
                                              StatusInternalServerError
                    | None =>
                        match Gateway.http_Do env (Gateway.Method r)
                                (if String.eqb (Gateway.RawQuery r) ""
                                 then base +:+ path
                                 else (base +:+ path) +:+ "?" +:+ Gateway.RawQuery r)
                                (Gateway.copy_headers (Gateway.Header r) ∅)
                                (Gateway.Body r) with
                        | Err _ => Gateway.Error "Service unavailable"
                                                 Gateway.StatusServiceUnavailable
                        | Ok resp =>
                            Gateway.Forwarded
                              (Gateway.mkResponse (Gateway.StatusCode resp)
                                 (Gateway.copy_headers (Gateway.RespHeader resp) ∅)
                                 (Gateway.RespBody resp))
                        end
                    end)).
  { intros base path. unfold Gateway.proxyRequest. simpl.
    destruct (Gateway.http_NewRequest env _ _); [done |].
    by destruct (Gateway.http_Do env _ _ _ _). }
  split_and!.
  - intros rest Hpath. unfold Gateway.proxyToOrders.
    rewrite (proxyRequest_on_prefixed_path env r _ _ _ rest) by done.
    split; [done |]. by rewrite Hdirect.
  - intros rest Hpath. unfold Gateway.proxyToInventory.
    rewrite (proxyRequest_on_prefixed_path env r _ _ _ rest) by done.
    split; [done |]. by rewrite Hdirect.
  - intros Hshort. unfold Gateway.proxyToOrders, Gateway.proxyRequest, Gateway.slice_from.
    cbn [String.eqb Ascii.eqb Bool.eqb].
    by rewrite (proj2 (Nat.ltb_lt _ _) Hshort).
Qed.

Lemma gateway_rewrites_the_prefix_witness :
  Gateway.proxyToOrders gateway_env "http://orders:8082"
    (Gateway.mkRequest "POST" "/api/orders/bulk" "" ∅ "{}")
  = Some (Gateway.Forwarded
            (Gateway.mkResponse 201 {[ "Content-Type" := ["application/json"] ]}
                                "http://orders:8082/orders/bulk")).
Proof.
  destruct (gateway_rewrites_the_prefix gateway_env "http://inventory:8081"
              "http://orders:8082"
              (Gateway.mkRequest "POST" "/api/orders/bulk" "" ∅ "{}"))
    as (Horders & _).
  destruct (Horders "/bulk" eq_refl) as [_ ->]. vm_compute. reflexivity.
Defined.

(** Adding the values of one key, in order, to a header. *)
Lemma Header_Add_all (key : string) (values : list string) :
  forall h : gmap string (list string),
    foldl (fun h value => Gateway.Header_Add key value h) h values !! key
    = match values with
      | [] => h !! key
      | _ => Some (default [] (h !! key) ++ values)
      end
    /\ forall k, k <> key ->
         foldl (fun h value => Gateway.Header_Add key value h) h values !! k = h !! k.
Proof.
  induction values as [| v rest IH]; intros h; [done |]. simpl.
  destruct (IH (Gateway.Header_Add key v h)) as [Hkey Hother].
  unfold Gateway.Header_Add in *. split.
  - rewrite Hkey, lookup_insert_eq. simpl.
    destruct rest; [done |]. by rewrite <- app_assoc.
  - intros k Hne. rewrite (Hother k Hne). by rewrite lookup_insert_ne.
Qed.

(** The copy of a header holds, under each key, the values of the source
    in their order; a key that has no value is not copied. *)
Lemma copy_headers_lookup (src : gmap string (list string)) (k : string) :
  Gateway.copy_headers src ∅ !! k
  = match src !! k with
    | Some (v :: values) => Some (v :: values)
    | _ => None
    end.
Proof.
  unfold Gateway.copy_headers. revert k.
  apply (map_fold_weak_ind
           (fun (acc m : gmap string (list string)) =>
              forall k, acc !! k = match m !! k with
                                   | Some (v :: values) => Some (v :: values)
                                   | _ => None
                                   end)).
  - intros k. by rewrite !lookup_empty.
  - intros i values m acc Hfresh IH k.
    destruct (Header_Add_all i values acc) as [Hkey Hother].
    destruct (decide (k = i)) as [-> | Hne].
    + rewrite lookup_insert_eq, Hkey, (IH i), Hfresh. by destruct values.
    + rewrite lookup_insert_ne by done. rewrite (Hother k Hne). apply IH.
Qed.

(** X15.  When the backend answers, the gateway forwards its status code
    and body unchanged, and every header with its values in their order; a
    header key without values is dropped, on the way in and on the way
    back.  When the backend cannot be reached the client gets 503 "Service
    unavailable". *)
Theorem gateway_forwards_verbatim (env : Gateway.Env) (r : Gateway.Request)
    (targetURL : string) :
  let url := if String.eqb (Gateway.RawQuery r) "" then targetURL +:+ Gateway.Path r
             else (targetURL +:+ Gateway.Path r) +:+ "?" +:+ Gateway.RawQuery r in
  let sent := Gateway.copy_headers (Gateway.Header r) ∅ in
  Gateway.http_NewRequest env (Gateway.Method r) url = None ->
  (forall k, sent !! k = match Gateway.Header r !! k with
                         | Some (v :: values) => Some (v :: values)
                         | _ => None
                         end)
  /\ (forall resp,
        Gateway.http_Do env (Gateway.Method r) url sent (Gateway.Body r) = Ok resp ->
        exists answered,
          Gateway.proxyRequest env r targetURL "" "" = Some (Gateway.Forwarded answered)
          /\ Gateway.StatusCode answered = Gateway.StatusCode resp
          /\ Gateway.RespBody answered = Gateway.RespBody resp
          /\ forall k, Gateway.RespHeader answered !! k
                       = match Gateway.RespHeader resp !! k with
                         | Some (v :: values) => Some (v :: values)
                         | _ => None
                         end)
  /\ (forall e,
        Gateway.http_Do env (Gateway.Method r) url sent (Gateway.Body r) = Err e ->
        Gateway.proxyRequest env r targetURL "" ""
        = Some (Gateway.Error "Service unavailable" 503)).
Proof.
  intros url sent Hnew. split_and!.
  - intros k. apply copy_headers_lookup.
  - intros resp Hdo. unfold Gateway.proxyRequest. simpl.
    fold url. rewrite Hnew. fold sent. rewrite Hdo.
    eexists. split; [reflexivity |]. simpl. split_and!; try done.
    intros k. apply copy_headers_lookup.
  - intros e Hdo. unfold Gateway.proxyRequest. simpl.
    fold url. rewrite Hnew. fold sent. by rewrite Hdo.
Qed.

Lemma gateway_forwards_verbatim_witness :
  exists answered,
    Gateway.proxyRequest gateway_env
      (Gateway.mkRequest "GET" "/orders" "limit=20" {[ "Accept" := ["*/*"] ]} "")
      "http://orders:8082" "" ""
    = Some (Gateway.Forwarded answered)
    /\ Gateway.StatusCode answered = 201
    /\ Gateway.RespBody answered = "http://orders:8082/orders?limit=20"%string.
Proof.
  destruct (gateway_forwards_verbatim gateway_env
              (Gateway.mkRequest "GET" "/orders" "limit=20" {[ "Accept" := ["*/*"] ]} "")
              "http://orders:8082" eq_refl) as (_ & Hok & _).
  destruct (Hok (Gateway.mkResponse 201 {[ "Content-Type" := ["application/json"] ]}
                                    "http://orders:8082/orders?limit=20") eq_refl)
    as (answered & Hp & Hs & Hb & _).
  exists answered. split_and!; assumption.
Defined.

(** ** Further properties: the event consumers *)

(** What the payment service finds in an order event the bus delivers. *)
Lemma delivered_order_event (e : Event.t) :
  wire (order_event_map e) !! "event_type" = Some (VString (Event.event_type e))
  /\ wire (order_event_map e) !! "order_id" = Some (VFloat (Go.float64 (Event.order_id e)))
  /\ wire (order_event_map e) !! "total_price" = Some (VFloat (Event.total_price e)).
Proof.
  unfold wire, order_event_map. rewrite !lookup_fmap. split_and!.
  - by rewrite lookup_insert_eq.
  - rewrite lookup_insert_ne by done. by rewrite lookup_insert_eq.
  - do 4 (rewrite lookup_insert_ne by done). by rewrite lookup_insert_eq.
Qed.

(** X17.  The [order_created] event of an order, as the bus delivers it to
    the payment service, makes it insert one payment for that order, of
    status [completed] and of the order's total.  When the store accepts,
    the payments table gains exactly that payment, whose amount is the
    total the orders table holds for the order (both columns keep two
    decimal places), and one [payment_processed] event is handed to
    [publishEvent] with the total as computed; when the store refuses,
    nothing is added and nothing is published.  The order id travels as a
    [float64] and is converted back with [int]. *)
Theorem order_event_is_paid (env : Env) (n : nat) (order : Order.t)
    (penv : PaymentService.Env) (table : list Payment.t) :
  let delivered := wire (order_event_map (order_created env n order)) in
  let orderID := int_of_float64 (PaymentService.int_unfit penv)
                                (Go.float64 (Order.ID order)) in
  let total := Order.TotalPrice order in
  let out := PaymentService.consumeMessage penv (Ok delivered) table in
  (forall paymentID createdAt,
     PaymentService.db_insert penv orderID total "completed" = Ok (paymentID, createdAt) ->
     PaymentService.payments out
     = table ++ [Payment.mk paymentID orderID (Order.TotalPrice (persisted order))
                            "completed" createdAt]
     /\ PaymentService.published out
        = [PaymentEvent.mk "payment_processed" paymentID orderID total "completed"
                           (PaymentService.now_unix penv)])
  /\ (forall e,
        PaymentService.db_insert penv orderID total "completed" = Err e ->
        PaymentService.payments out = table /\ PaymentService.published out = []).
Proof.
  intros delivered orderID total out.
  destruct (delivered_order_event (order_created env n order)) as (Htype & Hid & Htotal).
  fold delivered in Htype, Hid, Htotal.
  assert (Hout : out = PaymentService.processPayment penv delivered table).
  { subst out. unfold PaymentService.consumeMessage. by rewrite Htype. }
  rewrite Hout. unfold PaymentService.processPayment.
  rewrite Hid, Htotal. cbn [as_float64 order_created Event.order_id Event.total_price].
  fold orderID total. split.
  - intros paymentID createdAt ->. by split.
  - intros e ->. by split.
Qed.

Lemma order_event_is_paid_witness :
  PaymentService.payments
    (PaymentService.consumeMessage payment_env
       (Ok (wire (order_event_map
                    (order_created env_up 0
                       (Order.mk 102 0 4 3 (PrimFloat.mul (cents 10) 3) "confirmed"
                                 1700000000)))))
       [])
  = [Payment.mk 9001 102 (cents 30) "completed" 1700000005].
Proof.
  destruct (order_event_is_paid env_up 0
              (Order.mk 102 0 4 3 (PrimFloat.mul (cents 10) 3) "confirmed" 1700000000)
              payment_env []) as [Hpaid _].
  destruct (Hpaid 9001 1700000005 eq_refl) as [Hp _].
  rewrite Hp. vm_compute. reflexivity.
Defined.

(** X18.  The notification service panics exactly on the messages that
    decode to a map without a string under [event_type] (an absent key, a
    number, a null): its type assertion has no second result.  The payment
    service skips such a message and leaves its table alone.  A message
    that does not decode is logged by both. *)
Theorem notifier_panics_on_untyped_events (penv : PaymentService.Env)
    (event : gmap string Value) (table : list Payment.t) :
  (untyped event <-> NotificationService.consumeMessage (Ok event) = None)
  /\ (untyped event ->
      PaymentService.consumeMessage penv (Ok event) table
      = PaymentService.mkOutcome table [] [])
  /\ (forall e,
        NotificationService.consumeMessage (Err e)
        = Some [Printf "Error unmarshaling message: %v" [AText e]]
        /\ PaymentService.consumeMessage penv (Err e) table
           = PaymentService.mkOutcome table []
               [Printf "Error unmarshaling message: %v" [AText e]]).
Proof.
  unfold untyped, NotificationService.consumeMessage, PaymentService.consumeMessage.
  split_and!.
  - destruct (event !! "event_type") as [[z | f | t | ] |]; split; try done.
    intros Hno. by destruct (Hno t).
  - intros Hno. destruct (event !! "event_type") as [[z | f | t | ] |]; try done.
    by destruct (Hno t).
  - done.
Qed.

Lemma notifier_panics_on_untyped_events_witness :
  untyped {[ "order_id" := VFloat 7 ]}
  /\ NotificationService.consumeMessage (Ok {[ "order_id" := VFloat 7 ]}) = None
  /\ PaymentService.consumeMessage payment_env (Ok {[ "order_id" := VFloat 7 ]}) []
     = PaymentService.mkOutcome [] [] [].
Proof.
  assert (Hno : untyped {[ "order_id" := VFloat 7 ]}).
  { intros t. by rewrite lookup_singleton_ne. }
  destruct (notifier_panics_on_untyped_events payment_env {[ "order_id" := VFloat 7 ]} [])
    as (Hpanic & Hskip & _).
  split; [exact Hno |]. split; [by apply Hpanic | by apply Hskip].
Defined.

(** An event whose type is one of the six the notification service knows
    is recognised. *)
Lemma recognised_type (event : gmap string Value) (t : string) :
  event !! "event_type" = Some (VString t) ->
  t ∈ ["order_created"; "product_created"; "product_updated"; "low_stock_alert";
       "product_deleted"; "payment_processed"]%string ->
  recognised event.
Proof.
  intros Htype Hknown. unfold recognised, NotificationService.consumeMessage, wire.
  rewrite lookup_fmap, Htype. cbn [fmap option_fmap option_map wire_value].
  eexists. split; [reflexivity |].
  unfold NotificationService.processNotification, unknown_format.
  apply list_elem_of_In in Hknown. simpl in Hknown.
  destruct Hknown as [<- | [<- | [<- | [<- | [<- | [<- | []]]]]]]; by vm_compute.
Qed.

(** X19.  Every event that a service of the repository hands to
    [publishEvent] is one the notification service knows: delivered over
    the bus it is logged with the line of its type, never as an unknown
    event type and never with a panic.  This holds for the order events of
    the order handlers, for the events of [createProduct], [updateProduct]
    and [deleteProduct], and for the payment events. *)
Theorem published_events_are_recognised :
  (forall env n order, recognised (order_event_map (order_created env n order)))
  /\ (forall ienv assigned decoded products e,
        e ∈ (InventoryApi.createProduct ienv assigned decoded products).2 ->
        recognised e)
  /\ (forall ienv id decoded products e,
        e ∈ (Inventory.updateProduct ienv id decoded products).2 ->
        recognised (InventoryApi.update_event_map e))
  /\ (forall ienv id products e,
        e ∈ (InventoryApi.deleteProduct ienv id products).2 ->
        recognised e)
  /\ (forall penv event table e,
        e ∈ PaymentService.published (PaymentService.processPayment penv event table) ->
        recognised (payment_event_map e)).
Proof.
  split_and!.
  - intros env n order. apply (recognised_type _ "order_created"); [done |].
    apply list_elem_of_In. simpl. tauto.
  - intros ienv [id ts] decoded products e. unfold InventoryApi.createProduct.
    destruct decoded as [p | err]; [| by intros ?%elem_of_nil].
    destruct (Inventory.db_exec ienv); [| by intros ?%elem_of_nil].
    destruct (products !! id); [by intros ?%elem_of_nil |].
    cbn [snd]. intros ->%list_elem_of_singleton.
    apply (recognised_type _ "product_created"); [done |].
    apply list_elem_of_In. simpl. tauto.
  - intros ienv id decoded products e. unfold Inventory.updateProduct.
    destruct decoded as [p | err]; [| by intros ?%elem_of_nil].
    destruct (Inventory.db_exec ienv); [| by intros ?%elem_of_nil].
    destruct (Inventory.db_update _ _ _ _ _ _) as [products' rowsAffected].
    destruct (rowsAffected =? 0); [by intros ?%elem_of_nil |].
    cbn [snd]. intros [-> | Hlow]%elem_of_cons.
    + apply (recognised_type _ "product_updated"); [done |].
      apply list_elem_of_In. simpl. tauto.
    + destruct (Inventory.Product.Stock p <? 10); [| by apply elem_of_nil in Hlow].
      apply list_elem_of_singleton in Hlow as ->.
      apply (recognised_type _ "low_stock_alert"); [done |].
      apply list_elem_of_In. simpl. tauto.
  - intros ienv id products e. unfold InventoryApi.deleteProduct.
    destruct (Inventory.db_exec ienv); [| by intros ?%elem_of_nil].
    destruct (products !! id); [| by intros ?%elem_of_nil].
    cbn [snd]. intros ->%list_elem_of_singleton.
    apply (recognised_type _ "product_deleted"); [done |].
    apply list_elem_of_In. simpl. tauto.
  - intros penv event table e. unfold PaymentService.processPayment.
    destruct (PaymentService.db_insert penv _ _ _) as [[paymentID createdAt] | err];
      [| by intros ?%elem_of_nil].
    cbn [PaymentService.published]. intros ->%list_elem_of_singleton.
    apply (recognised_type _ "payment_processed"); [done |].
    apply list_elem_of_In. simpl. tauto.
Qed.
